(** * update_research_data.py: a shallow embedding and its properties

    The script reads a spreadsheet of faculty (name, Google Scholar profile
    URL), asks the [scholarly] library for each author's publications and
    writes a flat JSON array.  This development embeds the three functions of
    the script ([extract_scholar_userid], [fetch_author_pubs], [main]) together
    with the library calls they rely on, and proves properties of them.

    Modelling conventions.
    - A Python [str] is a Rocq [string], read as its UTF-8 encoding.  Search,
      split and comparison with ASCII patterns are exact on that encoding.
      What the libraries do with Unicode tables or with IP literals is not
      computed here: it is the interface [PyLib], and every theorem holds for
      all its implementations.
    - Values coming out of the spreadsheet and out of the publication source
      are the scalars [pyval] (None, bool, int, str).  Floats and containers
      used as field values are outside the model.
    - Python functions are computations that may raise: [result] for the pure
      ones, [M] (state and exceptions) for the ones that print, sleep, talk to
      the publication source or write the output file.  Only subclasses of
      [Exception] are modelled.
    - The output file holds the text [json.dump] writes with [indent=2] and
      [ensure_ascii=False]; [json.load] is a scanner of that text.  Library
      behaviour follows CPython 3.12. *)

From Stdlib Require Import ZArith Ascii String List Sorted Lia Bool.
From Stdlib Require Import DecimalString DecimalN DecimalPos.
From stdpp Require Import base option gmap strings.

Local Open Scope Z_scope.

(** ** Python values and exceptions *)

Inductive pyval : Type :=
| VNone
| VBool (b : bool)
| VInt (z : Z)
| VStr (s : string).

Inductive exn : Type :=
| AttributeError
| IndexError
| KeyError
| TypeError
| ValueError
| SourceError (msg : string).

Inductive result (A : Type) : Type :=
| Ok (a : A)
| Raise (e : exn).
Arguments Ok {A} a.
Arguments Raise {A} e.

Definition rbind {A B} (r : result A) (k : A -> result B) : result B :=
  match r with
  | Ok a => k a
  | Raise e => Raise e
  end.

Declare Scope py_scope.
Delimit Scope py_scope with py.
Notation "'let!' x ':=' r 'in' k" := (rbind r (fun x => k))
  (at level 10, x name, r at level 100, k at level 200) : py_scope.

(** [bool(v)] *)
Definition truthy (v : pyval) : bool :=
  match v with
  | VNone => false
  | VBool b => b
  | VInt z => negb (z =? 0)
  | VStr s => negb (String.eqb s "")
  end.

(** [a or b] *)
Definition py_or (a b : pyval) : pyval := if truthy a then a else b.

(** ** Strings *)

Module Str.

(** [p in s] *)
Fixpoint contains (p s : string) : bool :=
  String.prefix p s ||
  match s with
  | EmptyString => false
  | String _ s' => contains p s'
  end.

(** [s.split(sep)] for a non-empty [sep]: [skip] counts the characters of a
    separator still to be dropped, [cur] is the part being read. *)
Fixpoint split_go (sep : string) (skip : nat) (cur s : string) : list string :=
  match s with
  | EmptyString => [cur]
  | String c s' =>
      match skip with
      | S k => split_go sep k cur s'
      | O =>
          if String.prefix sep s
          then cur :: split_go sep (String.length sep - 1) "" s'
          else split_go sep 0 (cur +:+ String c "") s'
      end
  end.

Definition split (sep s : string) : list string := split_go sep 0 "" s.

(** [s.split(c, 1)] for a single character: the text before the first [c]
    and, when there is one, the text after it. *)
Fixpoint split1 (c : ascii) (s : string) : string * option string :=
  match s with
  | EmptyString => (""%string, None)
  | String a s' =>
      if Ascii.eqb a c then (""%string, Some s')
      else let '(h, t) := split1 c s' in (String a h, t)
  end.

Fixpoint forallb (f : ascii -> bool) (s : string) : bool :=
  match s with
  | EmptyString => true
  | String c s' => f c && forallb f s'
  end.

Fixpoint existsb (f : ascii -> bool) (s : string) : bool :=
  match s with
  | EmptyString => false
  | String c s' => f c || existsb f s'
  end.

Fixpoint filter (f : ascii -> bool) (s : string) : string :=
  match s with
  | EmptyString => ""
  | String c s' => if f c then String c (filter f s') else filter f s'
  end.

Fixpoint map (f : ascii -> ascii) (s : string) : string :=
  match s with
  | EmptyString => ""
  | String c s' => String (f c) (map f s')
  end.

(** the longest prefix whose characters all satisfy [f], and the rest *)
Fixpoint span (f : ascii -> bool) (s : string) : string * string :=
  match s with
  | EmptyString => (""%string, ""%string)
  | String c s' =>
      if f c then let '(h, t) := span f s' in (String c h, t)
      else (""%string, s)
  end.

Definition code (c : ascii) : nat := nat_of_ascii c.

Definition between (lo hi : nat) (c : ascii) : bool :=
  (Nat.leb lo (code c)) && (Nat.leb (code c) hi).

Definition is_ascii (c : ascii) : bool := Nat.ltb (code c) 128.
Definition is_digit (c : ascii) : bool := between 48 57 c.
Definition is_alpha (c : ascii) : bool := between 65 90 c || between 97 122 c.

Definition hex_value (c : ascii) : option nat :=
  if is_digit c then Some (code c - 48)%nat
  else if between 65 70 c then Some (code c - 55)%nat
  else if between 97 102 c then Some (code c - 87)%nat
  else None.

(** the value of a string of ASCII decimal digits *)
Fixpoint decimal_go (acc : Z) (s : string) : Z :=
  match s with
  | EmptyString => acc
  | String c s' => decimal_go (10 * acc + Z.of_nat (code c - 48)) s'
  end.
Definition decimal (s : string) : Z := decimal_go 0 s.

(** [p] occurs in [s] *)
Definition occurs (p s : string) : Prop :=
  exists a b, s = String.append a (String.append p b).

End Str.

(** ** What the libraries decide from tables this development does not hold *)

Class PyLib : Type := {
  (** [urllib.parse._check_bracketed_host] accepts the text between the
      brackets of a network location (an IPv6 or IPvFuture literal) *)
  check_bracketed_host : string -> bool;
  (** [urllib.parse._checknetloc] accepts a network location that has a
      non-ASCII character (NFKC normalisation brings in none of [/?#@:]) *)
  checknetloc : string -> bool;
  (** [bytes.decode("utf-8", "replace")], on the encoding *)
  decode_replace : string -> string;
  (** [str.isdigit] on a string that has a non-ASCII character *)
  isdigit_unicode : string -> bool;
  (** [int(s)] on a string that is not a run of ASCII digits: its value, or
      [None] when it raises [ValueError] *)
  int_text : string -> option Z
}.

(** An implementation used to run the model on the concrete inputs of this
    file.  These are ASCII texts: decoding ASCII bytes is the identity, and no
    input below has a bracketed host, a non-ASCII character or a number
    written otherwise than as decimal digits. *)
Definition ascii_lib : PyLib := {|
  check_bracketed_host := fun _ => true;
  checknetloc := fun _ => true;
  decode_replace := fun s => s;
  isdigit_unicode := fun _ => false;
  int_text := fun _ => None
|}.

(** ** urllib.parse *)

Module Urllib.
Section Urllib.
Context {lib : PyLib}.

Definition c0_or_space (c : ascii) : bool := Nat.leb (Str.code c) 32.

(** [url.lstrip(_WHATWG_C0_CONTROL_OR_SPACE)] *)
Fixpoint lstrip (s : string) : string :=
  match s with
  | EmptyString => ""
  | String c s' => if c0_or_space c then lstrip s' else s
  end.

(** the characters of [_UNSAFE_URL_BYTES_TO_REMOVE]: tab, CR, LF *)
Definition unsafe (c : ascii) : bool :=
  Nat.eqb (Str.code c) 9 || Nat.eqb (Str.code c) 10 || Nat.eqb (Str.code c) 13.

Definition scheme_char (c : ascii) : bool :=
  Str.is_alpha c || Str.is_digit c ||
  Ascii.eqb c "+" || Ascii.eqb c "-" || Ascii.eqb c ".".

(** the part of [urlsplit] that removes [scheme:] from the front *)
Definition drop_scheme (url : string) : string :=
  match Str.split1 ":" url with
  | (String c0 rest as before, Some after) =>
      if Str.is_ascii c0 && Str.is_alpha c0 && Str.forallb scheme_char before
      then after else url
  | _ => url
  end.

Definition netloc_delim (c : ascii) : bool :=
  Ascii.eqb c "/" || Ascii.eqb c "?" || Ascii.eqb c "#".

(** [_splitnetloc(url, 2)] when [url[:2] == '//'], otherwise no network
    location *)
Definition split_netloc (url : string) : string * string :=
  match url with
  | String "/" (String "/" rest) =>
      Str.span (fun c => negb (netloc_delim c)) rest
  | _ => (""%string, url)
  end.

Definition has (c : ascii) (s : string) : bool := Str.existsb (Ascii.eqb c) s.

(** [netloc.partition('[')[2].partition(']')[0]] *)
Definition bracketed_host (netloc : string) : string :=
  match Str.split1 "[" netloc with
  | (_, Some after) => fst (Str.split1 "]" after)
  | (_, None) => ""
  end.

(** [urlparse(url).query]; [Raise ValueError] where [urlsplit] raises. *)
Definition urlparse_query (url : string) : result string :=
  let url := Str.filter (fun c => negb (unsafe c)) (lstrip url) in
  let url := drop_scheme url in
  let '(netloc, url) := split_netloc url in
  if xorb (has "[" netloc) (has "]" netloc) then Raise ValueError
  else if has "[" netloc && negb (check_bracketed_host (bracketed_host netloc))
  then Raise ValueError
  else
    let url := fst (Str.split1 "#" url) in
    let query := match Str.split1 "?" url with
                 | (_, Some q) => q
                 | (_, None) => ""%string
                 end in
    if negb (Str.forallb Str.is_ascii netloc) && negb (checknetloc netloc)
    then Raise ValueError
    else Ok query.

(** [unquote_to_bytes]: [%XX] with two hexadecimal digits becomes the byte,
    any other [%] stays. *)
Fixpoint unquote_to_bytes (s : string) : string :=
  match s with
  | EmptyString => ""
  | String c s' =>
      let keep := String c (unquote_to_bytes s') in
      if Ascii.eqb c "%" then
        match s' with
        | String h (String l s'') =>
            match Str.hex_value h, Str.hex_value l with
            | Some a, Some b =>
                String (ascii_of_nat (16 * a + b)) (unquote_to_bytes s'')
            | _, _ => keep
            end
        | _ => keep
        end
      else keep
  end.

Definition decode_run (run : string) : string :=
  match run with
  | EmptyString => ""
  | _ => decode_replace (unquote_to_bytes run)
  end.

(** the loop of [unquote] over the runs of ASCII characters: [run] is the
    run being read; other characters are copied. *)
Fixpoint unquote_go (run s : string) : string :=
  match s with
  | EmptyString => decode_run run
  | String c s' =>
      if Str.is_ascii c then unquote_go (run +:+ String c "") s'
      else decode_run run +:+ String c (unquote_go "" s')
  end.

(** [unquote(s)] with the defaults [encoding='utf-8', errors='replace'] *)
Definition unquote (s : string) : string :=
  if Str.contains "%" s then unquote_go "" s else s.

Definition plus_to_space (s : string) : string :=
  Str.map (fun c => if Ascii.eqb c "+" then " "%char else c) s.

(** one iteration of the loop of [parse_qsl] with [keep_blank_values] and
    [strict_parsing] false *)
Definition parse_field (name_value : string) : option (string * string) :=
  match name_value with
  | EmptyString => None
  | _ =>
      match Str.split1 "=" name_value with
      | (name, Some (String _ _ as value)) =>
          Some (unquote (plus_to_space name), unquote (plus_to_space value))
      | _ => None
      end
  end.

Definition parse_qsl (qs : string) : list (string * string) :=
  omap parse_field (Str.split "&" qs).

(** the loop of [parse_qs]: a second value of a name is appended to the
    list of the first *)
Definition add_pair (parsed : gmap string (list string)) (nv : string * string)
  : gmap string (list string) :=
  match parsed !! nv.1 with
  | Some vs => <[nv.1 := vs ++ [nv.2]]> parsed
  | None => <[nv.1 := [nv.2]]> parsed
  end.

Definition parse_qs (qs : string) : gmap string (list string) :=
  fold_left add_pair (parse_qsl qs) ∅.

End Urllib.
End Urllib.

(** ** extract_scholar_userid *)

Section Extract.
Context {lib : PyLib}.

(** the loop [for part in url.split("?")] *)
Fixpoint scan_parts (parts : list string) : result (option string) :=
  match parts with
  | [] => Ok None
  | part :: parts' =>
      if Str.contains "user=" part then
        match nth_error (Str.split "user=" part) 1 with
        | Some tail =>
            match Str.split "&" tail with
            | v :: _ => Ok (Some v)
            | [] => Raise IndexError
            end
        | None => Raise IndexError
        end
      else scan_parts parts'
  end.

(** the body of the [try]: [Ok (Some v)] is [return v], [Ok None] is
    reaching the end of the block.  A value that is not a [str] has none of
    the attributes [urlparse] uses. *)
Definition extract_try (url : pyval) : result (option string) :=
  match url with
  | VStr url =>
      let! query := Urllib.urlparse_query url in
      let qs := Urllib.parse_qs query in
      match qs !! "user"%string with
      | Some values =>
          match values with
          | v :: _ => Ok (Some v)
          | [] => Raise IndexError
          end
      | None => scan_parts (Str.split "?" url)
      end
  | _ => Raise AttributeError
  end%py.

(** [None] is Python's [None]. *)
Definition extract_scholar_userid (url : pyval) : result (option string) :=
  match extract_try url with
  | Ok (Some v) => Ok (Some v)
  | Ok None => Ok None
  | Raise _ => Ok None
  end.

End Extract.

(** the values given to [name] in a parsed query, in their order *)
Fixpoint values_of (name : string) (pairs : list (string * string)) : list string :=
  match pairs with
  | [] => []
  | (k, v) :: pairs' =>
      if String.eqb k name then v :: values_of name pairs'
      else values_of name pairs'
  end.

(** the value of the parameter [name] of a query string: the first one when
    the parameter is repeated, [None] when the query has no such parameter *)
Definition query_value {lib : PyLib} (name query : string) : option string :=
  head (values_of name (Urllib.parse_qsl query)).

(** ** What the publication source returns *)

(** [scholarly] hands out dictionaries; the script reads them with [.get].
    The shapes below are the ones the script tells apart: a dictionary with a
    key present or absent, or a value on which [.get] or iteration fails. *)
Inductive raw_bib : Type :=
| BibDict (fields : gmap string pyval)
| BibNotDict.

Inductive raw_pub : Type :=
| PubDict (bib : option raw_bib) (num_citations : option pyval)
| PubNotDict.

Inductive raw_pubs : Type :=
| PubList (pubs : list raw_pub)
| PubsNotIterable.

Inductive raw_author : Type :=
| AuthorDict (publications : option raw_pubs)
| AuthorNotDict.

(** The two operations of [scholarly] the script calls.  [S] is whatever the
    source depends on and changes (the network, its rate limiter, time). *)
Class Scholarly (S : Type) : Type := {
  search_author_id : string -> S -> result raw_author * S;
  fill : raw_author -> S -> result raw_author * S
}.

(** ** Records built by the script *)

Module Pub.
(** an element of [structured] *)
Record t : Type := mk {
  Title : pyval;
  Journal : pyval;
  Year : pyval;
  Citations : Z;
  Link : pyval
}.
End Pub.

Module Out.
(** an element of [results] *)
Record t : Type := mk {
  Faculty_Name : pyval;
  Title : pyval;
  Journal : pyval;
  Year : pyval;
  Citations : Z;
  Link : pyval
}.
End Out.

(** ** JSON documents *)

#[warnings="-register-all"]
Inductive json : Type :=
| JNull
| JBool (b : bool)
| JInt (z : Z)
| JStr (s : string)
| JArray (items : list json)
| JObject (members : list (string * json)).

(** ** JSON text *)

Module JsonText.

Definition quote : ascii := "034"%char.
Definition backslash : ascii := "092"%char.
Definition newline : ascii := "010"%char.

Fixpoint spaces (n : nat) : string :=
  match n with
  | O => ""
  | S n' => String " " (spaces n')
  end.

(** a line break followed by the indentation of [level], with [indent=2] *)
Definition newline_indent (level : nat) : string :=
  String newline (spaces (2 * level)).

Definition hex_digit (n : nat) : ascii :=
  ascii_of_nat (if Nat.ltb n 10 then 48 + n else 87 + n).

(** [ESCAPE_DCT] of [json.encoder], used when [ensure_ascii] is false *)
Definition escape (c : ascii) : string :=
  if Ascii.eqb c quote then String backslash (String quote "")
  else if Ascii.eqb c backslash then String backslash (String backslash "")
  else if Ascii.eqb c "008" then String backslash "b"
  else if Ascii.eqb c "012" then String backslash "f"
  else if Ascii.eqb c "010" then String backslash "n"
  else if Ascii.eqb c "013" then String backslash "r"
  else if Ascii.eqb c "009" then String backslash "t"
  else if Nat.ltb (Str.code c) 32 then
    String backslash
      (String "u" (String "0" (String "0"
         (String (hex_digit (Str.code c / 16))
            (String (hex_digit (Str.code c mod 16)) "")))))
  else String c "".

Fixpoint escape_string (s : string) : string :=
  match s with
  | EmptyString => ""
  | String c s' => escape c +:+ escape_string s'
  end.

Definition dumps_string (s : string) : string :=
  String quote (escape_string s +:+ String quote "").

(** [int.__repr__] *)
Definition dumps_int (z : Z) : string :=
  match z with
  | Z0 => "0"
  | Zpos p => NilEmpty.string_of_uint (Pos.to_uint p)
  | Zneg p => String "-" (NilEmpty.string_of_uint (Pos.to_uint p))
  end.

(** [json.dumps(j, indent=2, ensure_ascii=False)], at nesting depth [level] *)
Fixpoint dumps (level : nat) (j : json) : string :=
  match j with
  | JNull => "null"
  | JBool true => "true"
  | JBool false => "false"
  | JInt z => dumps_int z
  | JStr s => dumps_string s
  | JArray [] => "[]"
  | JArray items =>
      "[" +:+ newline_indent (S level)
      +:+ String.concat ("," +:+ newline_indent (S level))
            (map (dumps (S level)) items)
      +:+ newline_indent level +:+ "]"
  | JObject [] => "{}"
  | JObject members =>
      "{" +:+ newline_indent (S level)
      +:+ String.concat ("," +:+ newline_indent (S level))
            (map (fun m => dumps_string (fst m) +:+ ": " +:+ dumps (S level) (snd m))
                 members)
      +:+ newline_indent level +:+ "}"
  end.

(** the whitespace of [json.decoder] *)
Definition is_ws (c : ascii) : bool :=
  Ascii.eqb c " " || Ascii.eqb c "009" || Ascii.eqb c "010" || Ascii.eqb c "013".

Fixpoint skip_ws (s : string) : string :=
  match s with
  | EmptyString => ""
  | String c s' => if is_ws c then skip_ws s' else s
  end.

(** [py_scanstring] after the opening quote, in strict mode: the text up to
    the closing quote with its escapes decoded, and what follows the quote.
    An escape [\uXXXX] is decoded when it names an ASCII character. *)
Fixpoint scanstring (s : string) : option (string * string) :=
  match s with
  | EmptyString => None
  | String c s' =>
      if Ascii.eqb c quote then Some (""%string, s')
      else if Ascii.eqb c backslash then
        match s' with
        | EmptyString => None
        | String e s'' =>
            let plain (d : ascii) :=
              '(t, rest) ← scanstring s''; Some (String d t, rest) in
            if Ascii.eqb e quote then plain quote
            else if Ascii.eqb e backslash then plain backslash
            else if Ascii.eqb e "/" then plain "/"%char
            else if Ascii.eqb e "b" then plain "008"%char
            else if Ascii.eqb e "f" then plain "012"%char
            else if Ascii.eqb e "n" then plain "010"%char
            else if Ascii.eqb e "r" then plain "013"%char
            else if Ascii.eqb e "t" then plain "009"%char
            else if Ascii.eqb e "u" then
              match s'' with
              | String h1 (String h2 (String h3 (String h4 s4))) =>
                  match Str.hex_value h1, Str.hex_value h2,
                        Str.hex_value h3, Str.hex_value h4 with
                  | Some a, Some b, Some c', Some d =>
                      let cp := (((a * 16 + b) * 16 + c') * 16 + d)%nat in
                      if Nat.ltb cp 128 then
                        '(t, rest) ← scanstring s4;
                        Some (String (ascii_of_nat cp) t, rest)
                      else None
                  | _, _, _, _ => None
                  end
              | _ => None
              end
            else None
        end
      else if Nat.ltb (Str.code c) 32 then None
      else '(t, rest) ← scanstring s'; Some (String c t, rest)
  end.

(** the digits of an integer, as [NUMBER_RE] matches them: [0], or a run of
    digits that does not start with [0] *)
Definition scan_natural (s : string) : option (N * string) :=
  match s with
  | EmptyString => None
  | String c s' =>
      if Ascii.eqb c "0" then Some (0%N, s')
      else
        let '(digits, rest) := Str.span Str.is_digit s in
        match digits with
        | EmptyString => None
        | _ => d ← NilEmpty.uint_of_string digits; Some (N.of_uint d, rest)
        end
  end.

(** a fraction or an exponent follows: the number is a float *)
Definition float_tail (rest : string) : bool :=
  match rest with
  | EmptyString => false
  | String c _ => Ascii.eqb c "." || Ascii.eqb c "e" || Ascii.eqb c "E"
  end.

(** the integer at the front of [s]: an optional minus sign and the digits.
    Floats are outside this model. *)
Definition scan_int (s : string) : option (Z * string) :=
  match s with
  | EmptyString => None
  | String c s' =>
      let negative := Ascii.eqb c "-" in
      '(n, rest) ← scan_natural (if negative then s' else s);
      if float_tail rest then None
      else Some (if negative then - Z.of_N n else Z.of_N n, rest)
  end.

(** the loop of [JSONArray] after the first value has been looked for:
    [value] scans one value, [n] bounds the number of items *)
Fixpoint scan_items (value : string -> option (json * string)) (n : nat)
    (s : string) : option (list json * string) :=
  match n with
  | O => None
  | S n' =>
      '(v, s1) ← value s;
      match skip_ws s1 with
      | EmptyString => None
      | String c s2 =>
          if Ascii.eqb c "]" then Some ([v], s2)
          else if Ascii.eqb c "," then
            '(vs, rest) ← scan_items value n' (skip_ws s2); Some (v :: vs, rest)
          else None
      end
  end.

(** the loop of [JSONObject], at a key *)
Fixpoint scan_members (value : string -> option (json * string)) (n : nat)
    (s : string) : option (list (string * json) * string) :=
  match n with
  | O => None
  | S n' =>
      match s with
      | EmptyString => None
      | String q s0 =>
          if Ascii.eqb q quote then
            '(key, s1) ← scanstring s0;
            match skip_ws s1 with
            | EmptyString => None
            | String c s2 =>
                if Ascii.eqb c ":" then
                  '(v, s3) ← value (skip_ws s2);
                  match skip_ws s3 with
                  | EmptyString => None
                  | String d s4 =>
                      if Ascii.eqb d "}" then Some ([(key, v)], s4)
                      else if Ascii.eqb d "," then
                        '(ms, rest) ← scan_members value n' (skip_ws s4);
                        Some ((key, v) :: ms, rest)
                      else None
                  end
                else None
            end
          else None
      end
  end.

(** [s] without the [word] it starts with *)
Fixpoint after_word (word s : string) : option string :=
  match word, s with
  | EmptyString, _ => Some s
  | String a word', String b s' =>
      if Ascii.eqb a b then after_word word' s' else None
  | String _ _, EmptyString => None
  end.

Definition literal (word : string) (v : json) (s : string)
  : option (json * string) :=
  rest ← after_word word s; Some (v, rest).

(** is the first thing after the whitespace of [s] the character [c]? *)
Definition closes (c : ascii) (s : string) : option string :=
  match skip_ws s with
  | EmptyString => None
  | String a rest => if Ascii.eqb a c then Some rest else None
  end.

(** [scan_once]: the value at the front of [s]; [depth] bounds the nesting *)
Fixpoint scan_value (depth : nat) (s : string) : option (json * string) :=
  match depth with
  | O => None
  | S depth' =>
      match s with
      | EmptyString => None
      | String c s' =>
          if Ascii.eqb c quote then
            '(t, rest) ← scanstring s'; Some (JStr t, rest)
          else if Ascii.eqb c "{" then
            match closes "}" s' with
            | Some rest => Some (JObject [], rest)
            | None =>
                '(ms, rest) ← scan_members (scan_value depth')
                                (String.length s) (skip_ws s');
                Some (JObject ms, rest)
            end
          else if Ascii.eqb c "[" then
            match closes "]" s' with
            | Some rest => Some (JArray [], rest)
            | None =>
                '(vs, rest) ← scan_items (scan_value depth')
                                (String.length s) (skip_ws s');
                Some (JArray vs, rest)
            end
          else if Ascii.eqb c "n" then literal "null" JNull s
          else if Ascii.eqb c "t" then literal "true" (JBool true) s
          else if Ascii.eqb c "f" then literal "false" (JBool false) s
          else '(z, rest) ← scan_int s; Some (JInt z, rest)
      end
  end.

(** [json.loads(text)]: one value, with whitespace around it and nothing
    else *)
Definition loads (text : string) : option json :=
  '(j, rest) ← scan_value (String.length text) (skip_ws text);
  match skip_ws rest with
  | EmptyString => Some j
  | _ => None
  end.

(** what may follow an integer in a document *)
Definition ends_number (rest : string) : bool :=
  match rest with
  | EmptyString => true
  | String c _ =>
      negb (Str.is_digit c || Ascii.eqb c "." || Ascii.eqb c "e" || Ascii.eqb c "E")
  end.

(** a text that starts with a character that is not whitespace *)
Definition starts_solid (s : string) : Prop :=
  exists c t, s = String c t /\ is_ws c = false.

(** a member of an object, as [dumps] writes it, given the text of its value *)
Definition member_text {B} (text : B -> string) (m : string * B) : string :=
  dumps_string (fst m) +:+ ": " +:+ text (snd m).

End JsonText.

(** ** The console, the clock and the output file *)

Inductive event : Type :=
| PrintReading
| PrintLoaded (rows : nat)
| PrintMissingColumns (found : list string)
| PrintExpectedColumns (expected : list string)
| PrintFound (rows : nat)
| PrintFetching (name : pyval)
| PrintSkipping (name : pyval)
| PrintFetched (count : nat) (name : pyval)
| PrintFetchError (user_id : string) (e : exn)
| PrintCreated
| PrintLocation
| PrintUploadHint
| PrintUploadExample.

Section World.
Context {S : Type}.

Record world : Type := mkWorld {
  net : S;                      (* the state of the publication source *)
  console : list event;         (* what was printed, oldest first *)
  slept : Z;                    (* seconds spent in [time.sleep] *)
  output_file : option string   (* the text in OUTPUT_JSON, if it exists *)
}.

(** a Python computation: it ends with a value or an exception, and
    changes the world either way *)
Definition M (A : Type) : Type := world -> result A * world.

Definition ret {A} (a : A) : M A := fun w => (Ok a, w).

Definition bind {A B} (m : M A) (k : A -> M B) : M B :=
  fun w => match m w with
           | (Ok a, w') => k a w'
           | (Raise e, w') => (Raise e, w')
           end.

Definition lift {A} (r : result A) : M A := fun w => (r, w).

(** [try: body except Exception as e: handler] *)
Definition try_except {A} (body : M A) (handler : exn -> M A) : M A :=
  fun w => match body w with
           | (Ok a, w') => (Ok a, w')
           | (Raise e, w') => handler e w'
           end.

Definition print (ev : event) : M unit :=
  fun w => (Ok tt, mkWorld (net w) (console w ++ [ev]) (slept w) (output_file w)).

Definition sleep (seconds : Z) : M unit :=
  fun w => (Ok tt, mkWorld (net w) (console w) (slept w + seconds) (output_file w)).

(** [with open(OUTPUT_JSON, "w") as f: json.dump(doc, f, ...)] *)
Definition write_output (text : string) : M unit :=
  fun w => (Ok tt, mkWorld (net w) (console w) (slept w) (Some text)).

(** a call to the publication source *)
Definition call {A} (op : S -> result A * S) : M A :=
  fun w => let '(r, s) := op (net w) in
           (r, mkWorld s (console w) (slept w) (output_file w)).

End World.
Arguments world : clear implicits.
Arguments M : clear implicits.

Notation "'run!' x ':=' m 'in' k" := (bind m (fun x => k))
  (at level 10, x name, m at level 100, k at level 200) : py_scope.
Notation "'do!' m 'in' k" := (bind m (fun _ => k))
  (at level 10, m at level 100, k at level 200) : py_scope.

(** ** fetch_author_pubs *)

Section Fetch.
Context {lib : PyLib} {S : Type} {scholarly : Scholarly S}.

(** [d.get(key)] *)
Definition get (d : gmap string pyval) (key : string) : pyval :=
  default VNone (d !! key).

(** [str(v).isdigit()] *)
Definition str_isdigit (v : pyval) : bool :=
  match v with
  | VStr s =>
      if Str.forallb Str.is_ascii s
      then negb (String.eqb s "") && Str.forallb Str.is_digit s
      else isdigit_unicode s
  | VInt z => 0 <=? z
  | VBool _ | VNone => false
  end.

(** [int(v)] *)
Definition py_int (v : pyval) : result Z :=
  match v with
  | VInt z => Ok z
  | VBool b => Ok (if b then 1 else 0)
  | VStr s =>
      if negb (String.eqb s "") && Str.forallb Str.is_digit s
      then Ok (Str.decimal s)
      else match int_text s with
           | Some z => Ok z
           | None => Raise ValueError
           end
  | VNone => Raise TypeError
  end.

Definition profile_url (user_id : string) : string :=
  "https://scholar.google.com/citations?user=" +:+ user_id.

(** [bib.get("pub_year") or bib.get("year") or 0] *)
Definition raw_year (bib : gmap string pyval) : pyval :=
  py_or (py_or (get bib "pub_year") (get bib "year")) (VInt 0).

(** [bib.get("venue") or bib.get("journal") or bib.get("publisher") or ""] *)
Definition raw_venue (bib : gmap string pyval) : pyval :=
  py_or (py_or (py_or (get bib "venue") (get bib "journal"))
               (get bib "publisher")) (VStr "").

(** [int(year) if str(year).isdigit() else year] *)
Definition year_field (year : pyval) : result pyval :=
  if str_isdigit year then (let! y := py_int year in Ok (VInt y))%py
  else Ok year.

(** [int(citations) if citations else 0] *)
Definition citations_field (citations : pyval) : result Z :=
  if truthy citations then py_int citations else Ok 0.

(** [f"https://scholar.google.com/citations?user={user_id}" if user_id
    else scholar_url] *)
Definition link_field (user_id : string) (scholar_url : pyval) : pyval :=
  if negb (String.eqb user_id "") then VStr (profile_url user_id)
  else scholar_url.

(** the body of [for pub in pubs], up to the record that is appended *)
Definition structure_pub (user_id : string) (scholar_url : pyval)
    (pub : raw_pub) : result Pub.t :=
  match pub with
  | PubNotDict => Raise AttributeError
  | PubDict bib num_citations =>
      match default (BibDict ∅) bib with
      | BibNotDict => Raise AttributeError
      | BibDict bib =>
          let year := raw_year bib in
          let title := default (VStr "N/A") (bib !! "title"%string) in
          let venue := raw_venue bib in
          let citations := default (VInt 0) num_citations in
          let link := link_field user_id scholar_url in
          (let! y := year_field year in
           let! c := citations_field citations in
           Ok (Pub.mk title venue y c link))%py
      end
  end.

(** [for pub in pubs: ... structured.append({...})] *)
Fixpoint structure_loop (user_id : string) (scholar_url : pyval)
    (pubs : list raw_pub) (structured : list Pub.t) : result (list Pub.t) :=
  match pubs with
  | [] => Ok structured
  | pub :: pubs' =>
      (let! r := structure_pub user_id scholar_url pub in
       structure_loop user_id scholar_url pubs' (structured ++ [r]))%py
  end.

(** [author.get("publications", [])] *)
Definition author_publications (author : raw_author) : result raw_pubs :=
  match author with
  | AuthorNotDict => Raise AttributeError
  | AuthorDict publications => Ok (default (PubList []) publications)
  end.

(** [iter(pubs)] *)
Definition iterate (pubs : raw_pubs) : result (list raw_pub) :=
  match pubs with
  | PubList l => Ok l
  | PubsNotIterable => Raise TypeError
  end.

(** the sort key [x.get("Year") or 0] *)
Definition sort_key (x : Pub.t) : pyval := py_or (Pub.Year x) (VInt 0).

Definition as_number (v : pyval) : option Z :=
  match v with
  | VInt z => Some z
  | VBool b => Some (if b then 1 else 0)
  | _ => None
  end.

(** [a < b] on keys: integers with integers, strings with strings, and
    [TypeError] for anything else *)
Definition py_lt (a b : pyval) : result bool :=
  match as_number a, as_number b with
  | Some x, Some y => Ok (x <? y)
  | _, _ =>
      match a, b with
      | VStr s, VStr t => Ok (String.ltb s t)
      | _, _ => Raise TypeError
      end
  end.

(** [sorted(structured, key=..., reverse=True)].  The sort is stable, so its
    result is determined by the comparisons of keys: it is computed here by
    inserting each record, from the last to the first, in front of the
    records whose key is not greater.  A comparison that raises ends the
    sort. *)
Fixpoint insert_desc (x : Pub.t) (l : list Pub.t) : result (list Pub.t) :=
  match l with
  | [] => Ok [x]
  | y :: l' =>
      (let! smaller := py_lt (sort_key x) (sort_key y) in
       if smaller then (let! r := insert_desc x l' in Ok (y :: r))
       else Ok (x :: l))%py
  end.

Fixpoint sorted_desc (l : list Pub.t) : result (list Pub.t) :=
  match l with
  | [] => Ok []
  | x :: l' => (let! s := sorted_desc l' in insert_desc x s)%py
  end.

(** [l[:n]] *)
Definition slice_to {A} (n : Z) (l : list A) : list A :=
  if 0 <=? n then firstn (Z.to_nat n) l
  else firstn (length l - Z.to_nat (- n)) l.

(** the body of the [try] *)
Definition fetch_try (user_id : string) (scholar_url : pyval) (n : Z)
  : M S (list Pub.t) :=
  (run! author := call (search_author_id user_id) in
   run! author := call (fill author) in
   run! pubs := lift (author_publications author) in
   run! pubs := lift (iterate pubs) in
   run! structured := lift (structure_loop user_id scholar_url pubs []) in
   run! structured_sorted := lift (sorted_desc structured) in
   ret (slice_to n structured_sorted))%py.

Definition fetch_author_pubs (user_id : string) (scholar_url : pyval) (n : Z)
  : M S (list Pub.t) :=
  try_except (fetch_try user_id scholar_url n)
    (fun e => do! print (PrintFetchError user_id e) in ret [])%py.

End Fetch.

(** [a] may stand before [b] in a list sorted by year, most recent first: the
    keys can be compared and the key of [a] is not the smaller one *)
Definition year_desc (a b : Pub.t) : Prop :=
  py_lt (sort_key a) (sort_key b) = Ok false.

Definition set_net {S} (s : S) (w : world S) : world S :=
  mkWorld s (console w) (slept w) (output_file w).

Definition logged {S} (ev : event) (w : world S) : world S :=
  mkWorld (net w) (console w ++ [ev]) (slept w) (output_file w).

(** the dictionary [bib] of a publication, [{}] when the key is absent *)
Definition pub_bib (pub : raw_pub) : option (gmap string pyval) :=
  match pub with
  | PubDict bib _ =>
      match default (BibDict ∅) bib with
      | BibDict fields => Some fields
      | BibNotDict => None
      end
  | PubNotDict => None
  end.

(** the value under [num_citations], if the key is there *)
Definition pub_citations (pub : raw_pub) : option pyval :=
  match pub with
  | PubDict _ num_citations => num_citations
  | PubNotDict => None
  end.

(** ** What a call of the fetcher did, for the statements below *)

Section FetchSpec.
Context {lib : PyLib} {S : Type} {scholarly : Scholarly S}.

(** what [fetch_try] does with the author record once the source has
    answered *)
Definition structure_author (user_id : string) (scholar_url : pyval) (n : Z)
    (author : raw_author) : result (list Pub.t) :=
  (let! pubs := author_publications author in
   let! pubs := iterate pubs in
   let! structured := structure_loop user_id scholar_url pubs [] in
   let! structured_sorted := sorted_desc structured in
   Ok (slice_to n structured_sorted))%py.

(** the source answered the two calls made for [user_id] in the world [w],
    and the author record it returned lists the publications [raw] *)
Definition source_published (user_id : string) (w : world S)
    (raw : list raw_pub) : Prop :=
  exists a1 s1 a2 s2,
    search_author_id user_id (net w) = (Ok a1, s1)
    /\ fill a1 s1 = (Ok a2, s2)
    /\ (let! pubs := author_publications a2 in iterate pubs)%py = Ok raw.

(** [pubs] is the list a successful [fetch_try] returns from [raw] *)
Definition structured_from (user_id : string) (scholar_url : pyval) (n : Z)
    (raw : list raw_pub) (pubs : list Pub.t) : Prop :=
  exists structured structured_sorted,
    Forall2 (fun pub x => structure_pub user_id scholar_url pub = Ok x)
            raw structured
    /\ sorted_desc structured = Ok structured_sorted
    /\ pubs = slice_to n structured_sorted.

End FetchSpec.

(** ** main *)

(** the result of [pd.read_excel]: the column labels and the rows, a cell per
    column.  A blank cell is [VNone] (pandas has NaN there, which is not a
    [str] either). *)
Record dataframe : Type := mkFrame {
  columns : list string;
  rows : list (list pyval)
}.

Definition EXPECTED_COLS : list string :=
  ["Faculty Name"; "Google Scholar Profile URL"]%string.

Definition PAPERS_PER_FACULTY : Z := 5.

Fixpoint index_of (col : string) (cols : list string) : option nat :=
  match cols with
  | [] => None
  | c :: cols' =>
      if String.eqb c col then Some O else S <$> index_of col cols'
  end.

(** [col in df.columns] *)
Definition has_column (df : dataframe) (col : string) : bool :=
  existsb (String.eqb col) (columns df).

(** [row[col]] for a row of [df.iterrows()] *)
Definition row_get (df : dataframe) (row : list pyval) (col : string)
  : result pyval :=
  match index_of col (columns df) with
  | Some i => Ok (nth i row VNone)
  | None => Raise KeyError
  end.

Definition json_of_pyval (v : pyval) : json :=
  match v with
  | VNone => JNull
  | VBool b => JBool b
  | VInt z => JInt z
  | VStr s => JStr s
  end.

(** the dictionary appended to [results], as [json.dump] writes it: the keys
    in the order of the literal *)
Definition json_of_record (r : Out.t) : json :=
  JObject [ ("Faculty Name"%string, json_of_pyval (Out.Faculty_Name r));
            ("Title"%string, json_of_pyval (Out.Title r));
            ("Journal"%string, json_of_pyval (Out.Journal r));
            ("Year"%string, json_of_pyval (Out.Year r));
            ("Citations"%string, JInt (Out.Citations r));
            ("Link"%string, json_of_pyval (Out.Link r)) ].

(** the document [json.dump] writes for [results] *)
Definition json_of_results (results : list Out.t) : json :=
  JArray (map json_of_record results).

(** [json.dump(results, f, indent=2, ensure_ascii=False)]: the text written *)
Definition json_dump (results : list Out.t) : string :=
  JsonText.dumps 0 (json_of_results results).

(** the Python value of a document that is an array of objects with scalar
    members: the objects as lists of (key, value) *)
Definition pyval_of_json (j : json) : option pyval :=
  match j with
  | JNull => Some VNone
  | JBool b => Some (VBool b)
  | JInt z => Some (VInt z)
  | JStr s => Some (VStr s)
  | JArray _ | JObject _ => None
  end.

Definition member_of_json (m : string * json) : option (string * pyval) :=
  v ← pyval_of_json m.2; Some (m.1, v).

Definition object_of_json (j : json) : option (list (string * pyval)) :=
  match j with
  | JObject members => mapM member_of_json members
  | _ => None
  end.

Definition objects_of_json (doc : json) : option (list (list (string * pyval))) :=
  match doc with
  | JArray items => mapM object_of_json items
  | _ => None
  end.

(** [json.load(f)] on a file with the text [text] *)
Definition json_load (text : string) : option (list (list (string * pyval))) :=
  doc ← JsonText.loads text; objects_of_json doc.

(** the object with the scalar members [ms] *)
Definition obj_tree (ms : list (string * pyval)) : json :=
  JObject (map (fun m => (fst m, json_of_pyval (snd m))) ms).

Definition scalar_text (level : nat) (v : pyval) : string :=
  JsonText.dumps level (json_of_pyval v).

Section Main.
Context {lib : PyLib} {S : Type} {scholarly : Scholarly S}.

(** [for p in pubs: results.append({...})] *)
Fixpoint append_pubs (name : pyval) (pubs : list Pub.t) (results : list Out.t)
  : list Out.t :=
  match pubs with
  | [] => results
  | p :: pubs' =>
      append_pubs name pubs'
        (results ++ [Out.mk name (Pub.Title p) (Pub.Journal p) (Pub.Year p)
                            (Pub.Citations p) (Pub.Link p)])
  end.

(** [for _, row in df.iterrows(): ...], with the list [results] it grows *)
Fixpoint main_loop (df : dataframe) (todo : list (list pyval))
    (results : list Out.t) : M S (list Out.t) :=
  match todo with
  | [] => ret results
  | row :: todo' =>
      (run! name := lift (row_get df row "Faculty Name") in
       run! scholar_url := lift (row_get df row "Google Scholar Profile URL") in
       do! print (PrintFetching name) in
       run! user_id := lift (extract_scholar_userid scholar_url) in
       match user_id with
       | Some (String _ _ as user_id) =>
           run! pubs := fetch_author_pubs user_id scholar_url PAPERS_PER_FACULTY in
           do! print (PrintFetched (length pubs) name) in
           let results := append_pubs name pubs results in
           do! sleep 2 in
           main_loop df todo' results
       | _ =>
           do! print (PrintSkipping name) in
           main_loop df todo' results
       end)%py
  end.

Definition main (df : dataframe) : M S unit :=
  (do! print PrintReading in
   do! print (PrintLoaded (length (rows df))) in
   if negb (forallb (has_column df) EXPECTED_COLS) then
     do! print (PrintMissingColumns (columns df)) in
     do! print (PrintExpectedColumns EXPECTED_COLS) in
     ret tt
   else
     do! print (PrintFound (length (rows df))) in
     run! results := main_loop df (rows df) [] in
     do! write_output (json_dump results) in
     do! print PrintCreated in
     do! print PrintLocation in
     do! print PrintUploadHint in
     do! print PrintUploadExample in
     ret tt)%py.

End Main.

(** the record appended to [results] for a publication of [name] *)
Definition out_of (name : pyval) (p : Pub.t) : Out.t :=
  Out.mk name (Pub.Title p) (Pub.Journal p) (Pub.Year p) (Pub.Citations p)
         (Pub.Link p).

Definition OUTPUT_KEYS : list string :=
  ["Faculty Name"; "Title"; "Journal"; "Year"; "Citations"; "Link"]%string.

(** the dictionary appended to [results], as (key, value) pairs *)
Definition items (r : Out.t) : list (string * pyval) :=
  [ ("Faculty Name", Out.Faculty_Name r); ("Title", Out.Title r);
    ("Journal", Out.Journal r); ("Year", Out.Year r);
    ("Citations", VInt (Out.Citations r)); ("Link", Out.Link r) ]%string.

Section MainSpec.
Context {lib : PyLib} {S : Type} {scholarly : Scholarly S}.

(** what one row of the spreadsheet contributes to [results]: nothing when
    no identifier is extracted from its URL, and otherwise the records of
    what [fetch_author_pubs] returned for its identifier *)
Definition row_outcome (df : dataframe) (row : list pyval)
    (block : list Out.t) : Prop :=
  exists name scholar_url,
    row_get df row "Faculty Name" = Ok name
    /\ row_get df row "Google Scholar Profile URL" = Ok scholar_url
    /\ ((block = []
         /\ (extract_scholar_userid scholar_url = Ok None
             \/ extract_scholar_userid scholar_url = Ok (Some ""%string)))
        \/ (exists user_id pubs (w1 w2 : world S),
               extract_scholar_userid scholar_url = Ok (Some user_id)
               /\ user_id <> ""%string
               /\ fetch_author_pubs user_id scholar_url PAPERS_PER_FACULTY w1
                  = (Ok pubs, w2)
               /\ block = map (out_of name) pubs)).

Definition columns_ok (df : dataframe) : Prop :=
  forallb (has_column df) EXPECTED_COLS = true.

End MainSpec.

(** the order of [year_desc], on the records of [results] *)
Definition out_year_desc (a b : Out.t) : Prop :=
  py_lt (py_or (Out.Year a) (VInt 0)) (py_or (Out.Year b) (VInt 0)) = Ok false.

(** the citation values for which the count written is not negative: none,
    a boolean, an integer that is not negative, a text of decimal digits *)
Definition citation_ok (v : pyval) : bool :=
  match v with
  | VNone | VBool _ => true
  | VInt z => 0 <=? z
  | VStr s => Str.forallb Str.is_digit s
  end.

(** every citation value the source supplies satisfies [citation_ok] *)
Definition source_citations_ok {S} {scholarly : Scholarly S} : Prop :=
  forall author s author' s' raw pub c,
    fill author s = (Ok author', s') ->
    (let! pubs := author_publications author' in iterate pubs)%py = Ok raw ->
    In pub raw -> pub_citations pub = Some c -> citation_ok c = true.

(** ** find_excel_file *)

Module Os.

(** a directory as [os.walk] sees it: the names of its files, and the
    subdirectories it descends into with their names, in the order of the
    listing *)
#[warnings="-register-all"]
Inductive tree : Type :=
| Dir (files : list string) (subdirs : list (string * tree)).

Fixpoint ends_with (c : ascii) (s : string) : bool :=
  match s with
  | EmptyString => false
  | String a EmptyString => Ascii.eqb a c
  | String _ s' => ends_with c s'
  end.

(** [os.path.join(a, b)] of [posixpath] *)
Definition path_join (a b : string) : string :=
  if String.prefix "/" b then b
  else if String.eqb a "" || ends_with "/" a then a +:+ b
  else a +:+ "/" +:+ b.

(** [os.walk(top)], top-down: the pairs (root, files) it yields, in order.
    The script does not use the list of directory names it also yields. *)
Fixpoint walk (top : string) (t : tree) : list (string * list string) :=
  match t with
  | Dir files subdirs =>
      (top, files) ::
      (fix descend (l : list (string * tree)) : list (string * list string) :=
         match l with
         | [] => []
         | (name, sub) :: l' => walk (path_join top name) sub ++ descend l'
         end) subdirs
  end.

(** how [find_excel_file] ends: with a path, or with [FileNotFoundError] *)
Inductive found : Type :=
| Return (path : string)
| RaiseFileNotFoundError (filename : string).

(** [filename in files] *)
Definition listed (filename : string) (files : list string) : bool :=
  existsb (String.eqb filename) files.

(** the loop [for root, dirs, files in os.walk(...)] and the [raise] after
    it *)
Fixpoint find_loop (filename : string) (search_subfolders : bool)
    (entries : list (string * list string)) : found :=
  match entries with
  | [] => RaiseFileNotFoundError filename
  | (root, files) :: entries' =>
      if listed filename files then Return (path_join root filename)
      else if negb search_subfolders then RaiseFileNotFoundError filename
      else find_loop filename search_subfolders entries'
  end.

(** [find_excel_file(filename, search_subfolders)], run in the directory
    [cwd] whose content is [t] *)
Definition find_excel_file (filename : string) (search_subfolders : bool)
    (cwd : string) (t : tree) : found :=
  find_loop filename search_subfolders (walk cwd t).

(** some directory of the tree lists the file *)
Fixpoint anywhere (filename : string) (t : tree) : bool :=
  match t with
  | Dir files subdirs =>
      listed filename files
      || (fix some (l : list (string * tree)) : bool :=
            match l with
            | [] => false
            | (_, sub) :: l' => anywhere filename sub || some l'
            end) subdirs
  end.

(** a name that [os.path.join] appends to the directory: it does not start
    with a slash.  The names of a listing never do. *)
Definition relative (name : string) : bool := negb (String.prefix "/" name).

Fixpoint names_relative (t : tree) : bool :=
  match t with
  | Dir _ subdirs =>
      (fix all (l : list (string * tree)) : bool :=
         match l with
         | [] => true
         | (name, sub) :: l' => relative name && names_relative sub && all l'
         end) subdirs
  end.

(** induction on a directory tree, with the property known of every
    subdirectory *)
Definition tree_induction (P : tree -> Prop)
    (step : forall files subdirs,
        Forall (fun d => P (snd d)) subdirs -> P (Dir files subdirs)) :
  forall t, P t :=
  fix go (t : tree) : P t :=
    match t with
    | Dir files subdirs =>
        step files subdirs
          ((fix all (l : list (string * tree)) : Forall (fun d => P (snd d)) l :=
              match l with
              | [] => List.Forall_nil _
              | (name, sub) :: l' => List.Forall_cons _ (name, sub) l' (go sub) (all l')
              end) subdirs)
    end.

Definition EXCEL_FILENAME : string := "Google Scholar and ORCID Data.xlsx".
Definition SEARCH_SUBFOLDERS : bool := true.
End Os.

(** ** Vocabulary of the further properties *)

(** a character that a URL's query keeps as it is in the value of a
    parameter: not [&], [#], [%], [+], and not one of tab, LF, CR *)
Definition id_char (c : ascii) : bool :=
  negb (Ascii.eqb c "&" || Ascii.eqb c "#" || Ascii.eqb c "%" || Ascii.eqb c "+"
        || Urllib.unsafe c).

(** neither key is less than the other: the sort treats them as equal *)
Definition tied (a b : pyval) : bool :=
  match py_lt a b, py_lt b a with
  | Ok false, Ok false => true
  | _, _ => false
  end.

Definition key_is_number (x : Pub.t) : bool :=
  match as_number (sort_key x) with
  | Some _ => true
  | None => false
  end.

Definition key_is_text (x : Pub.t) : bool :=
  match sort_key x with
  | VStr _ => true
  | _ => false
  end.

(** the keys of the list are all numbers or all texts *)
Definition one_kind (l : list Pub.t) : bool :=
  forallb key_is_number l || forallb key_is_text l.

(** the records of [l] whose key is tied with [k], in the order of [l] *)
Definition of_year (k : pyval) (l : list Pub.t) : list Pub.t :=
  List.filter (fun x => tied (sort_key x) k) l.

(** a year that ends up as a number in the record: an integer, a boolean, or
    a text of decimal digits *)
Definition numeric_year (v : pyval) : bool :=
  match v with
  | VInt _ | VBool _ => true
  | VStr s => negb (String.eqb s "") && Str.forallb Str.is_digit s
  | VNone => false
  end.

(** a citation value that [int] accepts or that is not converted at all *)
Definition citation_converts (v : pyval) : bool :=
  match v with
  | VStr s => Str.forallb Str.is_digit s
  | _ => true
  end.

(** a publication that is a dictionary, with a [bib] that is a dictionary or
    absent, a numeric year or none, and a citation count that converts *)
Definition well_formed_pub (pub : raw_pub) : bool :=
  match pub_bib pub with
  | Some fields =>
      numeric_year (raw_year fields)
      && citation_converts (default (VInt 0) (pub_citations pub))
  | None => false
  end.

(** a non-empty identifier is extracted from the cell *)
Definition identified {lib : PyLib} (url : pyval) : bool :=
  match extract_scholar_userid url with
  | Ok (Some (String _ _)) => true
  | _ => false
  end.

Definition row_identified {lib : PyLib} (df : dataframe) (row : list pyval) : bool :=
  match row_get df row "Google Scholar Profile URL" with
  | Ok url => identified url
  | Raise _ => false
  end.

(** the world after [time.sleep(seconds)] *)
Definition paused {S} (seconds : Z) (w : world S) : world S :=
  mkWorld (net w) (console w) (slept w + seconds) (output_file w).

(** two worlds that differ at most in what was printed *)
Definition same_effects {S} (w v : world S) : Prop :=
  net w = net v /\ slept w = slept v /\ output_file w = output_file v.

(** the spreadsheet without the rows from which no identifier is
    extracted *)
Definition identified_rows {lib : PyLib} (df : dataframe) : dataframe :=
  mkFrame (columns df) (List.filter (row_identified df) (rows df)).

(** what a row adds to the file and what it prints: a skipped row, a fetch
    that returned [block], or a fetch that failed *)
Definition row_report (df : dataframe) (row : list pyval)
    (block : list Out.t) (log : list event) : Prop :=
  exists name,
    row_get df row "Faculty Name" = Ok name
    /\ ((block = [] /\ log = [PrintFetching name; PrintSkipping name])
        \/ log = [PrintFetching name; PrintFetched (length block) name]
        \/ (block = []
            /\ exists user_id e,
                 log = [PrintFetching name; PrintFetchError user_id e;
                        PrintFetched 0 name])).

(** the two cells [main] reads in a row *)
Definition cells (df : dataframe) (row : list pyval) : result pyval * result pyval :=
  (row_get df row "Faculty Name", row_get df row "Google Scholar Profile URL").

Module DemoFs.

(** a project folder: the spreadsheet is in [data/2024] and, an older copy,
    in [old] *)
Definition project : Os.tree :=
  Os.Dir ["update_research_data.py"; "README.md"]%string
    [ ("data"%string,
       Os.Dir ["notes.txt"]%string
         [ ("2024"%string, Os.Dir [Os.EXCEL_FILENAME] []) ]);
      ("old"%string, Os.Dir [Os.EXCEL_FILENAME; "draft.xlsx"%string] []) ].

End DemoFs.

(** ** A small run *)

Module Demo.

Definition bib (l : list (string * pyval)) : option raw_bib :=
  Some (BibDict (list_to_map l)).

(** an author with three publications, one of them without year, venue and
    citation count *)
Definition abc : raw_author :=
  AuthorDict (Some (PubList [
    PubDict (bib [("title", VStr "On trees"); ("pub_year", VStr "2019");
                  ("venue", VStr "J. Trees")]%string) (Some (VInt 12));
    PubDict (bib [("title", VStr "On graphs")]%string) None;
    PubDict (bib [("title", VStr "On maps"); ("year", VInt 2021);
                  ("journal", VStr "Maps Letters")]%string) (Some (VInt 3)) ])).

(** an author whose years are a number and a text *)
Definition mixed : raw_author :=
  AuthorDict (Some (PubList [
    PubDict (bib [("title", VStr "Dated"); ("pub_year", VStr "2020")]%string)
            (Some (VInt 1));
    PubDict (bib [("title", VStr "Undated"); ("pub_year", VStr "n.d.")]%string)
            (Some (VInt 2)) ])).

(** an author with a negative citation count on record *)
Definition negative : raw_author :=
  AuthorDict (Some (PubList [
    PubDict (bib [("title", VStr "Retracted"); ("pub_year", VStr "2020")]%string)
            (Some (VInt (-3))) ])).

(** a source that knows these authors and fails for every other
    identifier; its state counts the calls *)
Definition source : Scholarly nat := {|
  search_author_id := fun user_id calls =>
    (if String.eqb user_id "ABC123" then Ok abc
     else if String.eqb user_id "MIX" then Ok mixed
     else if String.eqb user_id "NEG" then Ok negative
     else Raise (SourceError "not found"), Datatypes.S calls);
  fill := fun author calls => (Ok author, Datatypes.S calls)
|}.

Definition start : world nat := mkWorld O [] 0 None.

Definition frame : dataframe :=
  mkFrame ["Faculty Name"; "Google Scholar Profile URL"]%string
    [ [VStr "A"; VStr "https://scholar.google.com/citations?user=ABC123&hl=en"];
      [VStr "B"; VStr "https://scholar.google.com/citations?hl=en"];
      [VStr "C"; VStr "https://scholar.google.com/citations?user=UNKNOWN"] ].

(** a source whose answers are malformed, each in its own way; for the
    identifier FILL the second call fails *)
Definition broken : Scholarly nat := {|
  search_author_id := fun user_id calls =>
    (if String.eqb user_id "NODICT" then Ok AuthorNotDict
     else if String.eqb user_id "NOITER" then Ok (AuthorDict (Some PubsNotIterable))
     else if String.eqb user_id "BADPUB" then Ok (AuthorDict (Some (PubList [PubNotDict])))
     else if String.eqb user_id "BADBIB"
     then Ok (AuthorDict (Some (PubList [PubDict (Some BibNotDict) None])))
     else if String.eqb user_id "BADCIT"
     then Ok (AuthorDict (Some (PubList [PubDict None (Some (VStr "many"))])))
     else if String.eqb user_id "FILL" then Ok (AuthorDict None)
     else Raise (SourceError "timeout"), Datatypes.S calls);
  fill := fun author calls =>
    (match author with
     | AuthorDict None => Raise (SourceError "blocked")
     | _ => Ok author
     end, Datatypes.S calls)
|}.

(** a source that answers every call with the author [abc] *)
Definition tidy : Scholarly nat := {|
  search_author_id := fun _ calls => (Ok abc, Datatypes.S calls);
  fill := fun _ calls => (Ok abc, Datatypes.S calls)
|}.

Definition frame_neg : dataframe :=
  mkFrame ["Faculty Name"; "Google Scholar Profile URL"]%string
    [ [VStr "N"; VStr "https://scholar.google.com/citations?user=NEG"] ].

Definition A_records : list Out.t :=
  let link := VStr "https://scholar.google.com/citations?user=ABC123" in
  [ Out.mk (VStr "A") (VStr "On maps") (VStr "Maps Letters") (VInt 2021) 3 link;
    Out.mk (VStr "A") (VStr "On trees") (VStr "J. Trees") (VInt 2019) 12 link;
    Out.mk (VStr "A") (VStr "On graphs") (VStr "") (VInt 0) 0 link ].

End Demo.

(** ** More inputs *)

Module DemoFetch.

(** the publications of [Demo.abc] and the records built from them *)
Definition abc_raw : list raw_pub :=
  [ PubDict (Demo.bib [("title", VStr "On trees"); ("pub_year", VStr "2019");
                       ("venue", VStr "J. Trees")]%string) (Some (VInt 12));
    PubDict (Demo.bib [("title", VStr "On graphs")]%string) None;
    PubDict (Demo.bib [("title", VStr "On maps"); ("year", VInt 2021);
                       ("journal", VStr "Maps Letters")]%string) (Some (VInt 3)) ].

Definition url : pyval :=
  VStr "https://scholar.google.com/citations?user=ABC123&hl=en".

Definition link : pyval :=
  VStr "https://scholar.google.com/citations?user=ABC123".

Definition trees : Pub.t := Pub.mk (VStr "On trees") (VStr "J. Trees") (VInt 2019) 12 link.
Definition graphs : Pub.t := Pub.mk (VStr "On graphs") (VStr "") (VInt 0) 0 link.
Definition maps : Pub.t := Pub.mk (VStr "On maps") (VStr "Maps Letters") (VInt 2021) 3 link.

Definition abc_structured : list Pub.t := [trees; graphs; maps].

End DemoFetch.

Module DemoRows.

(** the spreadsheet of [Demo.frame] with two more columns and the columns in
    another order *)
Definition frame_wide : dataframe :=
  mkFrame ["ORCID"; "Google Scholar Profile URL"; "Department"; "Faculty Name"]%string
    [ [VStr "0000-0001"; VStr "https://scholar.google.com/citations?user=ABC123&hl=en";
       VStr "Mechanical"; VStr "A"];
      [VNone; VStr "https://scholar.google.com/citations?hl=en";
       VStr "Mechanical"; VStr "B"];
      [VStr "0000-0003"; VStr "https://scholar.google.com/citations?user=UNKNOWN";
       VNone; VStr "C"] ].

End DemoRows.

(** * Properties *)

(** ** The model at work *)

Example extract_plain :
  extract_scholar_userid (lib := ascii_lib)
    (VStr "https://scholar.google.com/citations?user=ABC123&hl=en")
  = Ok (Some "ABC123"%string).
Proof. vm_compute. reflexivity. Qed.

Example extract_decodes :
  extract_scholar_userid (lib := ascii_lib)
    (VStr "https://scholar.google.com/citations?hl=en&%75ser=A%2DB+C")
  = Ok (Some "A-B C"%string).
Proof. vm_compute. reflexivity. Qed.

Example extract_fragment :
  extract_scholar_userid (lib := ascii_lib)
    (VStr "https://scholar.google.com/citations?hl=en#user=ABC")
  = Ok (Some "ABC"%string).
Proof. vm_compute. reflexivity. Qed.

Example extract_blank :
  extract_scholar_userid (lib := ascii_lib)
    (VStr "https://scholar.google.com/citations?user=&hl=en")
  = Ok (Some ""%string).
Proof. vm_compute. reflexivity. Qed.

Example extract_bad_ipv6 :
  Urllib.urlparse_query (lib := ascii_lib) "http://[::1/citations?user=ABC"
  = Raise ValueError
  /\ extract_scholar_userid (lib := ascii_lib)
       (VStr "http://[::1/citations?user=ABC") = Ok None.
Proof. vm_compute. split; reflexivity. Qed.

Example extract_whitespace :
  extract_scholar_userid (lib := ascii_lib)
    (VStr (String " " (String "009" "https://x/?us" +:+ String "009" "er=1")))
  = Ok (Some "1"%string).
Proof. vm_compute. reflexivity. Qed.

Example extract_second_question_mark :
  Urllib.urlparse_query (lib := ascii_lib) "a?b:c?user=5" = Ok "b:c?user=5"%string
  /\ Urllib.parse_qsl (lib := ascii_lib) "b:c?user=5" = [("b:c?user", "5")]%string
  /\ extract_scholar_userid (lib := ascii_lib) (VStr "a?b:c?user=5")
     = Ok (Some "5"%string).
Proof. vm_compute. repeat split; reflexivity. Qed.

Example extract_blank_after_other :
  extract_scholar_userid (lib := ascii_lib) (VStr "https://h/p?xuser=Q&user=")
  = Ok (Some "Q"%string).
Proof. vm_compute. reflexivity. Qed.

Example extract_not_a_string :
  extract_scholar_userid (lib := ascii_lib) VNone = Ok None
  /\ extract_scholar_userid (lib := ascii_lib) (VInt 5) = Ok None.
Proof. split; reflexivity. Qed.

Example split_overlapping :
  Str.split "aa" "aaa" = [""; "a"]%string
  /\ Str.split "user=" "a=1&user=X&user=Y" = ["a=1&"; "X&"; "Y"]%string.
Proof. vm_compute. split; reflexivity. Qed.

(** [sorted(..., reverse=True)] keeps records with equal keys in their
    order *)
Example sorted_desc_stable :
  let p title year := Pub.mk (VStr title) (VStr "") (VInt year) 0 VNone in
  sorted_desc [p "a" 1; p "b" 2; p "c" 1; p "d" 2]
  = Ok [p "b" 2; p "d" 2; p "a" 1; p "c" 1].
Proof. vm_compute. reflexivity. Qed.

Example slice_to_counts :
  slice_to (-1) [1; 2; 3] = [1; 2] /\ slice_to 0 [1; 2; 3] = []
  /\ slice_to 5 [1; 2; 3] = [1; 2; 3].
Proof. vm_compute. repeat split; reflexivity. Qed.

(** the runs below do not depend on what the libraries decide from their
    tables *)
Example demo_for_every_lib (lib : PyLib) :
  main (lib := lib) (scholarly := Demo.source) Demo.frame Demo.start
  = main (lib := ascii_lib) (scholarly := Demo.source) Demo.frame Demo.start
  /\ main (lib := lib) (scholarly := Demo.source) Demo.frame_neg Demo.start
     = main (lib := ascii_lib) (scholarly := Demo.source) Demo.frame_neg Demo.start
  /\ extract_scholar_userid (lib := lib)
       (VStr "https://scholar.google.com/citations?hl=en&superuser=abc")
     = Ok (Some "abc"%string).
Proof. vm_compute. repeat split; reflexivity. Qed.

(** every way the fetcher can fail ends in a warning and an empty list *)
Example fetch_failures :
  let outcome user_id :=
    let '(r, w) := fetch_author_pubs (lib := ascii_lib) (scholarly := Demo.broken)
                     user_id VNone 5 Demo.start in
    (r, console w) in
  outcome "OFFLINE" = (Ok [], [PrintFetchError "OFFLINE" (SourceError "timeout")])
  /\ outcome "FILL" = (Ok [], [PrintFetchError "FILL" (SourceError "blocked")])
  /\ outcome "NODICT" = (Ok [], [PrintFetchError "NODICT" AttributeError])
  /\ outcome "NOITER" = (Ok [], [PrintFetchError "NOITER" TypeError])
  /\ outcome "BADPUB" = (Ok [], [PrintFetchError "BADPUB" AttributeError])
  /\ outcome "BADBIB" = (Ok [], [PrintFetchError "BADBIB" AttributeError])
  /\ outcome "BADCIT" = (Ok [], [PrintFetchError "BADCIT" ValueError]).
Proof. vm_compute. repeat split; reflexivity. Qed.

Example json_dump_empty : json_dump [] = "[]"%string /\ json_load "[]" = Some [].
Proof. vm_compute. split; reflexivity. Qed.

Example demo_run :
  let '(r, w) := main (lib := ascii_lib) (scholarly := Demo.source)
                   Demo.frame Demo.start in
  r = Ok tt
  /\ output_file w = Some (json_dump Demo.A_records)
  /\ slept w = 4
  /\ net w = 3%nat.
Proof. vm_compute. repeat split; reflexivity. Qed.

(** ** Strings: search and split *)

Module StrFacts.

Local Abbreviation occurs := Str.occurs.

Lemma app_cons c (a b : string) : String c a +:+ b = String c (a +:+ b).
Proof. reflexivity. Qed.

Lemma app_nil_l (b : string) : "" +:+ b = b.
Proof. reflexivity. Qed.

Lemma app_assoc (a b c : string) : (a +:+ b) +:+ c = a +:+ (b +:+ c).
Proof.
  induction a as [|x a IH]; [reflexivity|].
  rewrite !app_cons. now rewrite IH.
Qed.

Lemma app_nil_r (a : string) : a +:+ "" = a.
Proof.
  induction a as [|x a IH]; [reflexivity|]. rewrite app_cons. now rewrite IH.
Qed.

Lemma prefix_app p b : String.prefix p (p +:+ b) = true.
Proof.
  induction p as [|c p IH].
  - destruct b; reflexivity.
  - rewrite app_cons. simpl.
    destruct (ascii_dec c c) as [_|n]; [exact IH | now destruct n].
Qed.

Lemma prefix_inv p s : String.prefix p s = true -> exists b, s = p +:+ b.
Proof.
  revert s. induction p as [|c p IH]; intros s H.
  - exists s. reflexivity.
  - destruct s as [|d s]; simpl in H; [discriminate|].
    destruct (ascii_dec c d) as [->|_]; [|discriminate].
    destruct (IH s H) as [b ->]. exists b. reflexivity.
Qed.

Lemma occurs_app_l p s t : occurs p s -> occurs p (t +:+ s).
Proof.
  intros (a & b & ->). exists (t +:+ a), b. now rewrite app_assoc.
Qed.

Lemma occurs_app_r p s t : occurs p s -> occurs p (s +:+ t).
Proof.
  intros (a & b & ->). exists a, (b +:+ t). now rewrite !app_assoc.
Qed.

Lemma occurs_cons p c s : occurs p s -> occurs p (String c s).
Proof. apply (occurs_app_l p s (String c "")). Qed.

Lemma occurs_trans p s t : occurs p s -> occurs s t -> occurs p t.
Proof.
  intros Hp (a & b & ->). now apply occurs_app_l, occurs_app_r.
Qed.

Lemma contains_nil p : Str.contains p "" = String.prefix p "".
Proof. unfold Str.contains. apply orb_false_r. Qed.

Lemma contains_cons p c s :
  Str.contains p (String c s) = String.prefix p (String c s) || Str.contains p s.
Proof. reflexivity. Qed.

Lemma contains_occurs p s : Str.contains p s = true <-> occurs p s.
Proof.
  split.
  - induction s as [|c s IH]; intros H.
    + rewrite contains_nil in H. destruct (prefix_inv _ _ H) as [b Hb].
      exists ""%string, b. exact Hb.
    + rewrite contains_cons in H. apply orb_true_iff in H as [H|H].
      * destruct (prefix_inv _ _ H) as [b Hb]. exists ""%string, b. exact Hb.
      * now apply occurs_cons, IH.
  - intros (a & b & ->). induction a as [|c a IH].
    + rewrite app_nil_l.
      pose proof (prefix_app p b) as Hp.
      destruct (p +:+ b).
      * now rewrite contains_nil.
      * now rewrite contains_cons, Hp.
    + rewrite app_cons, contains_cons, IH. apply orb_true_r.
Qed.

Lemma split_go_skip sep k cur c s :
  Str.split_go sep (S k) cur (String c s) = Str.split_go sep k cur s.
Proof. reflexivity. Qed.

Lemma split_go_scan sep cur c s :
  Str.split_go sep O cur (String c s) =
  if String.prefix sep (String c s)
  then cur :: Str.split_go sep (String.length sep - 1) "" s
  else Str.split_go sep O (cur +:+ String c "") s.
Proof. reflexivity. Qed.

(** every part of a split occurs in the text that is split *)
Lemma split_go_occurs sep skip cur s part :
  (skip = O \/ cur = ""%string) ->
  In part (Str.split_go sep skip cur s) ->
  occurs part (cur +:+ s).
Proof.
  revert skip cur. induction s as [|c s IH]; intros skip cur Hinv Hin.
  - destruct Hin as [<-|[]]. exists ""%string, ""%string.
    rewrite app_nil_l. reflexivity.
  - destruct skip as [|k].
    + rewrite split_go_scan in Hin.
      destruct (String.prefix sep (String c s)).
      * destruct Hin as [<-|Hin].
        -- exists ""%string, (String c s). reflexivity.
        -- apply occurs_app_l, occurs_cons.
           apply (IH (String.length sep - 1)%nat ""%string);
             [now right | exact Hin].
      * replace (cur +:+ String c s) with ((cur +:+ String c "") +:+ s)
          by (now rewrite app_assoc).
        apply (IH O); [now left | exact Hin].
    + rewrite split_go_skip in Hin.
      destruct Hinv as [Hk | ->]; [discriminate|].
      rewrite app_nil_l. apply occurs_cons.
      apply (IH k ""%string); [now right | exact Hin].
Qed.

Lemma split_occurs sep s part : In part (Str.split sep s) -> occurs part s.
Proof. intros H. apply (split_go_occurs sep O ""%string s part); auto. Qed.

Lemma split_no_match p sep s :
  Str.contains p s = false ->
  Forall (fun part => Str.contains p part = false) (Str.split sep s).
Proof.
  intros H. apply Forall_forall. intros part Hin%list_elem_of_In.
  destruct (Str.contains p part) eqn:E; [|reflexivity].
  apply contains_occurs in E.
  assert (Hs : occurs p s)
    by exact (occurs_trans p part s E (split_occurs sep s part Hin)).
  apply contains_occurs in Hs. congruence.
Qed.

Lemma split_go_nonempty sep skip cur s : Str.split_go sep skip cur s <> [].
Proof.
  revert skip cur. induction s as [|c s IH]; intros skip cur.
  - discriminate.
  - destruct skip; [|apply IH]. rewrite split_go_scan.
    destruct (String.prefix sep (String c s)); [discriminate | apply IH].
Qed.

End StrFacts.

(** ** The identifier extractor *)

Section ExtractFacts.
Context {lib : PyLib}.

Lemma add_pair_lookup (m : gmap string (list string)) nv k :
  Urllib.add_pair m nv !! k =
  if String.eqb nv.1 k then Some (default [] (m !! k) ++ [nv.2]) else m !! k.
Proof.
  unfold Urllib.add_pair. destruct (String.eqb_spec nv.1 k) as [->|Hne].
  - destruct (m !! k) as [vs|] eqn:E; simpl; now rewrite lookup_insert_eq.
  - destruct (m !! nv.1); now rewrite lookup_insert_ne.
Qed.

Lemma fold_add_pair_lookup pairs (m : gmap string (list string)) k :
  fold_left Urllib.add_pair pairs m !! k =
  match values_of k pairs with
  | [] => m !! k
  | vs => Some (default [] (m !! k) ++ vs)
  end.
Proof.
  revert m. induction pairs as [|[k' v] pairs IH]; intros m; [reflexivity|].
  cbn [fold_left values_of]. rewrite IH, add_pair_lookup. cbn [fst snd].
  destruct (String.eqb k' k).
  - cbn [default]. destruct (values_of k pairs) as [|v' vs].
    + reflexivity.
    + unfold id. now rewrite <- List.app_assoc.
  - reflexivity.
Qed.

(** [parse_qs(q)[name]] is the list of the values of [name], and [name] is a
    key exactly when that list is not empty *)
Lemma parse_qs_lookup q name :
  Urllib.parse_qs q !! name =
  match values_of name (Urllib.parse_qsl q) with
  | [] => None
  | vs => Some vs
  end.
Proof.
  unfold Urllib.parse_qs. rewrite fold_add_pair_lookup, lookup_empty.
  now destruct (values_of name (Urllib.parse_qsl q)).
Qed.

Lemma scan_parts_none parts :
  Forall (fun part => Str.contains "user=" part = false) parts ->
  scan_parts parts = Ok None.
Proof.
  induction 1 as [|part parts Hp _ IH]; [reflexivity|].
  cbn [scan_parts]. now rewrite Hp.
Qed.

Lemma extract_of_try url :
  extract_scholar_userid url =
  match extract_try url with
  | Ok r => Ok r
  | Raise _ => Ok None
  end.
Proof. unfold extract_scholar_userid. now destruct (extract_try url) as [[v|]|e]. Qed.

Lemma extract_try_str url :
  extract_try (VStr url) =
  match Urllib.urlparse_query url with
  | Raise e => Raise e
  | Ok q =>
      match query_value "user" q with
      | Some v => Ok (Some v)
      | None => scan_parts (Str.split "?" url)
      end
  end.
Proof.
  unfold extract_try, rbind, query_value.
  destruct (Urllib.urlparse_query url) as [q|e]; [|reflexivity].
  rewrite parse_qs_lookup.
  now destruct (values_of "user" (Urllib.parse_qsl q)).
Qed.

Lemma extract_scholar_userid_returns url :
  exists r, extract_scholar_userid url = Ok r.
Proof. rewrite extract_of_try. destruct (extract_try url); eauto. Qed.

End ExtractFacts.




(** C4.  [extract_scholar_userid] returns for every argument, and returns
    [None] whenever something raises inside its [try] block. *)
Theorem extract_scholar_userid_never_raises (lib : PyLib) (url : pyval) :
  (exists r, extract_scholar_userid url = Ok r)
  /\ (forall e, extract_try url = Raise e -> extract_scholar_userid url = Ok None).
Proof.
  rewrite extract_of_try. split.
  - destruct (extract_try url) as [r|e]; eauto.
  - intros e ->. reflexivity.
Qed.

Lemma extract_scholar_userid_never_raises_witness :
  extract_try (lib := ascii_lib) (VStr "http://[::1/citations?user=ABC")
  = Raise ValueError
  /\ extract_scholar_userid (lib := ascii_lib)
       (VStr "http://[::1/citations?user=ABC") = Ok None.
Proof.
  split; [vm_compute; reflexivity|].
  apply (proj2 (extract_scholar_userid_never_raises ascii_lib
                  (VStr "http://[::1/citations?user=ABC")) ValueError).
  vm_compute. reflexivity.
Defined.

(** ** Sorting by year *)

Section SortFacts.

Lemma string_ltb_false_le s t : String.ltb s t = false <-> String.le t s.
Proof.
  unfold String.le, String.leb, String.ltb.
  rewrite (String.compare_antisym t s).
  destruct (String.compare s t); simpl; split; intros H;
    try reflexivity; try exact I; try discriminate; destruct H.
Qed.

Lemma string_ltb_asym s t : String.ltb s t = true -> String.ltb t s = false.
Proof.
  unfold String.ltb. rewrite (String.compare_antisym t s).
  destruct (String.compare s t); simpl; congruence.
Qed.

Lemma Ok_inj {A} (a b : A) : Ok a = Ok b -> a = b.
Proof. now intros [=]. Qed.

Lemma py_lt_raises a b e : py_lt a b = Raise e -> e = TypeError.
Proof.
  unfold py_lt. destruct (as_number a), (as_number b), a, b; congruence.
Qed.

Lemma py_lt_asym a b : py_lt a b = Ok true -> py_lt b a = Ok false.
Proof.
  unfold py_lt.
  destruct a as [|[]|x|s], b as [|[]|y|t]; simpl; try congruence;
    intros H%Ok_inj; f_equal;
    try (apply string_ltb_asym; assumption); lia.
Qed.

Lemma py_lt_trans a b c :
  py_lt a b = Ok false -> py_lt b c = Ok false -> py_lt a c = Ok false.
Proof.
  unfold py_lt.
  destruct a as [|[]|x|s], b as [|[]|y|t], c as [|[]|z|u]; simpl;
    try congruence; intros H1%Ok_inj H2%Ok_inj; f_equal; try lia.
  apply string_ltb_false_le. apply string_ltb_false_le in H1, H2.
  etrans; eassumption.
Qed.

Global Instance year_desc_trans : Transitive year_desc.
Proof. intros a b c. apply py_lt_trans. Qed.

Lemma insert_desc_raises x l e : insert_desc x l = Raise e -> e = TypeError.
Proof.
  induction l as [|y l IH]; cbn [insert_desc]; [discriminate|].
  unfold rbind. destruct (py_lt (sort_key x) (sort_key y)) as [[]|e'] eqn:E.
  - destruct (insert_desc x l); [discriminate|]. intros [= <-]. now apply IH.
  - discriminate.
  - intros [= <-]. eapply py_lt_raises, E.
Qed.

Lemma sorted_desc_raises l e : sorted_desc l = Raise e -> e = TypeError.
Proof.
  revert e. induction l as [|x l IH]; intros e; cbn [sorted_desc]; [discriminate|].
  unfold rbind. destruct (sorted_desc l) as [s|e'].
  - apply insert_desc_raises.
  - intros [= <-]. now apply IH.
Qed.

Lemma insert_desc_perm x l r : insert_desc x l = Ok r -> Permutation (x :: l) r.
Proof.
  revert r. induction l as [|y l IH]; intros r; cbn [insert_desc].
  - intros [= <-]. reflexivity.
  - unfold rbind. destruct (py_lt (sort_key x) (sort_key y)) as [[]|]; [| |discriminate].
    + destruct (insert_desc x l) as [r'|]; [|discriminate]. intros [= <-].
      rewrite Permutation_swap. constructor. now apply IH.
    + intros [= <-]. reflexivity.
Qed.

Lemma sorted_desc_perm l r : sorted_desc l = Ok r -> Permutation l r.
Proof.
  revert r. induction l as [|x l IH]; intros r; cbn [sorted_desc].
  - intros [= <-]. reflexivity.
  - unfold rbind. destruct (sorted_desc l) as [s|]; [|discriminate].
    intros H. rewrite (IH s eq_refl). now apply insert_desc_perm.
Qed.

Lemma insert_desc_hdrel y x l r :
  year_desc y x -> HdRel year_desc y l -> insert_desc x l = Ok r ->
  HdRel year_desc y r.
Proof.
  intros Hyx Hyl. destruct l as [|z l]; cbn [insert_desc].
  - intros [= <-]. now constructor.
  - unfold rbind. destruct (py_lt (sort_key x) (sort_key z)) as [[]|]; [| |discriminate].
    + destruct (insert_desc x l); [|discriminate]. intros [= <-].
      constructor. now inversion Hyl.
    + intros [= <-]. now constructor.
Qed.

Lemma insert_desc_sorted x l r :
  Sorted year_desc l -> insert_desc x l = Ok r -> Sorted year_desc r.
Proof.
  revert r. induction l as [|y l IH]; intros r Hs; cbn [insert_desc].
  - intros [= <-]. repeat constructor.
  - unfold rbind.
    destruct (py_lt (sort_key x) (sort_key y)) as [[]|] eqn:E; [| |discriminate].
    + destruct (insert_desc x l) as [r'|] eqn:Er; [|discriminate]. intros [= <-].
      inversion Hs as [|? ? Hl Hhd]; subst. constructor.
      * now apply IH.
      * eapply insert_desc_hdrel; eauto. now apply py_lt_asym.
    + intros [= <-]. constructor; [assumption|]. now constructor.
Qed.

Lemma sorted_desc_sorted l r : sorted_desc l = Ok r -> StronglySorted year_desc r.
Proof.
  intros H. apply Sorted_StronglySorted; [apply year_desc_trans|].
  revert r H. induction l as [|x l IH]; intros r; cbn [sorted_desc].
  - intros [= <-]. constructor.
  - unfold rbind. destruct (sorted_desc l) as [s|]; [|discriminate].
    apply insert_desc_sorted. now apply IH.
Qed.

Lemma StronglySorted_firstn {A} (R : A -> A -> Prop) k l :
  StronglySorted R l -> StronglySorted R (firstn k l).
Proof.
  revert k. induction l as [|x l IH]; intros [|k] Hs; cbn [firstn];
    try constructor.
  - apply IH. now inversion Hs.
  - inversion Hs as [|? ? _ Hall]; subst.
    rewrite Forall_forall in Hall |- *. intros y Hy. apply Hall.
    apply list_elem_of_In. apply list_elem_of_In in Hy.
    revert Hy. rewrite <- (firstn_skipn k l) at 2. intros Hy.
    apply in_or_app. now left.
Qed.

Lemma slice_to_sorted {A} (R : A -> A -> Prop) n l :
  StronglySorted R l -> StronglySorted R (slice_to n l).
Proof. unfold slice_to. destruct (0 <=? n); apply StronglySorted_firstn. Qed.

Lemma slice_to_length {A} n (l : list A) :
  0 <= n -> Z.of_nat (length (slice_to n l)) <= n.
Proof.
  intros Hn. unfold slice_to. destruct (Z.leb_spec 0 n); [|lia].
  pose proof (firstn_le_length (Z.to_nat n) l). lia.
Qed.

Lemma slice_to_incl {A} n (l : list A) x : In x (slice_to n l) -> In x l.
Proof.
  unfold slice_to. destruct (0 <=? n); intros H;
    match type of H with In _ (firstn ?k _) =>
      rewrite <- (firstn_skipn k l); apply in_or_app; now left end.
Qed.

End SortFacts.

(** ** The fetcher *)

Section FetchFacts.
Context {lib : PyLib} {S : Type} {scholarly : Scholarly S}.

Lemma fetch_try_eq user_id scholar_url n (w : world S) :
  fetch_try user_id scholar_url n w =
  match search_author_id user_id (net w) with
  | (Raise e, s1) => (Raise e, set_net s1 w)
  | (Ok a1, s1) =>
      match fill a1 s1 with
      | (Raise e, s2) => (Raise e, set_net s2 w)
      | (Ok a2, s2) =>
          (structure_author user_id scholar_url n a2, set_net s2 w)
      end
  end.
Proof.
  unfold fetch_try, structure_author, bind, call, lift, ret, rbind, set_net.
  destruct (search_author_id user_id (net w)) as [[a1|e] s1]; [|reflexivity].
  cbn [net console slept output_file].
  destruct (fill a1 s1) as [[a2|e] s2]; [|reflexivity].
  destruct (author_publications a2) as [pubs|]; [|reflexivity].
  destruct (iterate pubs) as [l|]; [|reflexivity].
  destruct (structure_loop user_id scholar_url l []) as [st|]; [|reflexivity].
  destruct (sorted_desc st); reflexivity.
Qed.

Lemma fetch_author_pubs_eq user_id scholar_url n (w : world S) :
  fetch_author_pubs user_id scholar_url n w =
  match fetch_try user_id scholar_url n w with
  | (Ok pubs, w') => (Ok pubs, w')
  | (Raise e, w') => (Ok [], logged (PrintFetchError user_id e) w')
  end.
Proof.
  unfold fetch_author_pubs, try_except.
  destruct (fetch_try user_id scholar_url n w) as [[pubs|e] w']; reflexivity.
Qed.

Lemma structure_loop_spec user_id scholar_url pubs acc r :
  structure_loop user_id scholar_url pubs acc = Ok r ->
  exists rs, r = acc ++ rs
             /\ Forall2 (fun pub x => structure_pub user_id scholar_url pub = Ok x)
                        pubs rs.
Proof.
  revert acc. induction pubs as [|pub pubs IH]; intros acc; cbn [structure_loop].
  - intros [= <-]. exists []. split; [now rewrite List.app_nil_r | constructor].
  - unfold rbind.
    destruct (structure_pub user_id scholar_url pub) as [x|] eqn:E; [|discriminate].
    intros H. destruct (IH _ H) as (rs & -> & Hall).
    exists (x :: rs). split; [now rewrite <- List.app_assoc | now constructor].
Qed.

Lemma structure_author_ok user_id scholar_url n a pubs :
  structure_author user_id scholar_url n a = Ok pubs ->
  exists raw,
    (let! pubs := author_publications a in iterate pubs)%py = Ok raw
    /\ structured_from user_id scholar_url n raw pubs.
Proof.
  unfold structure_author, rbind.
  destruct (author_publications a) as [ps|]; [|discriminate].
  destruct (iterate ps) as [raw|]; [|discriminate].
  destruct (structure_loop user_id scholar_url raw []) as [st|] eqn:Est;
    [|discriminate].
  destruct (sorted_desc st) as [so|] eqn:Eso; [|discriminate].
  intros [= <-]. exists raw. split; [reflexivity|].
  destruct (structure_loop_spec _ _ _ _ _ Est) as (rs & -> & Hall).
  exists rs, so. auto.
Qed.

(** [fetch_author_pubs] always returns.  It returns either the empty list,
    or what [fetch_try] built from the publications the source listed.  It
    leaves the clock and the output file alone. *)
Lemma fetch_author_pubs_spec user_id scholar_url n (w : world S) :
  exists pubs w',
    fetch_author_pubs user_id scholar_url n w = (Ok pubs, w')
    /\ slept w' = slept w
    /\ output_file w' = output_file w
    /\ (pubs = [] \/
        exists raw, source_published user_id w raw
                    /\ structured_from user_id scholar_url n raw pubs).
Proof.
  rewrite fetch_author_pubs_eq, fetch_try_eq.
  destruct (search_author_id user_id (net w)) as [[a1|e] s1] eqn:E1.
  2:{ eexists _, _. repeat split; auto. }
  destruct (fill a1 s1) as [[a2|e] s2] eqn:E2.
  2:{ eexists _, _. repeat split; auto. }
  destruct (structure_author user_id scholar_url n a2) as [pubs|e] eqn:E3.
  2:{ eexists _, _. repeat split; auto. }
  exists pubs, (set_net s2 w). repeat split. right.
  destruct (structure_author_ok _ _ _ _ _ E3) as (raw & Hraw & Hst).
  exists raw. split; [|exact Hst]. exists a1, s1, a2, s2. auto.
Qed.

Lemma structured_from_in user_id scholar_url n raw pubs r :
  structured_from user_id scholar_url n raw pubs -> In r pubs ->
  exists pub, In pub raw /\ structure_pub user_id scholar_url pub = Ok r.
Proof.
  intros (st & so & Hall & Hso & ->) Hin.
  apply slice_to_incl in Hin.
  apply (Permutation_in _ (Permutation_sym (sorted_desc_perm _ _ Hso))) in Hin.
  clear Hso. induction Hall as [|pub x raw st Hx _ IH]; [destruct Hin|].
  destruct Hin as [<-|Hin].
  - exists pub. split; [now left | exact Hx].
  - destruct (IH Hin) as (pub' & Hp & Hr). exists pub'. split; [now right | exact Hr].
Qed.

Lemma structured_from_sorted user_id scholar_url n raw pubs :
  structured_from user_id scholar_url n raw pubs ->
  StronglySorted year_desc pubs.
Proof.
  intros (st & so & _ & Hso & ->).
  apply slice_to_sorted. eapply sorted_desc_sorted, Hso.
Qed.

Lemma structured_from_length user_id scholar_url n raw pubs :
  0 <= n -> structured_from user_id scholar_url n raw pubs ->
  Z.of_nat (length pubs) <= n.
Proof. intros Hn (st & so & _ & _ & ->). now apply slice_to_length. Qed.

(** the fields of a record that [structure_pub] builds *)
Lemma structure_pub_ok user_id scholar_url pub r :
  structure_pub user_id scholar_url pub = Ok r ->
  exists fields,
    pub_bib pub = Some fields
    /\ Pub.Title r = default (VStr "N/A") (fields !! "title"%string)
    /\ Pub.Journal r = raw_venue fields
    /\ year_field (raw_year fields) = Ok (Pub.Year r)
    /\ citations_field (default (VInt 0) (pub_citations pub)) = Ok (Pub.Citations r)
    /\ Pub.Link r = link_field user_id scholar_url.
Proof.
  destruct pub as [bib cit|]; [|discriminate]. unfold structure_pub, pub_bib.
  destruct (default (BibDict ∅) bib) as [fields|]; [|discriminate].
  unfold rbind.
  destruct (year_field (raw_year fields)) as [y|] eqn:Ey; [|discriminate].
  cbn [pub_citations].
  destruct (citations_field (default (VInt 0) cit)) as [c|] eqn:Ec; [|discriminate].
  intros [= <-]. exists fields. cbn. repeat split; assumption.
Qed.

End FetchFacts.

(** C2.  For every identifier, fallback URL and count [n >= 0],
    [fetch_author_pubs] returns a list that is sorted by year, most recent
    first, and has at most [n] elements.  Each of its records was built from a
    publication the source listed, and the year of the record is the year of
    that publication as it was given whenever [str(year).isdigit()] is
    false. *)
Theorem fetch_author_pubs_sorted_bounded
    (lib : PyLib) (S : Type) (scholarly : Scholarly S)
    (user_id : string) (scholar_url : pyval) (n : Z) (w : world S) :
  0 <= n ->
  exists pubs w',
    fetch_author_pubs user_id scholar_url n w = (Ok pubs, w')
    /\ StronglySorted year_desc pubs
    /\ Z.of_nat (length pubs) <= n
    /\ forall r, In r pubs ->
         exists raw pub fields,
           source_published user_id w raw
           /\ In pub raw
           /\ pub_bib pub = Some fields
           /\ structure_pub user_id scholar_url pub = Ok r
           /\ (str_isdigit (raw_year fields) = false ->
               Pub.Year r = raw_year fields).
Proof.
  intros Hn.
  destruct (fetch_author_pubs_spec user_id scholar_url n w)
    as (pubs & w' & Hrun & _ & _ & Hpubs).
  exists pubs, w'. split; [exact Hrun|].
  destruct Hpubs as [->|(raw & Hsrc & Hst)].
  - repeat split; [constructor | simpl; lia | intros r []].
  - split; [eapply structured_from_sorted, Hst|].
    split; [eapply structured_from_length; eauto|].
    intros r Hr.
    destruct (structured_from_in _ _ _ _ _ _ Hst Hr) as (pub & Hpub & Hok).
    destruct (structure_pub_ok _ _ _ _ Hok) as (fields & Hbib & _ & _ & Hy & _).
    exists raw, pub, fields. repeat split; try assumption.
    intros Hd. unfold year_field in Hy. rewrite Hd in Hy. congruence.
Qed.

Lemma fetch_author_pubs_sorted_bounded_witness :
  0 <= 2
  /\ exists pubs w',
       fetch_author_pubs (lib := ascii_lib) (scholarly := Demo.source)
         "ABC123" (VStr "https://scholar.google.com/citations?user=ABC123&hl=en")
         2 Demo.start = (Ok pubs, w')
       /\ StronglySorted year_desc pubs
       /\ Z.of_nat (length pubs) <= 2
       /\ forall r, In r pubs ->
            exists raw pub fields,
              source_published (scholarly := Demo.source) "ABC123" Demo.start raw
              /\ In pub raw
              /\ pub_bib pub = Some fields
              /\ structure_pub (lib := ascii_lib) "ABC123"
                   (VStr "https://scholar.google.com/citations?user=ABC123&hl=en")
                   pub = Ok r
              /\ (str_isdigit (lib := ascii_lib) (raw_year fields) = false ->
                  Pub.Year r = raw_year fields).
Proof.
  split; [lia|].
  apply (fetch_author_pubs_sorted_bounded ascii_lib nat Demo.source). lia.
Defined.

Example fetch_two_of_three :
  fst (fetch_author_pubs (lib := ascii_lib) (scholarly := Demo.source)
         "ABC123" (VStr "https://scholar.google.com/citations?user=ABC123&hl=en")
         2 Demo.start)
  = Ok [ Pub.mk (VStr "On maps") (VStr "Maps Letters") (VInt 2021) 3
               (VStr "https://scholar.google.com/citations?user=ABC123");
         Pub.mk (VStr "On trees") (VStr "J. Trees") (VInt 2019) 12
               (VStr "https://scholar.google.com/citations?user=ABC123") ].
Proof. vm_compute. reflexivity. Qed.

(** C5.  For a publication that is a dictionary whose [bib] is a dictionary
    or is absent: without [pub_year] and [year] the year is 0, without
    [venue], [journal] and [publisher] the journal is the empty string,
    without [num_citations] the citation count is 0.  None of these absences
    raises: with no year and no citation count the record is built. *)
Theorem structure_pub_defaults
    (lib : PyLib) (user_id : string) (scholar_url : pyval)
    (pub : raw_pub) (fields : gmap string pyval) :
  pub_bib pub = Some fields ->
  let no_year :=
    fields !! "pub_year"%string = None /\ fields !! "year"%string = None in
  let no_venue :=
    fields !! "venue"%string = None /\ fields !! "journal"%string = None
    /\ fields !! "publisher"%string = None in
  let no_citations := pub_citations pub = None in
  (no_year -> year_field (raw_year fields) = Ok (VInt 0))
  /\ (no_venue -> raw_venue fields = VStr "")
  /\ (no_citations ->
      citations_field (default (VInt 0) (pub_citations pub)) = Ok 0)
  /\ (no_year -> no_citations ->
      exists r, structure_pub user_id scholar_url pub = Ok r)
  /\ (forall r, structure_pub user_id scholar_url pub = Ok r ->
        (no_year -> Pub.Year r = VInt 0)
        /\ (no_venue -> Pub.Journal r = VStr "")
        /\ (no_citations -> Pub.Citations r = 0)).
Proof.
  intros Hbib no_year no_venue no_citations.
  assert (Hy : no_year -> year_field (raw_year fields) = Ok (VInt 0)).
  { intros [H1 H2]. unfold raw_year, get. rewrite H1, H2. reflexivity. }
  assert (Hv : no_venue -> raw_venue fields = VStr "").
  { intros (H1 & H2 & H3). unfold raw_venue, get. rewrite H1, H2, H3. reflexivity. }
  assert (Hc : no_citations ->
               citations_field (default (VInt 0) (pub_citations pub)) = Ok 0).
  { intros H. unfold no_citations in H. rewrite H. reflexivity. }
  repeat split; try assumption.
  - intros Hny Hnc. destruct pub as [bib cit|]; [|discriminate].
    unfold pub_bib in Hbib. unfold structure_pub.
    destruct (default (BibDict ∅) bib) as [f|]; [|discriminate].
    injection Hbib as ->. rewrite (Hy Hny). cbn [pub_citations] in Hc.
    unfold rbind. rewrite (Hc Hnc). eauto.
  - intros Hny. destruct (structure_pub_ok _ _ _ _ H) as (f & Hf & _ & _ & Hyr & _).
    rewrite Hbib in Hf. injection Hf as <-. rewrite (Hy Hny) in Hyr. congruence.
  - intros Hnv. destruct (structure_pub_ok _ _ _ _ H) as (f & Hf & _ & Hj & _).
    rewrite Hbib in Hf. injection Hf as <-. now rewrite Hj, Hv.
  - intros Hnc. destruct (structure_pub_ok _ _ _ _ H) as (f & _ & _ & _ & _ & Hci & _).
    rewrite (Hc Hnc) in Hci. congruence.
Qed.

Lemma structure_pub_defaults_witness :
  let pub := PubDict (Demo.bib [("title", VStr "On graphs")]%string) None in
  exists r,
    structure_pub (lib := ascii_lib) "ABC123" VNone pub = Ok r
    /\ Pub.Year r = VInt 0 /\ Pub.Journal r = VStr "" /\ Pub.Citations r = 0.
Proof.
  intros pub.
  destruct (structure_pub_defaults ascii_lib "ABC123" VNone pub
              (list_to_map [("title", VStr "On graphs")]%string) eq_refl)
    as (_ & _ & _ & Hex & Hall).
  destruct Hex as [r Hr]; [split; reflexivity | reflexivity |].
  exists r. destruct (Hall r Hr) as (Hy & Hv & Hc).
  split; [exact Hr|]. split; [|split].
  - apply Hy. split; reflexivity.
  - apply Hv. repeat split; reflexivity.
  - apply Hc. reflexivity.
Defined.

(** ** Years of two kinds *)

Section MixedYears.
Context {lib : PyLib}.

Lemma strongly_sorted_related {A} (R : A -> A -> Prop) l a b :
  StronglySorted R l -> In a l -> In b l -> a = b \/ R a b \/ R b a.
Proof.
  induction 1 as [|x l _ IH Hall]; intros Ha Hb; [destruct Ha|].
  rewrite Forall_forall in Hall.
  destruct Ha as [<-|Ha], Hb as [<-|Hb]; auto.
  - right. left. now apply Hall, list_elem_of_In.
  - right. right. now apply Hall, list_elem_of_In.
Qed.

(** a list with an integer key and a text key cannot be sorted *)
Lemma sorted_desc_mixed l a b z s :
  In a l -> In b l ->
  as_number (sort_key a) = Some z -> sort_key b = VStr s ->
  sorted_desc l = Raise TypeError.
Proof.
  intros Ha Hb Hka Hkb.
  destruct (sorted_desc l) as [r|e] eqn:E.
  - exfalso.
    pose proof (sorted_desc_perm _ _ E) as Hp.
    pose proof (sorted_desc_sorted _ _ E) as Hs.
    destruct (strongly_sorted_related _ r a b Hs) as [->|[H|H]];
      try (eapply Permutation_in; eassumption).
    + rewrite Hkb in Hka. discriminate.
    + unfold year_desc, py_lt in H. rewrite Hka, Hkb in H. simpl in H.
      destruct (sort_key a); discriminate.
    + unfold year_desc, py_lt in H. rewrite Hka, Hkb in H. simpl in H.
      destruct (sort_key a); discriminate.
  - f_equal. eapply sorted_desc_raises, E.
Qed.

Lemma py_or_truthy a b : truthy b = true -> truthy (py_or a b) = true.
Proof. unfold py_or. destruct (truthy a) eqn:E; auto. Qed.

(** the year computed from a [bib] is never an empty text *)
Lemma year_field_text year s :
  year_field year = Ok (VStr s) -> truthy year = true -> s <> ""%string.
Proof.
  unfold year_field. destruct (str_isdigit year).
  - unfold rbind. destruct (py_int year); discriminate.
  - intros [= ->]. simpl. now destruct (String.eqb_spec s "").
Qed.

Lemma raw_year_cases fields :
  raw_year fields = VInt 0 \/ truthy (raw_year fields) = true.
Proof.
  unfold raw_year, py_or.
  destruct (truthy (get fields "pub_year")) eqn:E1; rewrite ?E1; auto.
  destruct (truthy (get fields "year")) eqn:E2; rewrite ?E2; auto.
Qed.

Lemma Forall2_in_r {A B} (P : A -> B -> Prop) l1 l2 y :
  Forall2 P l1 l2 -> In y l2 -> exists x, In x l1 /\ P x y.
Proof.
  induction 1 as [|x y' l1 l2 Hxy _ IH]; intros Hin; [destruct Hin|].
  destruct Hin as [<-|Hin].
  - exists x. split; [now left | exact Hxy].
  - destruct (IH Hin) as (x' & Hx' & HP). exists x'. split; [now right | exact HP].
Qed.

Lemma structure_loop_all user_id scholar_url raw structured acc :
  Forall2 (fun pub x => structure_pub user_id scholar_url pub = Ok x)
          raw structured ->
  structure_loop user_id scholar_url raw acc = Ok (acc ++ structured).
Proof.
  intros Hall. revert acc.
  induction Hall as [|pub x raw st Hx _ IH]; intros acc; cbn [structure_loop].
  - now rewrite List.app_nil_r.
  - rewrite Hx. unfold rbind. rewrite IH. now rewrite <- List.app_assoc.
Qed.

Lemma structured_year_text user_id scholar_url pub r s :
  structure_pub user_id scholar_url pub = Ok r ->
  Pub.Year r = VStr s -> sort_key r = VStr s.
Proof.
  intros Hok Hy.
  destruct (structure_pub_ok _ _ _ _ Hok) as (fields & _ & _ & _ & Hyf & _).
  rewrite Hy in Hyf. unfold sort_key, py_or. rewrite Hy. simpl.
  destruct (raw_year_cases fields) as [H0|Ht].
  - rewrite H0 in Hyf. discriminate.
  - pose proof (year_field_text _ _ Hyf Ht) as Hne.
    now destruct (String.eqb_spec s "").
Qed.

End MixedYears.

(** C10.  When the records built for an author include one whose year is an
    integer and one whose year is a text, the sort raises [TypeError], the
    handler of [fetch_author_pubs] prints the warning and the function
    returns the empty list: no publication of that author is returned. *)
Theorem fetch_author_pubs_mixed_years
    (lib : PyLib) (S : Type) (scholarly : Scholarly S)
    (user_id : string) (scholar_url : pyval) (n : Z) (w : world S)
    (raw : list raw_pub) (structured : list Pub.t) (a b : Pub.t)
    (z : Z) (s : string) :
  source_published user_id w raw ->
  Forall2 (fun pub x => structure_pub user_id scholar_url pub = Ok x)
          raw structured ->
  In a structured -> Pub.Year a = VInt z ->
  In b structured -> Pub.Year b = VStr s ->
  sorted_desc structured = Raise TypeError
  /\ exists w',
       fetch_author_pubs user_id scholar_url n w = (Ok [], w')
       /\ console w' = console w ++ [PrintFetchError user_id TypeError].
Proof.
  intros (a1 & s1 & a2 & s2 & E1 & E2 & E3) Hall Ha Hya Hb Hyb.
  assert (Hkb : sort_key b = VStr s).
  { destruct (Forall2_in_r _ _ _ _ Hall Hb) as (pub & _ & Hpub).
    eapply structured_year_text; eauto. }
  assert (Hka : exists z', as_number (sort_key a) = Some z').
  { unfold sort_key, py_or. rewrite Hya. simpl. destruct (z =? 0); simpl; eauto. }
  destruct Hka as [z' Hka].
  assert (Hsort : sorted_desc structured = Raise TypeError)
    by exact (sorted_desc_mixed structured a b z' s Ha Hb Hka Hkb).
  split; [exact Hsort|].
  rewrite fetch_author_pubs_eq, fetch_try_eq, E1, E2.
  pose proof (structure_loop_all user_id scholar_url raw structured [] Hall)
    as Hloop.
  cbn [app] in Hloop.
  unfold structure_author. unfold rbind in E3 |- *.
  destruct (author_publications a2) as [ps|]; [|discriminate].
  rewrite E3, Hloop, Hsort. eexists. split; reflexivity.
Qed.

Lemma fetch_author_pubs_mixed_years_witness :
  exists w',
    fetch_author_pubs (lib := ascii_lib) (scholarly := Demo.source)
      "MIX" (VStr "https://scholar.google.com/citations?user=MIX") 5 Demo.start
    = (Ok [], w')
    /\ console w' = [PrintFetchError "MIX" TypeError].
Proof.
  pose (url := VStr "https://scholar.google.com/citations?user=MIX").
  pose (link := VStr "https://scholar.google.com/citations?user=MIX").
  pose (dated := Pub.mk (VStr "Dated") (VStr "") (VInt 2020) 1 link).
  pose (undated := Pub.mk (VStr "Undated") (VStr "") (VStr "n.d.") 2 link).
  refine (proj2 (fetch_author_pubs_mixed_years ascii_lib nat Demo.source
            "MIX" url 5 Demo.start
            [ PubDict (Demo.bib [("title", VStr "Dated");
                                 ("pub_year", VStr "2020")]%string) (Some (VInt 1));
              PubDict (Demo.bib [("title", VStr "Undated");
                                 ("pub_year", VStr "n.d.")]%string) (Some (VInt 2)) ]
            [dated; undated] dated undated 2020 "n.d." _ _ _ _ _ _)).
  - exists Demo.mixed, 1%nat, Demo.mixed, 2%nat. repeat split; reflexivity.
  - repeat constructor.
  - now left.
  - reflexivity.
  - right. now left.
  - reflexivity.
Defined.

(** ** The run *)

Section MainFacts.
Context {lib : PyLib} {S : Type} {scholarly : Scholarly S}.

Lemma append_pubs_eq name pubs results :
  append_pubs name pubs results = results ++ map (out_of name) pubs.
Proof.
  revert results. induction pubs as [|p pubs IH]; intros results; cbn.
  - now rewrite List.app_nil_r.
  - rewrite IH. now rewrite <- List.app_assoc.
Qed.

Lemma has_column_index df col :
  has_column df col = true -> exists i, index_of col (columns df) = Some i.
Proof.
  unfold has_column. induction (columns df) as [|c cols IH]; cbn; [discriminate|].
  rewrite (String.eqb_sym col c). destruct (String.eqb c col); [eauto|].
  cbn. intros H. destruct (IH H) as [i ->]. cbn. eauto.
Qed.

Lemma columns_ok_get df row :
  columns_ok df ->
  exists name scholar_url,
    row_get df row "Faculty Name" = Ok name
    /\ row_get df row "Google Scholar Profile URL" = Ok scholar_url.
Proof.
  unfold columns_ok, EXPECTED_COLS. cbn [forallb].
  rewrite andb_true_r. intros [H1 H2]%andb_true_iff.
  destruct (has_column_index _ _ H1) as [i Hi].
  destruct (has_column_index _ _ H2) as [j Hj].
  unfold row_get. rewrite Hi, Hj. eauto.
Qed.

(** the loop returns, and [results] grows by the contribution of each row,
    in the order of the rows *)
Lemma main_loop_spec df todo results (w : world S) :
  columns_ok df ->
  exists blocks w',
    main_loop df todo results w = (Ok (results ++ concat blocks), w')
    /\ Forall2 (row_outcome df) todo blocks
    /\ output_file w' = output_file w.
Proof.
  intros Hcols. revert results w.
  induction todo as [|row todo IH]; intros results w.
  - exists [], w. cbn. rewrite List.app_nil_r. repeat split. constructor.
  - destruct (columns_ok_get df row Hcols) as (name & url & Hn & Hu).
    cbn [main_loop]. unfold bind at 1. unfold lift at 1. rewrite Hn.
    unfold bind at 1. unfold lift at 1. rewrite Hu.
    unfold bind at 1. unfold print at 1.
    unfold bind at 1. unfold lift at 1.
    destruct (extract_scholar_userid_returns url) as [uid Hx].
    rewrite Hx.
    set (w1 := mkWorld (net w) (console w ++ [PrintFetching name])
                       (slept w) (output_file w)).
    assert (Hskip :
      (uid = None \/ uid = Some ""%string) ->
      exists blocks w',
        (do! print (PrintSkipping name) in main_loop df todo results)%py w1
        = (Ok (results ++ concat blocks), w')
        /\ Forall2 (row_outcome df) (row :: todo) blocks
        /\ output_file w' = output_file w).
    { intros Huid. unfold bind, print.
      destruct (IH results
                  (mkWorld (net w1) (console w1 ++ [PrintSkipping name])
                           (slept w1) (output_file w1)))
        as (blocks & w' & Hrun & Hall & Hout).
      exists ([] :: blocks), w'. split; [exact Hrun|]. split; [|exact Hout].
      constructor; [|exact Hall].
      exists name, url. repeat split; try assumption. left. split; [reflexivity|].
      destruct Huid as [->| ->]; auto. }
    destruct uid as [[|c u]|].
    + apply Hskip. now right.
    + destruct (fetch_author_pubs_spec (String c u) url PAPERS_PER_FACULTY w1)
        as (pubs & w2 & Hf & _ & Hout2 & _).
      unfold bind at 1. rewrite Hf.
      unfold bind at 1. unfold print at 1.
      unfold bind at 1. unfold sleep at 1.
      cbn [net console slept output_file].
      match goal with |- context [main_loop df todo ?r ?w0] =>
        destruct (IH r w0) as (blocks & w' & Hrun & Hall & Hout) end.
      exists (map (out_of name) pubs :: blocks), w'.
      rewrite Hrun. split; [|split].
      * rewrite append_pubs_eq. cbn [concat]. now rewrite List.app_assoc.
      * constructor; [|exact Hall].
        exists name, url. repeat split; try assumption. right.
        exists (String c u), pubs, w1, w2. repeat split; try assumption.
        discriminate.
      * rewrite Hout. cbn. exact Hout2.
    + apply Hskip. now left.
Qed.

End MainFacts.

Section RunFacts.
Context {lib : PyLib} {S : Type} {scholarly : Scholarly S}.

(** with both columns there, [main] returns, having written the records
    contributed by the rows, in the order of the rows *)
Lemma main_spec df (w : world S) :
  columns_ok df ->
  exists blocks w',
    main df w = (Ok tt, w')
    /\ output_file w' = Some (json_dump (concat blocks))
    /\ Forall2 (row_outcome df) (rows df) blocks.
Proof.
  intros Hcols. unfold main. unfold columns_ok in Hcols. rewrite Hcols.
  cbn [negb]. unfold bind at 1. unfold print at 1.
  unfold bind at 1. unfold print at 1.
  unfold bind at 1. unfold print at 1.
  cbn [net console slept output_file]. unfold bind at 1.
  match goal with |- context [main_loop df (rows df) [] ?w0] =>
    destruct (main_loop_spec df (rows df) [] w0 Hcols)
      as (blocks & w1 & Hrun & Hall & _) end.
  rewrite Hrun. cbn [app].
  exists blocks. eexists. split; [reflexivity|]. split; [reflexivity | exact Hall].
Qed.

Lemma concat_blocks_in {A B} (R : A -> list B -> Prop) xs blocks r :
  Forall2 R xs blocks -> In r (concat blocks) ->
  exists x block, In x xs /\ R x block /\ In r block.
Proof.
  induction 1 as [|x block xs blocks Hx _ IH]; cbn [concat]; intros Hin.
  - destruct Hin.
  - apply in_app_or in Hin as [Hin|Hin].
    + exists x, block. split; [now left | auto].
    + destruct (IH Hin) as (x' & b' & Hx' & HR & Hr).
      exists x', b'. split; [now right | auto].
Qed.

(** a record returned by [fetch_author_pubs] was built from a publication
    the source listed in that call *)
Lemma fetch_author_pubs_in user_id scholar_url n (w w' : world S) pubs p :
  fetch_author_pubs user_id scholar_url n w = (Ok pubs, w') -> In p pubs ->
  exists raw pub,
    source_published user_id w raw /\ In pub raw
    /\ structure_pub user_id scholar_url pub = Ok p.
Proof.
  intros Hf Hin.
  destruct (fetch_author_pubs_spec user_id scholar_url n w)
    as (pubs' & w'' & Hf' & _ & _ & Hpubs).
  rewrite Hf in Hf'. injection Hf' as <- <-.
  destruct Hpubs as [->|(raw & Hsrc & Hst)]; [destruct Hin|].
  destruct (structured_from_in _ _ _ _ _ _ Hst Hin) as (pub & Hpub & Hok).
  eauto.
Qed.

Lemma fetch_author_pubs_sorted user_id scholar_url n (w w' : world S) pubs :
  fetch_author_pubs user_id scholar_url n w = (Ok pubs, w') ->
  StronglySorted year_desc pubs.
Proof.
  intros Hf.
  destruct (fetch_author_pubs_spec user_id scholar_url n w)
    as (pubs' & w'' & Hf' & _ & _ & Hpubs).
  rewrite Hf in Hf'. injection Hf' as <- <-.
  destruct Hpubs as [->|(raw & _ & Hst)]; [constructor|].
  eapply structured_from_sorted, Hst.
Qed.

Lemma link_field_profile user_id scholar_url :
  user_id <> ""%string ->
  link_field user_id scholar_url = VStr (profile_url user_id).
Proof.
  intros Hne. unfold link_field.
  now destruct (String.eqb_spec user_id "").
Qed.

End RunFacts.

(** C1.  When both columns are there, [main] returns and writes its records,
    and every record it writes belongs to a row of the spreadsheet from whose
    URL a non-empty identifier was extracted; the name of the record is the
    name in that row and its link is the profile URL built from that
    identifier.  The other branch of the link, the URL of the spreadsheet, is
    not taken. *)
Theorem main_links_are_profile_urls
    (lib : PyLib) (S : Type) (scholarly : Scholarly S)
    (df : dataframe) (w : world S) :
  columns_ok df ->
  exists results w',
    main df w = (Ok tt, w')
    /\ output_file w' = Some (json_dump results)
    /\ Forall (fun r =>
         exists row scholar_url user_id,
           In row (rows df)
           /\ row_get df row "Faculty Name" = Ok (Out.Faculty_Name r)
           /\ row_get df row "Google Scholar Profile URL" = Ok scholar_url
           /\ extract_scholar_userid scholar_url = Ok (Some user_id)
           /\ user_id <> ""%string
           /\ Out.Link r = VStr (profile_url user_id)) results.
Proof.
  intros Hcols.
  destruct (main_spec df w Hcols) as (blocks & w' & Hrun & Hout & Hall).
  exists (concat blocks), w'. split; [exact Hrun|]. split; [exact Hout|].
  apply Forall_forall. intros r Hr%list_elem_of_In.
  destruct (concat_blocks_in _ _ _ _ Hall Hr)
    as (row & block & Hrow & (name & url & Hn & Hu & Hcase) & Hin).
  destruct Hcase as [[-> _]|(uid & pubs & w1 & w2 & Hx & Hne & Hf & ->)];
    [destruct Hin|].
  apply in_map_iff in Hin as (p & <- & Hp).
  destruct (fetch_author_pubs_in _ _ _ _ _ _ _ Hf Hp) as (raw & pub & _ & _ & Hok).
  destruct (structure_pub_ok _ _ _ _ Hok) as (fields & _ & _ & _ & _ & _ & Hlink).
  exists row, url, uid. cbn [out_of Out.Faculty_Name Out.Link].
  repeat split; try assumption.
  rewrite Hlink. now apply link_field_profile.
Qed.

Lemma main_links_are_profile_urls_witness :
  columns_ok Demo.frame
  /\ exists results w',
       main (lib := ascii_lib) (scholarly := Demo.source) Demo.frame Demo.start
       = (Ok tt, w')
       /\ output_file w' = Some (json_dump results)
       /\ Forall (fun r =>
            exists row scholar_url user_id,
              In row (rows Demo.frame)
              /\ row_get Demo.frame row "Faculty Name" = Ok (Out.Faculty_Name r)
              /\ row_get Demo.frame row "Google Scholar Profile URL"
                 = Ok scholar_url
              /\ extract_scholar_userid (lib := ascii_lib) scholar_url
                 = Ok (Some user_id)
              /\ user_id <> ""%string
              /\ Out.Link r = VStr (profile_url user_id)) results.
Proof.
  split; [reflexivity|].
  apply (main_links_are_profile_urls ascii_lib nat Demo.source). reflexivity.
Defined.

(** C6.  When one of the two columns is missing, [main] prints the columns
    it found and the columns it expects and returns.  The world it leaves is
    the one it started in with these lines on the console: no call to the
    publication source, no sleep, and the output file as it was. *)
Theorem main_missing_columns
    (lib : PyLib) (S : Type) (scholarly : Scholarly S)
    (df : dataframe) (w : world S) :
  has_column df "Faculty Name" = false
  \/ has_column df "Google Scholar Profile URL" = false ->
  main df w =
  (Ok tt,
   mkWorld (net w)
     (console w ++ [PrintReading; PrintLoaded (length (rows df));
                    PrintMissingColumns (columns df);
                    PrintExpectedColumns EXPECTED_COLS])
     (slept w) (output_file w)).
Proof.
  intros H. unfold main.
  assert (Hc : forallb (has_column df) EXPECTED_COLS = false).
  { unfold EXPECTED_COLS. cbn [forallb]. destruct H as [-> | ->];
      [reflexivity | apply andb_false_r]. }
  rewrite Hc. cbn. rewrite <- !List.app_assoc. reflexivity.
Qed.

Lemma main_missing_columns_witness :
  let df := mkFrame ["Faculty Name"; "ORCID"]%string
              [[VStr "A"; VStr "0000-0001"]] in
  main (lib := ascii_lib) (scholarly := Demo.source) df Demo.start =
  (Ok tt,
   mkWorld O [PrintReading; PrintLoaded 1;
              PrintMissingColumns ["Faculty Name"; "ORCID"]%string;
              PrintExpectedColumns EXPECTED_COLS] 0 None).
Proof.
  intros df.
  apply (main_missing_columns ascii_lib nat Demo.source df Demo.start).
  right. reflexivity.
Defined.



(** ** JSON text: what is written is read back *)

Module JsonFacts.
Import JsonText.

Lemma skip_ws_spaces n s : skip_ws (spaces n +:+ s) = skip_ws s.
Proof. induction n as [|n IH]; [reflexivity|]. cbn [spaces]. rewrite StrFacts.app_cons. exact IH. Qed.

Lemma skip_ws_newline_indent level s :
  skip_ws (newline_indent level +:+ s) = skip_ws s.
Proof. unfold newline_indent. rewrite StrFacts.app_cons. cbn [skip_ws]. apply skip_ws_spaces. Qed.

Lemma scanstring_escape s rest :
  scanstring (escape_string s +:+ String quote rest) = Some (s, rest).
Proof.
  induction s as [|c s IH]; [reflexivity|].
  cbn [escape_string]. rewrite StrFacts.app_assoc.
  unfold quote in *.
  destruct c as [[] [] [] [] [] [] [] []];
    match goal with |- context [escape ?c] =>
      let e := eval vm_compute in (escape c) in change (escape c) with e end;
    rewrite ?StrFacts.app_cons, StrFacts.app_nil_l;
    cbn -[String.append]; rewrite IH; reflexivity.
Qed.

Lemma span_digits d rest :
  ends_number rest = true ->
  Str.span Str.is_digit (NilEmpty.string_of_uint d +:+ rest)
  = (NilEmpty.string_of_uint d, rest).
Proof.
  intros Hrest.
  induction d as [|d IH|d IH|d IH|d IH|d IH|d IH|d IH|d IH|d IH|d IH];
    cbn [NilEmpty.string_of_uint]; rewrite ?StrFacts.app_cons;
    try (cbn [Str.span]; rewrite IH; reflexivity).
  rewrite StrFacts.app_nil_l. destruct rest as [|c rest]; [reflexivity|].
  cbn [Str.span]. cbn [ends_number] in Hrest.
  destruct (Str.is_digit c); [discriminate | reflexivity].
Qed.

Lemma unorm_D0 d x : Decimal.unorm d = Decimal.D0 x -> x = Decimal.Nil.
Proof.
  induction d; cbn [Decimal.unorm]; try discriminate; try (intros [= <-]; reflexivity).
  exact IHd.
Qed.

Lemma to_uint_head p :
  match Pos.to_uint p with
  | Decimal.Nil | Decimal.D0 _ => False
  | _ => True
  end.
Proof.
  pose proof (DecimalPos.Unsigned.to_of (Pos.to_uint p)) as H.
  rewrite DecimalPos.Unsigned.of_to in H. cbn [N.to_uint] in H.
  pose proof (DecimalPos.Unsigned.to_uint_nonzero p) as Hnz.
  destruct (Pos.to_uint p) as [|d|d|d|d|d|d|d|d|d|d]; try exact I.
  - discriminate H.
  - cbn [Decimal.unorm] in H. symmetry in H. apply unorm_D0 in H. subst d.
    now apply Hnz.
Qed.

Lemma string_of_uint_head p :
  exists c t, NilEmpty.string_of_uint (Pos.to_uint p) = String c t
              /\ Str.is_digit c = true /\ Ascii.eqb c "0" = false.
Proof.
  pose proof (to_uint_head p) as Hhead.
  destruct (Pos.to_uint p) as [|d|d|d|d|d|d|d|d|d|d]; try contradiction;
    cbn [NilEmpty.string_of_uint]; eexists _, _; repeat split; reflexivity.
Qed.

Lemma scan_natural_dumps p rest :
  ends_number rest = true ->
  scan_natural (NilEmpty.string_of_uint (Pos.to_uint p) +:+ rest)
  = Some (Npos p, rest).
Proof.
  intros Hrest.
  pose proof (span_digits (Pos.to_uint p) rest Hrest) as Hspan.
  destruct (string_of_uint_head p) as (c & t & Hc & _ & H0).
  unfold scan_natural. rewrite Hc in Hspan |- *. rewrite StrFacts.app_cons in Hspan |- *.
  rewrite H0, Hspan. cbv beta iota zeta. rewrite <- Hc, NilEmpty.usu.
  unfold mbind, option_bind, N.of_uint.
  now rewrite DecimalPos.Unsigned.of_to.
Qed.

Lemma ends_number_float rest : ends_number rest = true -> float_tail rest = false.
Proof.
  destruct rest as [|c rest]; [reflexivity|]. cbn [ends_number float_tail].
  destruct (Str.is_digit c); [discriminate|]. cbn [orb].
  now intros ->%negb_true_iff.
Qed.

Lemma scan_int_dumps z rest :
  ends_number rest = true ->
  scan_int (dumps_int z +:+ rest) = Some (z, rest).
Proof.
  intros Hrest. pose proof (ends_number_float rest Hrest) as Hfloat.
  destruct z as [|p|p]; cbn [dumps_int].
  - rewrite StrFacts.app_cons, StrFacts.app_nil_l. unfold scan_int, scan_natural.
    cbn -[float_tail]. now rewrite Hfloat.
  - destruct (string_of_uint_head p) as (c & t & Hc & Hd & _).
    pose proof (scan_natural_dumps p rest Hrest) as Hscan.
    unfold scan_int. rewrite Hc in Hscan |- *. rewrite StrFacts.app_cons in Hscan |- *.
    assert (Hneg : Ascii.eqb c "-" = false).
    { destruct (Ascii.eqb_spec c "-") as [->|]; [discriminate | reflexivity]. }
    rewrite Hneg, Hscan. unfold mbind, option_bind. now rewrite Hfloat.
  - rewrite StrFacts.app_cons. unfold scan_int. cbn [Ascii.eqb Bool.eqb].
    rewrite (scan_natural_dumps p rest Hrest).
    unfold mbind, option_bind. now rewrite Hfloat.
Qed.

Lemma skip_ws_solid s r : starts_solid s -> skip_ws (s +:+ r) = s +:+ r.
Proof. intros (c & t & -> & Hc). rewrite StrFacts.app_cons. cbn [skip_ws]. now rewrite Hc. Qed.

Lemma length_app (a b : string) :
  String.length (a +:+ b) = (String.length a + String.length b)%nat.
Proof.
  induction a as [|c a IH]; [reflexivity|]. rewrite StrFacts.app_cons. cbn [String.length].
  now rewrite IH.
Qed.

Lemma concat_cons2 sep (x y : string) l :
  String.concat sep (x :: y :: l) = x +:+ sep +:+ String.concat sep (y :: l).
Proof. reflexivity. Qed.

Lemma length_concat sep (texts : list string) :
  Forall starts_solid texts ->
  (length texts <= String.length (String.concat sep texts) + 1)%nat.
Proof.
  induction 1 as [|x l (c & t & -> & _) Hl IH]; [cbn; lia|].
  destruct l as [|y l].
  - cbn. lia.
  - rewrite concat_cons2, StrFacts.app_cons. cbn [String.length length] in *.
    rewrite !length_app. lia.
Qed.

Section Sequences.
Context {A : Type} (text : A -> string) (tree : A -> json)
        (value : string -> option (json * string)) (level : nat).

Hypothesis text_solid : forall x, starts_solid (text x).
Hypothesis value_text :
  forall x rest, ends_number rest = true ->
                 value (text x +:+ rest) = Some (tree x, rest).

Let sep : string := "," +:+ newline_indent (S level).

Lemma sep_app r : sep +:+ r = String "," (newline_indent (S level) +:+ r).
Proof. reflexivity. Qed.

(** the items of an array, as [dumps] writes them, are scanned back *)
Lemma scan_items_concat xs n rest :
  xs <> [] -> (length xs <= n)%nat ->
  scan_items value n
    (String.concat sep (map text xs) +:+ newline_indent level +:+ String "]" rest)
  = Some (map tree xs, rest).
Proof.
  revert n. induction xs as [|x xs IH]; intros n Hne Hn; [contradiction|].
  destruct n as [|n]; [cbn in Hn; lia|]. cbn [scan_items map].
  destruct xs as [|y xs].
  - cbn [String.concat map]. rewrite value_text by reflexivity.
    unfold mbind, option_bind. rewrite skip_ws_newline_indent. reflexivity.
  - cbn [map]. rewrite concat_cons2. rewrite !StrFacts.app_assoc.
    rewrite value_text by reflexivity. unfold mbind, option_bind.
    rewrite sep_app. cbn [skip_ws is_ws Ascii.eqb Bool.eqb orb].
    rewrite skip_ws_newline_indent.
    change (text y :: map text xs) with (map text (y :: xs)).
    rewrite skip_ws_solid.
    2:{ destruct (text_solid y) as (c & t & Hy & Hc). exists c.
        cbn [map]. destruct xs; cbn [map]; [|rewrite concat_cons2];
          rewrite Hy, ?StrFacts.app_cons; eauto. }
    rewrite IH; [reflexivity | discriminate | cbn [length] in *; lia].
Qed.

End Sequences.

Section Members.
Context {B : Type} (text : B -> string) (tree : B -> json)
        (value : string -> option (json * string)) (level : nat).

Hypothesis text_solid : forall x, starts_solid (text x).
Hypothesis value_text :
  forall x rest, ends_number rest = true ->
                 value (text x +:+ rest) = Some (tree x, rest).

Let sep : string := "," +:+ newline_indent (S level).

Lemma member_text_app m r :
  member_text text m +:+ r
  = String quote (escape_string (fst m)
                  +:+ String quote (String ":" (String " " (text (snd m) +:+ r)))).
Proof.
  unfold member_text, dumps_string.
  rewrite !StrFacts.app_assoc, StrFacts.app_cons, !StrFacts.app_assoc. reflexivity.
Qed.

Lemma member_text_solid m : starts_solid (member_text text m).
Proof. eexists _, _. split; reflexivity. Qed.

Lemma sep_app_members r :
  sep +:+ r = String "," (newline_indent (S level) +:+ r).
Proof. reflexivity. Qed.

(** the members of an object, as [dumps] writes them, are scanned back *)
Lemma scan_members_concat ms n rest :
  ms <> [] -> (length ms <= n)%nat ->
  scan_members value n
    (String.concat sep (map (member_text text) ms)
     +:+ newline_indent level +:+ String "}" rest)
  = Some (map (fun m => (fst m, tree (snd m))) ms, rest).
Proof.
  revert n. induction ms as [|m ms IH]; intros n Hne Hn; [contradiction|].
  destruct n as [|n]; [cbn in Hn; lia|]. cbn [map].
  assert (Hstep : forall r,
    ends_number r = true ->
    scan_members value (S n) (member_text text m +:+ r)
    = match skip_ws r with
      | EmptyString => None
      | String d s4 =>
          if Ascii.eqb d "}" then Some ([(fst m, tree (snd m))], s4)
          else if Ascii.eqb d "," then
            '(ms', rest') ← scan_members value n (skip_ws s4);
            Some ((fst m, tree (snd m)) :: ms', rest')
          else None
      end).
  { intros r Hr. rewrite member_text_app. cbn [scan_members].
    unfold quote at 1. cbn [Ascii.eqb Bool.eqb]. rewrite scanstring_escape.
    unfold mbind, option_bind. cbn [skip_ws is_ws Ascii.eqb Bool.eqb orb].
    rewrite (skip_ws_solid _ _ (text_solid (snd m))).
    rewrite value_text by exact Hr. reflexivity. }
  destruct ms as [|m' ms].
  - cbn [String.concat map]. rewrite Hstep by reflexivity.
    rewrite skip_ws_newline_indent. reflexivity.
  - cbn [map]. rewrite concat_cons2. rewrite !StrFacts.app_assoc.
    rewrite Hstep by reflexivity. rewrite sep_app_members.
    cbn [skip_ws is_ws Ascii.eqb Bool.eqb orb]. rewrite skip_ws_newline_indent.
    change (member_text text m' :: map (member_text text) ms)
      with (map (member_text text) (m' :: ms)).
    rewrite skip_ws_solid.
    2:{ destruct (member_text_solid m') as (c & t & Hm & Hc). exists c.
        cbn [map]. destruct ms; cbn [map]; [|rewrite concat_cons2];
          rewrite Hm, ?StrFacts.app_cons; eauto. }
    unfold mbind, option_bind.
    rewrite IH; [reflexivity | discriminate | cbn [length] in *; lia].
Qed.

End Members.



Lemma dumps_int_head z :
  exists c t, dumps_int z = String c t
              /\ (Str.is_digit c = true \/ c = "-"%char).
Proof.
  destruct z as [|p|p]; cbn [dumps_int].
  - eexists _, _. split; [reflexivity | now left].
  - destruct (string_of_uint_head p) as (c & t & Hc & Hd & _). eauto.
  - eexists _, _. split; [reflexivity | now right].
Qed.

Lemma scalar_solid level v : starts_solid (dumps level (json_of_pyval v)).
Proof.
  destruct v as [|[]|z|s]; cbn [json_of_pyval dumps];
    try (eexists _, _; split; reflexivity).
  destruct (dumps_int_head z) as (c & t & -> & [Hd| ->]).
  - exists c, t. split; [reflexivity|].
    destruct c as [[] [] [] [] [] [] [] []]; try discriminate; reflexivity.
  - eexists _, _. split; reflexivity.
Qed.

Lemma scan_value_scalar depth level v rest :
  ends_number rest = true ->
  scan_value (S depth) (dumps level (json_of_pyval v) +:+ rest)
  = Some (json_of_pyval v, rest).
Proof.
  intros Hrest. destruct v as [|[]|z|s]; cbn [json_of_pyval dumps].
  - reflexivity.
  - reflexivity.
  - reflexivity.
  - pose proof (scan_int_dumps z rest Hrest) as Hscan.
    destruct (dumps_int_head z) as (c & t & Hz & Hc). rewrite Hz in *.
    rewrite StrFacts.app_cons in *. cbn [scan_value]. unfold quote.
    destruct Hc as [Hd| ->].
    + destruct c as [[] [] [] [] [] [] [] []]; try discriminate;
        cbn [Ascii.eqb Bool.eqb]; now rewrite Hscan.
    + cbn [Ascii.eqb Bool.eqb]. now rewrite Hscan.
  - unfold dumps_string. rewrite StrFacts.app_cons, StrFacts.app_assoc.
    cbn [scan_value]. unfold quote at 1. cbn [Ascii.eqb Bool.eqb].
    change (String quote "" +:+ rest) with (String quote rest).
    now rewrite scanstring_escape.
Qed.

Lemma scan_value_eq depth s :
  scan_value (S depth) s =
  match s with
  | EmptyString => None
  | String c s' =>
      if Ascii.eqb c quote then
        '(t, rest) ← scanstring s'; Some (JStr t, rest)
      else if Ascii.eqb c "{" then
        match closes "}" s' with
        | Some rest => Some (JObject [], rest)
        | None =>
            '(ms, rest) ← scan_members (scan_value depth)
                            (String.length s) (skip_ws s');
            Some (JObject ms, rest)
        end
      else if Ascii.eqb c "[" then
        match closes "]" s' with
        | Some rest => Some (JArray [], rest)
        | None =>
            '(vs, rest) ← scan_items (scan_value depth)
                            (String.length s) (skip_ws s');
            Some (JArray vs, rest)
        end
      else if Ascii.eqb c "n" then literal "null" JNull s
      else if Ascii.eqb c "t" then literal "true" (JBool true) s
      else if Ascii.eqb c "f" then literal "false" (JBool false) s
      else '(z, rest) ← scan_int s; Some (JInt z, rest)
  end.
Proof. reflexivity. Qed.

Lemma dumps_object level m ms :
  dumps level (obj_tree (m :: ms))
  = String "{" (newline_indent (S level)
      +:+ String.concat ("," +:+ newline_indent (S level))
            (map (member_text (scalar_text (S level))) (m :: ms))
      +:+ newline_indent level +:+ "}").
Proof.
  unfold obj_tree. cbn [map dumps]. rewrite List.map_map. reflexivity.
Qed.

Lemma concat_solid sep (x : string) l :
  starts_solid x -> starts_solid (String.concat sep (x :: l)).
Proof.
  intros (c & t & -> & Hc). destruct l; [now exists c, t|].
  rewrite concat_cons2, StrFacts.app_cons. eexists _, _. split; [reflexivity | exact Hc].
Qed.

Lemma concat_head sep c t l :
  exists u, String.concat sep (String c t :: l) = String c u.
Proof.
  destruct l; [now exists t|]. rewrite concat_cons2, StrFacts.app_cons. eauto.
Qed.

Lemma closes_newline_solid c level s r :
  starts_solid s ->
  closes c (newline_indent level +:+ s +:+ r)
  = match s with
    | String a t => if Ascii.eqb a c then Some (t +:+ r) else None
    | EmptyString => None
    end.
Proof.
  intros Hs. unfold closes. rewrite skip_ws_newline_indent, (skip_ws_solid _ _ Hs).
  destruct Hs as (a & t & -> & _). rewrite StrFacts.app_cons. reflexivity.
Qed.

Lemma scan_value_object depth level ms rest :
  scan_value (S (S depth)) (dumps level (obj_tree ms) +:+ rest)
  = Some (obj_tree ms, rest).
Proof.
  destruct ms as [|m ms]; [reflexivity|].
  rewrite dumps_object, StrFacts.app_cons, !StrFacts.app_assoc.
  set (texts := map (member_text (scalar_text (S level))) (m :: ms)).
  set (sep := "," +:+ newline_indent (S level)).
  assert (Hsolid : starts_solid (String.concat sep texts))
    by (apply concat_solid, member_text_solid).
  rewrite scan_value_eq. unfold quote at 1. cbn [Ascii.eqb Bool.eqb].
  rewrite closes_newline_solid by exact Hsolid.
  destruct (String.concat sep texts) as [|a t] eqn:Etext.
  { destruct Hsolid as (? & ? & ? & _). discriminate. }
  assert (Ha : a = quote).
  { subst texts. cbn [map] in Etext.
    unfold member_text at 1, dumps_string in Etext. rewrite StrFacts.app_cons in Etext.
    match type of Etext with String.concat _ (String ?c ?u :: ?l) = _ =>
      destruct (concat_head sep c u l) as [v Hv] end.
    rewrite Hv in Etext. now injection Etext as <- _. }
  subst a. unfold quote at 1. cbn [Ascii.eqb Bool.eqb].
  rewrite skip_ws_newline_indent, skip_ws_solid by (eexists _, _; split; reflexivity).
  rewrite <- Etext.
  change (String "}" "" +:+ rest) with (String "}" rest).
  assert (Hfuel :
    (length (m :: ms)
     <= String.length (String "{" (newline_indent (S level)
          +:+ String.concat sep texts
          +:+ newline_indent level +:+ String "}" rest)))%nat).
  { pose proof (length_concat sep texts) as Hlen.
    unfold texts in Hlen at 2. rewrite length_map in Hlen.
    cbn [String.length]. rewrite !length_app.
    assert (Forall starts_solid texts).
    { apply Forall_forall. intros x Hx%list_elem_of_In.
      apply in_map_iff in Hx as (m' & <- & _). apply member_text_solid. }
    specialize (Hlen ltac:(assumption)). lia. }
  subst sep texts.
  rewrite (scan_members_concat (scalar_text (S level)) json_of_pyval
             (scan_value (S depth)) level).
  - reflexivity.
  - intros v. apply scalar_solid.
  - intros v r Hr. apply scan_value_scalar, Hr.
  - discriminate.
  - exact Hfuel.
Qed.

Lemma object_solid level ms : starts_solid (dumps level (obj_tree ms)).
Proof.
  destruct ms as [|m ms]; [eexists _, _; split; reflexivity|].
  rewrite dumps_object. eexists _, _. split; reflexivity.
Qed.

Lemma dumps_objects level ms objs :
  dumps level (JArray (map obj_tree (ms :: objs)))
  = String "[" (newline_indent (S level)
      +:+ String.concat ("," +:+ newline_indent (S level))
            (map (fun ms => dumps (S level) (obj_tree ms)) (ms :: objs))
      +:+ newline_indent level +:+ "]").
Proof. cbn [map dumps]. rewrite List.map_map. reflexivity. Qed.

(** an array of objects with scalar members, as [dumps] writes it, is
    scanned back *)
Lemma scan_value_objects depth level objs rest :
  scan_value (S (S (S depth))) (dumps level (JArray (map obj_tree objs)) +:+ rest)
  = Some (JArray (map obj_tree objs), rest).
Proof.
  destruct objs as [|ms objs]; [reflexivity|].
  rewrite dumps_objects, StrFacts.app_cons, !StrFacts.app_assoc.
  set (texts := map (fun ms => dumps (S level) (obj_tree ms)) (ms :: objs)).
  set (sep := "," +:+ newline_indent (S level)).
  assert (Hsolid : starts_solid (String.concat sep texts))
    by (apply concat_solid, object_solid).
  rewrite scan_value_eq. unfold quote at 1. cbn [Ascii.eqb Bool.eqb].
  rewrite closes_newline_solid by exact Hsolid.
  destruct (String.concat sep texts) as [|a t] eqn:Etext.
  { destruct Hsolid as (? & ? & ? & _). discriminate. }
  assert (Ha : a = "{"%char).
  { subst texts. cbn [map] in Etext.
    destruct (object_solid (S level) ms) as (c & u & Hc & _).
    assert (c = "{"%char) as ->.
    { destruct ms; [cbn in Hc | rewrite dumps_object in Hc];
        now injection Hc as <- _. }
    rewrite Hc in Etext.
    match type of Etext with String.concat _ (String ?c ?u :: ?l) = _ =>
      destruct (concat_head sep c u l) as [v Hv] end.
    rewrite Hv in Etext. now injection Etext as <- _. }
  subst a. cbn [Ascii.eqb Bool.eqb].
  rewrite skip_ws_newline_indent, skip_ws_solid by (eexists _, _; split; reflexivity).
  rewrite <- Etext.
  change (String "]" "" +:+ rest) with (String "]" rest).
  assert (Hfuel :
    (length (ms :: objs)
     <= String.length (String "[" (newline_indent (S level)
          +:+ String.concat sep texts
          +:+ newline_indent level +:+ String "]" rest)))%nat).
  { pose proof (length_concat sep texts) as Hlen.
    unfold texts in Hlen at 2. rewrite length_map in Hlen.
    cbn [String.length]. rewrite !length_app.
    assert (Forall starts_solid texts).
    { apply Forall_forall. intros x Hx%list_elem_of_In.
      apply in_map_iff in Hx as (m' & <- & _). apply object_solid. }
    specialize (Hlen ltac:(assumption)). lia. }
  subst sep texts.
  rewrite (scan_items_concat (fun ms => dumps (S level) (obj_tree ms)) obj_tree
             (scan_value (S (S depth))) level).
  - reflexivity.
  - intros x. apply object_solid.
  - intros x r _. apply scan_value_object.
  - discriminate.
  - exact Hfuel.
Qed.

(** what [json.dumps] writes for a list of dictionaries with scalar values
    is read back by [json.loads] as the same document *)
Lemma loads_dumps_objects objs :
  loads (dumps 0 (JArray (map obj_tree objs))) = Some (JArray (map obj_tree objs)).
Proof.
  unfold loads.
  destruct objs as [|ms objs]; [reflexivity|].
  set (text := dumps 0 (JArray (map obj_tree (ms :: objs)))).
  assert (Hsolid : starts_solid text)
    by (unfold text; rewrite dumps_objects; eexists _, _; split; reflexivity).
  assert (Hlen : exists d, String.length text = S (S (S d))).
  { unfold text. rewrite dumps_objects. cbn [String.length].
    rewrite length_app. cbn [newline_indent String.length Nat.mul Nat.add spaces].
    eauto. }
  destruct Hlen as [d ->].
  rewrite <- (StrFacts.app_nil_r text) at 1.
  rewrite (skip_ws_solid _ _ Hsolid). unfold text.
  rewrite scan_value_objects. reflexivity.
Qed.

End JsonFacts.

(** ** The output document *)

Section DocumentFacts.

Lemma pyval_of_json_of_pyval v : pyval_of_json (json_of_pyval v) = Some v.
Proof. now destruct v. Qed.

Lemma object_of_json_tree ms : object_of_json (obj_tree ms) = Some ms.
Proof.
  unfold object_of_json, obj_tree.
  induction ms as [|[k v] ms IH]; [reflexivity|].
  cbn [map mapM]. cbn [mapM] in IH. rewrite IH.
  unfold member_of_json. cbn [fst snd]. now rewrite pyval_of_json_of_pyval.
Qed.

Lemma objects_of_json_tree objs :
  objects_of_json (JArray (map obj_tree objs)) = Some objs.
Proof.
  unfold objects_of_json.
  induction objs as [|ms objs IH]; [reflexivity|].
  cbn [map mapM]. cbn [mapM] in IH. now rewrite IH, object_of_json_tree.
Qed.

Lemma json_of_results_tree results :
  json_of_results results = JArray (map obj_tree (map items results)).
Proof.
  unfold json_of_results. f_equal. rewrite List.map_map.
  apply map_ext. now intros [].
Qed.

(** reading the file that [json.dump] wrote gives the dictionaries of
    [results], in their order *)
Lemma json_load_dump results :
  json_load (json_dump results) = Some (map items results).
Proof.
  unfold json_load, json_dump.
  rewrite json_of_results_tree, JsonFacts.loads_dumps_objects.
  apply objects_of_json_tree.
Qed.

Lemma items_keys r : map fst (items r) = OUTPUT_KEYS.
Proof. reflexivity. Qed.

Lemma out_of_sorted name pubs :
  StronglySorted year_desc pubs ->
  StronglySorted out_year_desc (map (out_of name) pubs).
Proof.
  induction 1 as [|p pubs _ IH Hall]; cbn [map]; constructor; [exact IH|].
  rewrite Forall_forall in Hall. apply Forall_forall.
  intros r Hr%list_elem_of_In. apply in_map_iff in Hr as (q & <- & Hq).
  apply list_elem_of_In in Hq. exact (Hall q Hq).
Qed.

End DocumentFacts.




(** ** Citation counts *)

Section CitationFacts.
Context {lib : PyLib}.

Lemma decimal_go_nonneg acc s : 0 <= acc -> 0 <= Str.decimal_go acc s.
Proof.
  revert acc. induction s as [|c s IH]; intros acc Hacc; cbn [Str.decimal_go].
  - exact Hacc.
  - apply IH. lia.
Qed.

Lemma citations_field_nonneg v c :
  citation_ok v = true -> citations_field v = Ok c -> 0 <= c.
Proof.
  unfold citations_field. destruct v as [|[]|z|s]; cbn.
  - intros _ [= <-]. lia.
  - intros _ [= <-]. lia.
  - intros _ [= <-]. lia.
  - intros Hz. destruct (z =? 0); cbn; intros [= <-]; lia.
  - intros Hs. destruct (String.eqb s ""); cbn.
    + intros [= <-]. lia.
    + rewrite Hs. intros [= <-]. now apply decimal_go_nonneg.
Qed.

End CitationFacts.


Lemma tidy_citations_ok : source_citations_ok (scholarly := Demo.tidy).
Proof.
  intros author s author' s' raw pub c Hfill Hraw Hin Hc.
  injection Hfill as <- _. injection Hraw as <-.
  destruct Hin as [<-|[<-|[<-|[]]]]; cbn in Hc; try discriminate;
    injection Hc as <-; reflexivity.
Qed.



(** ** Finding the spreadsheet *)

Section FindFacts.

Import Os.

Lemma walk_eq top files subdirs :
  walk top (Dir files subdirs)
  = (top, files)
    :: flat_map (fun d => walk (path_join top (fst d)) (snd d)) subdirs.
Proof.
  cbn [walk]. f_equal.
  induction subdirs as [|[name sub] l IH]; [reflexivity|].
  cbn [flat_map fst snd]. rewrite <- IH. reflexivity.
Qed.

Lemma anywhere_eq filename files subdirs :
  anywhere filename (Dir files subdirs)
  = listed filename files
    || existsb (fun d => anywhere filename (snd d)) subdirs.
Proof.
  cbn [anywhere]. f_equal.
  induction subdirs as [|[name sub] l IH]; [reflexivity|].
  cbn [existsb snd]. rewrite <- IH. reflexivity.
Qed.

Lemma names_relative_eq files subdirs :
  names_relative (Dir files subdirs)
  = forallb (fun d => relative (fst d) && names_relative (snd d)) subdirs.
Proof.
  cbn [names_relative].
  induction subdirs as [|[name sub] l IH]; [reflexivity|].
  cbn [forallb fst snd]. rewrite <- IH. reflexivity.
Qed.

(** the recursive search is a search for the first entry that lists the
    file *)
Lemma find_loop_first filename entries :
  find_loop filename true entries
  = match List.find (fun e => listed filename (snd e)) entries with
    | Some e => Return (path_join (fst e) filename)
    | None => RaiseFileNotFoundError filename
    end.
Proof.
  induction entries as [|[root files] l IH]; [reflexivity|].
  cbn [find_loop List.find fst snd negb].
  destruct (listed filename files); [reflexivity | exact IH].
Qed.

Lemma walk_lists filename t :
  forall top,
    existsb (fun e => listed filename (snd e)) (walk top t)
    = anywhere filename t.
Proof.
  induction t as [files subdirs IH] using tree_induction. intros top.
  rewrite walk_eq, anywhere_eq. cbn [existsb snd]. f_equal.
  induction IH as [|[name sub] l Hd _ IHl]; [reflexivity|].
  cbn [flat_map existsb fst snd]. rewrite existsb_app, Hd, IHl. reflexivity.
Qed.

Lemma find_none_existsb {A} (f : A -> bool) (l : list A) :
  List.find f l = None <-> existsb f l = false.
Proof.
  induction l as [|a l IH]; cbn; [tauto|].
  destruct (f a); cbn; [split; discriminate | exact IH].
Qed.

Lemma find_split {A} (f : A -> bool) (l : list A) (a : A) :
  List.find f l = Some a ->
  exists before after,
    l = before ++ a :: after /\ f a = true
    /\ Forall (fun x => f x = false) before.
Proof.
  induction l as [|b l IH]; cbn; [discriminate|].
  destruct (f b) eqn:Hb.
  - intros [= ->]. exists [], l. repeat split; [exact Hb | constructor].
  - intros H. destruct (IH H) as (before & after & -> & Ha & Hall).
    exists (b :: before), after. repeat split; [exact Ha|].
    constructor; assumption.
Qed.


Lemma find_loop_flat filename entries :
  find_loop filename false entries
  = match entries with
    | [] => RaiseFileNotFoundError filename
    | e :: _ =>
        if listed filename (snd e) then Return (path_join (fst e) filename)
        else RaiseFileNotFoundError filename
    end.
Proof.
  destruct entries as [|[root files] l]; [reflexivity|].
  cbn [find_loop fst snd negb]. destruct (listed filename files); reflexivity.
Qed.

Lemma path_join_relative a b :
  relative b = true -> exists sep, path_join a b = a +:+ sep +:+ b.
Proof.
  unfold relative, path_join. intros H.
  destruct (String.prefix "/" b); [discriminate|].
  destruct (String.eqb a "" || ends_with "/" a).
  - exists ""%string. reflexivity.
  - exists "/"%string. reflexivity.
Qed.

Lemma walk_roots t :
  forall top e,
    names_relative t = true -> In e (walk top t) ->
    exists rest, fst e = top +:+ rest.
Proof.
  induction t as [files subdirs IH] using tree_induction. intros top e.
  rewrite walk_eq, names_relative_eq. intros Hrel [<- | Hin].
  - exists ""%string. cbn [fst]. now rewrite StrFacts.app_nil_r.
  - induction IH as [|[name sub] l Hd _ IHl]; [destruct Hin|].
    cbn [forallb fst snd] in Hrel.
    apply andb_prop in Hrel as [Hhd Hrel].
    apply andb_prop in Hhd as [Hname Hsub].
    cbn [flat_map fst snd] in Hin. apply in_app_or in Hin as [Hin | Hin].
    + destruct (Hd _ _ Hsub Hin) as [rest ->].
      destruct (path_join_relative top name Hname) as [sep ->].
      exists (sep +:+ name +:+ rest).
      now rewrite !StrFacts.app_assoc.
    + exact (IHl Hrel Hin).
Qed.

(** X1: the recursive search ends with a path exactly when some directory of
    the tree lists the file, and with [FileNotFoundError] for that file name
    exactly when none does. *)
Theorem find_excel_file_found_iff filename cwd t :
  match find_excel_file filename true cwd t with
  | Return _ => anywhere filename t = true
  | RaiseFileNotFoundError f => f = filename /\ anywhere filename t = false
  end.
Proof.
  unfold find_excel_file. rewrite find_loop_first.
  rewrite <- (walk_lists filename t cwd).
  destruct (List.find _ (walk cwd t)) as [e|] eqn:Hfind.
  - destruct (existsb _ (walk cwd t)) eqn:Hex; [reflexivity|].
    apply find_none_existsb in Hex. congruence.
  - split; [reflexivity|]. now apply find_none_existsb.
Qed.

(** X2: the path returned is that of the first directory, in the top-down
    order of the walk, that lists the file: no directory visited before it
    lists the file. *)
Theorem find_excel_file_first filename cwd t p :
  find_excel_file filename true cwd t = Return p ->
  exists before root files after,
    walk cwd t = before ++ (root, files) :: after
    /\ Forall (fun e => listed filename (snd e) = false) before
    /\ listed filename files = true
    /\ p = path_join root filename.
Proof.
  unfold find_excel_file. rewrite find_loop_first.
  destruct (List.find _ (walk cwd t)) as [[root files]|] eqn:Hfind;
    [|discriminate].
  intros [= <-].
  destruct (find_split _ _ _ Hfind) as (before & after & Hw & Hl & Hall).
  exists before, root, files, after. repeat split; assumption.
Qed.

Lemma find_excel_file_first_witness :
  exists before root files after,
    walk "/srv/site" DemoFs.project = before ++ (root, files) :: after
    /\ Forall (fun e => listed EXCEL_FILENAME (snd e) = false) before
    /\ listed EXCEL_FILENAME files = true
    /\ "/srv/site/data/2024/Google Scholar and ORCID Data.xlsx"%string
       = path_join root EXCEL_FILENAME.
Proof.
  apply (find_excel_file_first EXCEL_FILENAME "/srv/site" DemoFs.project).
  reflexivity.
Defined.

(** X3: without [search_subfolders] only the top directory counts, whatever
    the subdirectories hold; and whenever that search returns a path, the
    recursive search returns the same one. *)
Theorem find_excel_file_flat filename cwd files subdirs :
  find_excel_file filename false cwd (Dir files subdirs)
  = (if listed filename files then Return (path_join cwd filename)
     else RaiseFileNotFoundError filename)
  /\ match find_excel_file filename false cwd (Dir files subdirs) with
     | Return p =>
         find_excel_file filename true cwd (Dir files subdirs) = Return p
     | RaiseFileNotFoundError _ => True
     end.
Proof.
  unfold find_excel_file. rewrite find_loop_flat, find_loop_first, walk_eq.
  cbn [fst snd List.find]. destruct (listed filename files); split; reflexivity || exact I.
Qed.

(** X4: for a file name that does not start with a slash, in a tree whose
    directory names do not either, the path returned is the working
    directory followed by some text and then the file name. *)
Theorem find_excel_file_inside filename b cwd t p :
  relative filename = true ->
  names_relative t = true ->
  find_excel_file filename b cwd t = Return p ->
  exists between, p = cwd +:+ between +:+ filename.
Proof.
  intros Hf Ht. unfold find_excel_file. destruct b.
  - rewrite find_loop_first.
    destruct (List.find _ (walk cwd t)) as [[root files]|] eqn:Hfind;
      [|discriminate].
    intros [= <-]. cbn [fst].
    destruct (find_split _ _ _ Hfind) as (before & after & Hw & _ & _).
    destruct (walk_roots t cwd (root, files) Ht) as [rest Hroot].
    { rewrite Hw. apply in_or_app. right. left. reflexivity. }
    cbn [fst] in Hroot. subst root.
    destruct (path_join_relative (cwd +:+ rest) filename Hf) as [sep ->].
    exists (rest +:+ sep). now rewrite !StrFacts.app_assoc.
  - destruct t as [files subdirs]. rewrite find_loop_flat, walk_eq.
    cbn [fst snd].
    destruct (listed filename files); [|discriminate]. intros [= <-].
    destruct (path_join_relative cwd filename Hf) as [sep ->].
    exists sep. reflexivity.
Qed.

Lemma find_excel_file_inside_witness :
  exists between,
    "/srv/site/data/2024/Google Scholar and ORCID Data.xlsx"%string
    = "/srv/site" +:+ between +:+ EXCEL_FILENAME.
Proof.
  apply (find_excel_file_inside EXCEL_FILENAME SEARCH_SUBFOLDERS "/srv/site"
           DemoFs.project);
    reflexivity.
Defined.

End FindFacts.

(** ** The order of the records returned *)

Section OrderFacts.

Lemma tied_spec a b :
  tied a b = true -> py_lt a b = Ok false /\ py_lt b a = Ok false.
Proof.
  unfold tied.
  destruct (py_lt a b) as [[]|], (py_lt b a) as [[]|]; try discriminate.
  auto.
Qed.

Lemma tied_not_lt a b k :
  tied a k = true -> tied b k = true -> py_lt a b <> Ok true.
Proof.
  intros [Hak _]%tied_spec [_ Hkb]%tied_spec.
  rewrite (py_lt_trans _ _ _ Hak Hkb). discriminate.
Qed.

Lemma insert_desc_of_year k x l r :
  insert_desc x l = Ok r -> of_year k r = of_year k (x :: l).
Proof.
  unfold of_year. revert r. induction l as [|y l IH]; intros r; cbn [insert_desc].
  - intros [= <-]. reflexivity.
  - unfold rbind.
    destruct (py_lt (sort_key x) (sort_key y)) as [[]|] eqn:E; [| |discriminate].
    + destruct (insert_desc x l) as [r'|]; [|discriminate]. intros [= <-].
      cbn [List.filter]. rewrite (IH r' eq_refl). cbn [List.filter].
      destruct (tied (sort_key y) k) eqn:Ty, (tied (sort_key x) k) eqn:Tx;
        try reflexivity.
      exfalso. exact (tied_not_lt _ _ _ Tx Ty E).
    + intros [= <-]. reflexivity.
Qed.

(** the sort is stable: the records of one year keep their order *)
Lemma sorted_desc_of_year k l r :
  sorted_desc l = Ok r -> of_year k r = of_year k l.
Proof.
  revert r. induction l as [|x l IH]; intros r; cbn [sorted_desc].
  - intros [= <-]. reflexivity.
  - unfold rbind. destruct (sorted_desc l) as [s|]; [|discriminate].
    intros H. rewrite (insert_desc_of_year k _ _ _ H).
    unfold of_year in *. cbn [List.filter]. now rewrite (IH s eq_refl).
Qed.

Lemma of_year_slice_to k n l :
  of_year k l = of_year k (slice_to n l)
                ++ of_year k (skipn (length (slice_to n l)) l).
Proof.
  unfold of_year. rewrite <- List.filter_app. f_equal.
  unfold slice_to. destruct (0 <=? n).
  - rewrite <- (firstn_skipn (Z.to_nat n) l) at 1. f_equal.
    destruct (Nat.le_gt_cases (Z.to_nat n) (length l)) as [Hle|Hgt].
    + now rewrite length_firstn, Nat.min_l.
    + rewrite firstn_all2 by lia. now rewrite !skipn_all2 by lia.
  - set (k' := (length l - Z.to_nat (- n))%nat).
    rewrite <- (firstn_skipn k' l) at 1. f_equal.
    rewrite length_firstn, Nat.min_l by (unfold k'; lia). reflexivity.
Qed.

Lemma insert_desc_total x l :
  Forall (fun y => exists c, py_lt (sort_key x) (sort_key y) = Ok c) l ->
  exists r, insert_desc x l = Ok r.
Proof.
  induction 1 as [|y l [c Hc] _ [r IH]]; cbn [insert_desc]; [eauto|].
  rewrite Hc. unfold rbind. destruct c; [rewrite IH|]; eauto.
Qed.

Lemma sorted_desc_total l :
  (forall a b, In a l -> In b l ->
               exists c, py_lt (sort_key a) (sort_key b) = Ok c) ->
  exists r, sorted_desc l = Ok r.
Proof.
  induction l as [|x l IH]; intros Hcmp; cbn [sorted_desc]; [eauto|].
  destruct IH as [s Hs].
  { intros a b Ha Hb. apply Hcmp; now right. }
  rewrite Hs. unfold rbind. apply insert_desc_total.
  apply Forall_forall. intros y Hy%list_elem_of_In.
  apply Hcmp; [now left | right].
  eapply Permutation_in; [apply Permutation_sym, sorted_desc_perm, Hs | exact Hy].
Qed.

Lemma key_kinds x : key_is_number x = negb (key_is_text x).
Proof.
  unfold key_is_number, key_is_text, sort_key, py_or.
  destruct (Pub.Year x) as [|[]|z|s]; try reflexivity;
    match goal with |- context [truthy ?v] => destruct (truthy v) end;
    reflexivity.
Qed.

Lemma py_lt_numbers a b :
  key_is_number a = true -> key_is_number b = true ->
  exists c, py_lt (sort_key a) (sort_key b) = Ok c.
Proof.
  unfold key_is_number, py_lt.
  destruct (as_number (sort_key a)), (as_number (sort_key b));
    try discriminate; eauto.
Qed.

Lemma py_lt_texts a b :
  key_is_text a = true -> key_is_text b = true ->
  exists c, py_lt (sort_key a) (sort_key b) = Ok c.
Proof.
  unfold key_is_text, py_lt.
  destruct (sort_key a), (sort_key b); try discriminate; simpl; eauto.
Qed.

Lemma forallb_In {A} (f : A -> bool) l x :
  forallb f l = true -> In x l -> f x = true.
Proof. intros H. now apply (proj1 (forallb_forall f l) H). Qed.

Lemma sorted_desc_one_kind l :
  one_kind l = true -> exists r, sorted_desc l = Ok r.
Proof.
  unfold one_kind. intros [H|H]%orb_prop; apply sorted_desc_total; intros a b Ha Hb.
  - apply py_lt_numbers; eapply forallb_In; eassumption.
  - apply py_lt_texts; eapply forallb_In; eassumption.
Qed.

Lemma forallb_false_In {A} (f : A -> bool) l :
  forallb f l = false -> exists x, In x l /\ f x = false.
Proof.
  induction l as [|x l IH]; cbn; [discriminate|].
  destruct (f x) eqn:E; cbn.
  - intros H. destruct (IH H) as (y & Hy & Hf). eauto.
  - eauto.
Qed.

Lemma one_kind_false l :
  one_kind l = false ->
  exists a b, In a l /\ In b l
              /\ key_is_number a = true /\ key_is_text b = true.
Proof.
  unfold one_kind. intros [Hn Ht]%orb_false_elim.
  destruct (forallb_false_In _ _ Hn) as (b & Hb & Hnb).
  destruct (forallb_false_In _ _ Ht) as (a & Ha & Hta).
  exists a, b. rewrite key_kinds in *.
  rewrite Hta. destruct (key_is_text b); [auto | discriminate].
Qed.

Lemma StronglySorted_app {A} (R : A -> A -> Prop) l1 l2 x y :
  StronglySorted R (l1 ++ l2) -> In x l1 -> In y l2 -> R x y.
Proof.
  induction l1 as [|a l1 IH]; intros Hs Hx Hy; [destruct Hx|].
  cbn in Hs. inversion Hs as [|? ? Hs' Hall]; subst.
  destruct Hx as [<-|Hx]; [|now apply IH].
  rewrite Forall_forall in Hall. apply Hall, list_elem_of_In.
  apply in_or_app. now right.
Qed.

End OrderFacts.

Section FetchOrder.
Context {lib : PyLib} {S : Type} {scholarly : Scholarly S}.

(** what the fetcher does once the source has listed [raw] and every
    publication of [raw] has given a record *)
Lemma fetch_author_pubs_published user_id scholar_url n (w : world S)
    raw structured :
  source_published user_id w raw ->
  Forall2 (fun pub x => structure_pub user_id scholar_url pub = Ok x)
          raw structured ->
  exists s,
    fetch_author_pubs user_id scholar_url n w
    = match sorted_desc structured with
      | Ok structured_sorted =>
          (Ok (slice_to n structured_sorted), set_net s w)
      | Raise e =>
          (Ok [], logged (PrintFetchError user_id e) (set_net s w))
      end.
Proof.
  intros (a1 & s1 & a2 & s2 & H1 & H2 & H3) Hall. exists s2.
  rewrite fetch_author_pubs_eq, fetch_try_eq, H1, H2.
  unfold structure_author. unfold rbind in *.
  destruct (author_publications a2) as [ps|]; [|discriminate].
  rewrite H3, (structure_loop_all _ _ _ _ [] Hall). cbn [List.app].
  destruct (sorted_desc structured); reflexivity.
Qed.

Lemma digits_ascii s :
  Str.forallb Str.is_digit s = true -> Str.forallb Str.is_ascii s = true.
Proof.
  induction s as [|c s IH]; cbn [Str.forallb]; [reflexivity|].
  intros [Hc Hs]%andb_prop. rewrite (IH Hs), andb_true_r.
  unfold Str.is_digit, Str.between, Str.is_ascii in *.
  apply andb_prop in Hc as [_ Hc%Nat.leb_le]. apply Nat.ltb_lt. lia.
Qed.

Lemma year_field_numeric v :
  numeric_year v = true ->
  exists y z, year_field v = Ok y /\ as_number y = Some z.
Proof.
  unfold year_field. destruct v as [|b|z|s]; cbn [numeric_year str_isdigit];
    try discriminate.
  - intros _. exists (VBool b). eexists. split; reflexivity.
  - intros _. exists (VInt z), z. destruct (0 <=? z); split; reflexivity.
  - intros H. pose proof H as [_ Hd]%andb_prop.
    rewrite (digits_ascii _ Hd), H. cbn [py_int]. rewrite H.
    eexists _, _. split; reflexivity.
Qed.

Lemma citations_field_converts v :
  citation_converts v = true -> exists c, citations_field v = Ok c.
Proof.
  unfold citations_field. destruct (truthy v) eqn:Ht; [|eauto].
  destruct v as [|b|z|s]; cbn [citation_converts py_int]; try discriminate;
    eauto.
  intros ->. rewrite andb_true_r.
  cbn in Ht. rewrite Ht. eauto.
Qed.

Lemma number_key y z link t j c :
  as_number y = Some z -> key_is_number (Pub.mk t j y c link) = true.
Proof.
  unfold key_is_number, sort_key, py_or. cbn [Pub.Year].
  destruct y as [|b|x|s]; try discriminate; intros _;
    match goal with |- context [truthy ?v] => destruct (truthy v) end;
    reflexivity.
Qed.

Lemma structure_pub_well_formed user_id scholar_url pub :
  well_formed_pub pub = true ->
  exists r z,
    structure_pub user_id scholar_url pub = Ok r
    /\ key_is_number r = true
    /\ as_number (Pub.Year r) = Some z.
Proof.
  destruct pub as [bib cit|]; [|discriminate].
  unfold well_formed_pub, pub_bib, structure_pub.
  destruct (default (BibDict ∅) bib) as [fields|]; [|discriminate].
  cbn [pub_citations]. intros [Hy Hc]%andb_prop.
  destruct (year_field_numeric _ Hy) as (y & z & -> & Hz).
  destruct (citations_field_converts _ Hc) as (c & ->).
  unfold rbind. eexists _, z. split; [reflexivity|]. split.
  - eapply number_key, Hz.
  - exact Hz.
Qed.

Lemma structure_loop_well_formed user_id scholar_url raw :
  forallb well_formed_pub raw = true ->
  exists structured,
    Forall2 (fun pub x => structure_pub user_id scholar_url pub = Ok x)
            raw structured
    /\ forallb key_is_number structured = true
    /\ Forall (fun r => exists z, as_number (Pub.Year r) = Some z) structured.
Proof.
  induction raw as [|pub raw IH]; cbn [forallb].
  - intros _. exists []. repeat constructor.
  - intros [Hp Hr]%andb_prop.
    destruct (IH Hr) as (st & Hall & Hk & Hy).
    destruct (structure_pub_well_formed user_id scholar_url pub Hp)
      as (r & z & Hr' & Hkr & Hz).
    exists (r :: st). repeat split.
    + now constructor.
    + cbn [forallb]. now rewrite Hkr, Hk.
    + constructor; eauto.
Qed.

Lemma slice_to_count {A} n (l : list A) :
  0 <= n -> length (slice_to n l) = Nat.min (Z.to_nat n) (length l).
Proof.
  intros Hn. unfold slice_to. destruct (Z.leb_spec 0 n); [|lia].
  apply length_firstn.
Qed.

Lemma slice_to_skipn {A} n (l : list A) :
  l = slice_to n l ++ skipn (length (slice_to n l)) l.
Proof.
  unfold slice_to. destruct (0 <=? n).
  - destruct (Nat.le_gt_cases (Z.to_nat n) (length l)) as [Hle|Hgt].
    + rewrite length_firstn, Nat.min_l by exact Hle.
      now rewrite firstn_skipn.
    + rewrite firstn_all2 by lia. rewrite skipn_all2 by lia.
      now rewrite List.app_nil_r.
  - rewrite length_firstn, Nat.min_l by lia. now rewrite firstn_skipn.
Qed.

End FetchOrder.



(** X6: when the keys of the records are all numbers or all texts and
    [n >= 0], the call prints no warning and returns the [n] most recent
    records (all of them when there are fewer): what it returns and what it
    drops are together the records built, and no record dropped is more
    recent than a record returned. *)
Theorem fetch_author_pubs_top
    (lib : PyLib) (S : Type) (scholarly : Scholarly S)
    (user_id : string) (scholar_url : pyval) (n : Z) (w : world S)
    (raw : list raw_pub) (structured : list Pub.t) :
  0 <= n ->
  source_published user_id w raw ->
  Forall2 (fun pub x => structure_pub user_id scholar_url pub = Ok x)
          raw structured ->
  one_kind structured = true ->
  exists pubs w' dropped,
    fetch_author_pubs user_id scholar_url n w = (Ok pubs, w')
    /\ console w' = console w
    /\ Permutation structured (pubs ++ dropped)
    /\ (forall x y, In x pubs -> In y dropped -> year_desc x y)
    /\ length pubs = Nat.min (Z.to_nat n) (length raw).
Proof.
  intros Hn Hsrc Hall Hkind.
  destruct (fetch_author_pubs_published user_id scholar_url n w _ _ Hsrc Hall)
    as [s ->].
  destruct (sorted_desc_one_kind _ Hkind) as [r Hr]. rewrite Hr.
  exists (slice_to n r), (set_net s w), (skipn (length (slice_to n r)) r).
  split; [reflexivity|]. split; [reflexivity|].
  pose proof (sorted_desc_perm _ _ Hr) as Hp.
  split; [|split].
  - now rewrite <- slice_to_skipn.
  - intros x y Hx Hy. eapply StronglySorted_app; [|exact Hx|exact Hy].
    rewrite <- slice_to_skipn. eapply sorted_desc_sorted, Hr.
  - rewrite slice_to_count by exact Hn.
    rewrite <- (Permutation_length Hp).
    now rewrite (Forall2_length _ _ _ Hall).
Qed.

Lemma fetch_author_pubs_top_witness :
  exists pubs w' dropped,
    fetch_author_pubs (lib := ascii_lib) (scholarly := Demo.source)
      "ABC123" DemoFetch.url 2 Demo.start = (Ok pubs, w')
    /\ console w' = console Demo.start
    /\ Permutation DemoFetch.abc_structured (pubs ++ dropped)
    /\ (forall x y, In x pubs -> In y dropped -> year_desc x y)
    /\ length pubs = Nat.min (Z.to_nat 2) (length DemoFetch.abc_raw).
Proof.
  apply (fetch_author_pubs_top ascii_lib nat Demo.source "ABC123"
           DemoFetch.url 2 Demo.start DemoFetch.abc_raw
           DemoFetch.abc_structured).
  - lia.
  - exists Demo.abc, 1%nat, Demo.abc, 2%nat. repeat split; reflexivity.
  - repeat constructor.
  - reflexivity.
Defined.



(** ** The rows of the spreadsheet *)

Section RowFacts.
Context {lib : PyLib} {S : Type} {scholarly : Scholarly S}.

(** one turn of the loop of [main] *)
Lemma main_loop_cons df row todo results (w : world S) :
  main_loop df (row :: todo) results w =
  match row_get df row "Faculty Name" with
  | Raise e => (Raise e, w)
  | Ok name =>
      match row_get df row "Google Scholar Profile URL" with
      | Raise e => (Raise e, w)
      | Ok scholar_url =>
          let w1 := logged (PrintFetching name) w in
          match extract_scholar_userid scholar_url with
          | Raise e => (Raise e, w1)
          | Ok (Some (String c u)) =>
              match fetch_author_pubs (String c u) scholar_url
                      PAPERS_PER_FACULTY w1 with
              | (Ok pubs, w2) =>
                  main_loop df todo (results ++ map (out_of name) pubs)
                    (paused 2 (logged (PrintFetched (length pubs) name) w2))
              | (Raise e, w2) => (Raise e, w2)
              end
          | Ok _ => main_loop df todo results (logged (PrintSkipping name) w1)
          end
      end
  end.
Proof.
  cbn [main_loop]. unfold bind at 1. unfold lift at 1.
  destruct (row_get df row "Faculty Name") as [name|]; [|reflexivity].
  unfold bind at 1. unfold lift at 1.
  destruct (row_get df row "Google Scholar Profile URL") as [url|]; [|reflexivity].
  unfold bind at 1. unfold print at 1.
  unfold bind at 1. unfold lift at 1.
  destruct (extract_scholar_userid url) as [[[|c u]|]|]; try reflexivity.
  cbv zeta. unfold bind at 1. unfold logged.
  destruct (fetch_author_pubs (String c u) url PAPERS_PER_FACULTY _)
    as [[pubs|e] w2]; [|reflexivity].
  rewrite append_pubs_eq. reflexivity.
Qed.

(** the fetcher reads the world through the source only *)
Lemma fetch_author_pubs_same user_id scholar_url n (w v : world S) :
  same_effects w v ->
  exists pubs w' v',
    fetch_author_pubs user_id scholar_url n w = (Ok pubs, w')
    /\ fetch_author_pubs user_id scholar_url n v = (Ok pubs, v')
    /\ same_effects w' v'
    /\ slept w' = slept w.
Proof.
  intros (Hn & Hs & Ho).
  rewrite !fetch_author_pubs_eq, !fetch_try_eq, <- Hn.
  destruct (search_author_id user_id (net w)) as [[a1|e] s1].
  2:{ eexists _, _, _. repeat split; auto. }
  destruct (fill a1 s1) as [[a2|e] s2].
  2:{ eexists _, _, _. repeat split; auto. }
  destruct (structure_author user_id scholar_url n a2) as [pubs|e];
    eexists _, _, _; repeat split; auto.
Qed.

Lemma row_identified_spec df row url :
  row_get df row "Google Scholar Profile URL" = Ok url ->
  row_identified df row
  = match extract_scholar_userid url with
    | Ok (Some (String _ _)) => true
    | _ => false
    end.
Proof. unfold row_identified, identified. now intros ->. Qed.


Lemma main_loop_sleeps df todo results (w : world S) :
  columns_ok df ->
  exists r w',
    main_loop df todo results w = (Ok r, w')
    /\ slept w'
       = slept w
         + 2 * Z.of_nat (length (List.filter (row_identified df) todo)).
Proof.
  intros Hcols. revert results w.
  induction todo as [|row todo IH]; intros results w.
  - exists results, w. split; [reflexivity | cbn; lia].
  - rewrite main_loop_cons.
    destruct (columns_ok_get df row Hcols) as (name & url & Hn & Hu).
    rewrite Hn, Hu. cbv zeta. cbn [List.filter].
    rewrite (row_identified_spec _ _ _ Hu).
    destruct (extract_scholar_userid_returns url) as [uid ->].
    destruct uid as [[|c u]|].
    + destruct (IH results (logged (PrintSkipping name)
                              (logged (PrintFetching name) w)))
        as (r & w' & -> & Hs).
      exists r, w'. split; [reflexivity | exact Hs].
    + destruct (fetch_author_pubs_spec (String c u) url PAPERS_PER_FACULTY
                  (logged (PrintFetching name) w))
        as (pubs & w2 & -> & Hsl & _).
      destruct (IH (results ++ map (out_of name) pubs)
                   (paused 2 (logged (PrintFetched (length pubs) name) w2)))
        as (r & w' & -> & Hs).
      exists r, w'. split; [reflexivity|].
      rewrite Hs. cbn [paused logged slept length] in *. lia.
    + destruct (IH results (logged (PrintSkipping name)
                              (logged (PrintFetching name) w)))
        as (r & w' & -> & Hs).
      exists r, w'. split; [reflexivity | exact Hs].
Qed.

Lemma row_get_columns df df' row col :
  columns df' = columns df -> row_get df' row col = row_get df row col.
Proof. unfold row_get. now intros ->. Qed.

(** the rows without identifier change the console only *)
Lemma main_loop_identified df df' todo results (w v : world S) :
  columns_ok df -> columns df' = columns df -> same_effects w v ->
  exists r w' v',
    main_loop df todo results w = (Ok r, w')
    /\ main_loop df' (List.filter (row_identified df) todo) results v
       = (Ok r, v')
    /\ same_effects w' v'.
Proof.
  intros Hcols Hsame. revert results w v.
  induction todo as [|row todo IH]; intros results w v Hwv.
  - exists results, w, v. repeat split; apply Hwv.
  - rewrite main_loop_cons.
    destruct (columns_ok_get df row Hcols) as (name & url & Hn & Hu).
    rewrite Hn, Hu. cbv zeta. cbn [List.filter].
    rewrite (row_identified_spec _ _ _ Hu).
    destruct (extract_scholar_userid_returns url) as [uid Hx]. rewrite Hx.
    assert (Hskip : forall ev1 ev2, same_effects (logged ev1 (logged ev2 w)) v).
    { intros ev1 ev2. exact Hwv. }
    destruct uid as [[|c u]|]; [now apply IH| |now apply IH].
    rewrite main_loop_cons, !(row_get_columns _ _ _ _ Hsame), Hn, Hu, Hx.
    cbv zeta.
    destruct (fetch_author_pubs_same (String c u) url PAPERS_PER_FACULTY
                (logged (PrintFetching name) w)
                (logged (PrintFetching name) v))
      as (pubs & w2 & v2 & -> & -> & H2 & _); [exact Hwv|].
    apply IH. destruct H2 as (H2n & H2s & H2o).
    repeat split; cbn; congruence.
Qed.

Lemma main_loop_cells df1 df2 todo1 todo2 results (w : world S) :
  Forall2 (fun r1 r2 => cells df1 r1 = cells df2 r2) todo1 todo2 ->
  main_loop df1 todo1 results w = main_loop df2 todo2 results w.
Proof.
  intros Hall. revert results w.
  induction Hall as [|r1 r2 todo1 todo2 Hc _ IH]; intros results w;
    [reflexivity|].
  rewrite !main_loop_cons. unfold cells in Hc. injection Hc as -> ->.
  destruct (row_get df2 r2 "Faculty Name") as [name|]; [|reflexivity].
  destruct (row_get df2 r2 "Google Scholar Profile URL") as [url|];
    [|reflexivity].
  cbv zeta.
  destruct (extract_scholar_userid url) as [[[|c u]|]|]; try reflexivity;
    try apply IH.
  destruct (fetch_author_pubs _ _ _ _) as [[pubs|e] w2]; [apply IH | reflexivity].
Qed.

(** [main] once the columns are there, in terms of the loop *)
Lemma main_eq df (w : world S) :
  columns_ok df ->
  main df w =
  match main_loop df (rows df) []
          (logged (PrintFound (length (rows df)))
             (logged (PrintLoaded (length (rows df)))
                (logged PrintReading w))) with
  | (Ok results, w1) =>
      (Ok tt,
       logged PrintUploadExample
         (logged PrintUploadHint
            (logged PrintLocation
               (logged PrintCreated
                  (mkWorld (net w1) (console w1) (slept w1)
                           (Some (json_dump results)))))))
  | (Raise e, w1) => (Raise e, w1)
  end.
Proof.
  intros Hcols. unfold main. unfold columns_ok in Hcols. rewrite Hcols.
  cbn [negb]. unfold bind at 1. unfold print at 1.
  unfold bind at 1. unfold print at 1.
  unfold bind at 1. unfold print at 1.
  cbn [net console slept output_file]. unfold bind at 1. unfold logged at 1 2 3.
  cbn [net console slept output_file].
  destruct (main_loop df (rows df) [] _) as [[results|e] w1]; reflexivity.
Qed.

End RowFacts.

(** X8: with both columns there, the run pauses two seconds for each row
    from which a non-empty identifier is extracted, whether the fetch for it
    succeeds or not, and for no other row. *)
Theorem main_sleeps
    (lib : PyLib) (S : Type) (scholarly : Scholarly S)
    (df : dataframe) (w : world S) :
  columns_ok df ->
  exists w',
    main df w = (Ok tt, w')
    /\ slept w'
       = slept w
         + 2 * Z.of_nat (length (List.filter (row_identified df) (rows df))).
Proof.
  intros Hcols. rewrite (main_eq df w Hcols).
  match goal with |- context [main_loop df (rows df) [] ?w0] =>
    destruct (main_loop_sleeps df (rows df) [] w0 Hcols) as (r & w1 & -> & Hs)
  end.
  eexists. split; [reflexivity|]. exact Hs.
Qed.

Lemma main_sleeps_witness :
  exists w',
    main (lib := ascii_lib) (scholarly := Demo.source) Demo.frame Demo.start
    = (Ok tt, w')
    /\ slept w'
       = slept Demo.start
         + 2 * Z.of_nat (length (List.filter
                                   (row_identified (lib := ascii_lib) Demo.frame)
                                   (rows Demo.frame))).
Proof.
  apply (main_sleeps ascii_lib nat Demo.source Demo.frame Demo.start).
  reflexivity.
Defined.

(** X9: a row from which no identifier is extracted changes the console
    only.  The run on the spreadsheet and the run on the spreadsheet without
    these rows write the same file, leave the source in the same state and
    pause as long. *)
Theorem main_skipped_rows
    (lib : PyLib) (S : Type) (scholarly : Scholarly S)
    (df : dataframe) (w : world S) :
  columns_ok df ->
  exists w1 w2,
    main df w = (Ok tt, w1)
    /\ main (identified_rows df) w = (Ok tt, w2)
    /\ same_effects w1 w2.
Proof.
  intros Hcols.
  assert (Hcols' : columns_ok (identified_rows df)) by exact Hcols.
  rewrite (main_eq df w Hcols), (main_eq (identified_rows df) w Hcols').
  cbn [identified_rows rows].
  match goal with
  | |- context [main_loop df (rows df) [] ?w0] =>
      match goal with
      | |- context [main_loop (identified_rows df) _ [] ?v0] =>
          destruct (main_loop_identified df (identified_rows df) (rows df) []
                      w0 v0 Hcols eq_refl)
            as (r & w1 & v1 & -> & Hv & Hsame);
            [repeat split|]
      end
  end.
  cbn [identified_rows rows] in Hv. rewrite Hv.
  eexists _, _. split; [reflexivity|]. split; [reflexivity|].
  destruct Hsame as (Hn & Hs & _). repeat split; cbn; congruence.
Qed.

Lemma main_skipped_rows_witness :
  exists w1 w2,
    main (lib := ascii_lib) (scholarly := Demo.source) Demo.frame Demo.start
    = (Ok tt, w1)
    /\ main (lib := ascii_lib) (scholarly := Demo.source)
            (identified_rows (lib := ascii_lib) Demo.frame) Demo.start
       = (Ok tt, w2)
    /\ same_effects w1 w2.
Proof.
  apply (main_skipped_rows ascii_lib nat Demo.source Demo.frame Demo.start).
  reflexivity.
Defined.

(** X10: the run reads the two named columns only.  Two spreadsheets that
    have both columns and agree, row by row, on the cells of these columns
    give the same run: the same file, the same console, the same calls. *)
Theorem main_other_columns
    (lib : PyLib) (S : Type) (scholarly : Scholarly S)
    (df1 df2 : dataframe) (w : world S) :
  columns_ok df1 -> columns_ok df2 ->
  Forall2 (fun r1 r2 => cells df1 r1 = cells df2 r2) (rows df1) (rows df2) ->
  main df1 w = main df2 w.
Proof.
  intros H1 H2 Hall. rewrite (main_eq df1 w H1), (main_eq df2 w H2).
  rewrite (Forall2_length _ _ _ Hall).
  now rewrite (main_loop_cells df1 df2 _ _ [] _ Hall).
Qed.

Lemma main_other_columns_witness :
  main (lib := ascii_lib) (scholarly := Demo.source) Demo.frame Demo.start
  = main (lib := ascii_lib) (scholarly := Demo.source) DemoRows.frame_wide
         Demo.start.
Proof.
  apply (main_other_columns ascii_lib nat Demo.source Demo.frame
           DemoRows.frame_wide Demo.start).
  - reflexivity.
  - reflexivity.
  - repeat constructor.
Defined.

(** X11: each row contributes at most [PAPERS_PER_FACULTY] records to the
    file, and each of them carries the name in the row. *)
Theorem main_rows_bounded
    (lib : PyLib) (S : Type) (scholarly : Scholarly S)
    (df : dataframe) (w : world S) :
  columns_ok df ->
  exists blocks w',
    main df w = (Ok tt, w')
    /\ output_file w' = Some (json_dump (concat blocks))
    /\ Forall2 (fun row block =>
                  Z.of_nat (length block) <= PAPERS_PER_FACULTY
                  /\ Forall (fun r => row_get df row "Faculty Name"
                                      = Ok (Out.Faculty_Name r)) block)
               (rows df) blocks.
Proof.
  intros Hcols.
  destruct (main_spec df w Hcols) as (blocks & w' & Hrun & Hout & Hall).
  exists blocks, w'. split; [exact Hrun|]. split; [exact Hout|].
  eapply Forall2_impl; [exact Hall|]. clear. intros row block Hrow.
  destruct Hrow as (name & url & Hn & _ & [[-> _]|Hfetch]).
  - split; [cbn; unfold PAPERS_PER_FACULTY; lia | constructor].
  - destruct Hfetch as (uid & pubs & w1 & w2 & _ & _ & Hf & ->).
    split.
    + rewrite length_map.
      destruct (fetch_author_pubs_spec uid url PAPERS_PER_FACULTY w1)
        as (pubs' & w2' & Hf' & _ & _ & Hpubs).
      rewrite Hf in Hf'. injection Hf' as <- <-.
      destruct Hpubs as [->|(raw & _ & Hst)];
        [cbn; unfold PAPERS_PER_FACULTY; lia|].
      eapply structured_from_length; [|exact Hst].
      unfold PAPERS_PER_FACULTY. lia.
    + rewrite Hn. apply Forall_forall. intros r Hr%list_elem_of_In.
      apply in_map_iff in Hr as (p & <- & _). reflexivity.
Qed.

Lemma main_rows_bounded_witness :
  exists blocks w',
    main (lib := ascii_lib) (scholarly := Demo.source) Demo.frame Demo.start
    = (Ok tt, w')
    /\ output_file w' = Some (json_dump (concat blocks))
    /\ Forall2 (fun row block =>
                  Z.of_nat (length block) <= PAPERS_PER_FACULTY
                  /\ Forall (fun r => row_get Demo.frame row "Faculty Name"
                                      = Ok (Out.Faculty_Name r)) block)
               (rows Demo.frame) blocks.
Proof.
  apply (main_rows_bounded ascii_lib nat Demo.source Demo.frame Demo.start).
  reflexivity.
Defined.

(** ** The link and the identifier *)

Section LinkFacts.
Context {lib : PyLib}.

Lemma forallb_impl (f g : ascii -> bool) s :
  (forall c, f c = true -> g c = true) ->
  Str.forallb f s = true -> Str.forallb g s = true.
Proof.
  intros Hfg. induction s as [|c s IH]; cbn [Str.forallb]; [reflexivity|].
  intros [Hc Hs]%andb_prop. now rewrite (Hfg _ Hc), (IH Hs).
Qed.

Lemma forallb_app f a b :
  Str.forallb f (a +:+ b) = Str.forallb f a && Str.forallb f b.
Proof.
  induction a as [|c a IH]; [reflexivity|].
  rewrite StrFacts.app_cons. cbn [Str.forallb]. now rewrite IH, andb_assoc.
Qed.

Lemma filter_app f a b :
  Str.filter f (a +:+ b) = Str.filter f a +:+ Str.filter f b.
Proof.
  induction a as [|c a IH]; [reflexivity|].
  rewrite StrFacts.app_cons. cbn [Str.filter]. rewrite IH.
  now destruct (f c).
Qed.

Lemma filter_all f s : Str.forallb f s = true -> Str.filter f s = s.
Proof.
  induction s as [|c s IH]; cbn [Str.forallb Str.filter]; [reflexivity|].
  intros [-> Hs]%andb_prop. now rewrite (IH Hs).
Qed.

Lemma split1_absent c s :
  Str.forallb (fun a => negb (Ascii.eqb a c)) s = true ->
  Str.split1 c s = (s, None).
Proof.
  induction s as [|a s IH]; cbn [Str.forallb Str.split1]; [reflexivity|].
  intros [Ha Hs]%andb_prop. apply negb_true_iff in Ha. now rewrite Ha, (IH Hs).
Qed.

Lemma plus_to_space_absent s :
  Str.forallb (fun a => negb (Ascii.eqb a "+")) s = true ->
  Urllib.plus_to_space s = s.
Proof.
  unfold Urllib.plus_to_space.
  induction s as [|a s IH]; cbn [Str.forallb Str.map]; [reflexivity|].
  intros [Ha Hs]%andb_prop. apply negb_true_iff in Ha. now rewrite Ha, (IH Hs).
Qed.

Lemma contains_char_absent c s :
  Str.forallb (fun a => negb (Ascii.eqb a c)) s = true ->
  Str.contains (String c "") s = false.
Proof.
  induction s as [|a s IH]; cbn [Str.forallb]; [reflexivity|].
  intros [Ha Hs]%andb_prop. rewrite StrFacts.contains_cons, (IH Hs), orb_false_r.
  apply negb_true_iff in Ha. cbn [String.prefix].
  destruct (Ascii.ascii_dec c a) as [->|]; [|reflexivity].
  now rewrite Ascii.eqb_refl in Ha.
Qed.

Lemma split_go_absent sep cur s :
  Str.contains sep s = false -> Str.split_go sep 0 cur s = [cur +:+ s].
Proof.
  revert cur. induction s as [|c s IH]; intros cur.
  - intros _. cbn [Str.split_go]. now rewrite StrFacts.app_nil_r.
  - rewrite StrFacts.contains_cons. intros [Hp Hs]%orb_false_elim.
    rewrite StrFacts.split_go_scan, Hp, (IH _ Hs).
    now rewrite StrFacts.app_assoc.
Qed.

Lemma split_absent sep s : Str.contains sep s = false -> Str.split sep s = [s].
Proof. apply split_go_absent. Qed.

Lemma id_char_absent (c : ascii) uid :
  (forall a, id_char a = true -> Ascii.eqb a c = false) ->
  Str.forallb id_char uid = true ->
  Str.forallb (fun a => negb (Ascii.eqb a c)) uid = true.
Proof.
  intros Hc. apply forallb_impl. intros a Ha. now rewrite (Hc a Ha).
Qed.

Lemma id_char_cases a :
  id_char a = true ->
  Ascii.eqb a "&" = false /\ Ascii.eqb a "#" = false
  /\ Ascii.eqb a "%" = false /\ Ascii.eqb a "+" = false
  /\ Urllib.unsafe a = false.
Proof.
  unfold id_char. intros H%negb_true_iff.
  repeat (apply orb_false_elim in H as [H ?]). auto.
Qed.

Lemma urlparse_query_profile_url uid :
  Str.forallb id_char uid = true ->
  Urllib.urlparse_query (profile_url uid) = Ok ("user=" +:+ uid).
Proof.
  intros Hid. unfold Urllib.urlparse_query.
  assert (H1 : Urllib.lstrip (profile_url uid) = profile_url uid)
    by reflexivity.
  assert (H2 : Str.filter (fun c => negb (Urllib.unsafe c)) (profile_url uid)
               = profile_url uid).
  { unfold profile_url. rewrite filter_app. f_equal.
    apply filter_all. revert Hid. apply forallb_impl.
    intros a Ha. destruct (id_char_cases a Ha) as (_ & _ & _ & _ & ->).
    reflexivity. }
  assert (H3 : Urllib.drop_scheme (profile_url uid)
               = "//scholar.google.com/citations?user=" +:+ uid)
    by reflexivity.
  assert (H4 : Urllib.split_netloc ("//scholar.google.com/citations?user=" +:+ uid)
               = ("scholar.google.com"%string, "/citations?user=" +:+ uid))
    by reflexivity.
  assert (H5 : Str.split1 "#" ("/citations?user=" +:+ uid)
               = ("/citations?user=" +:+ uid, None)).
  { apply split1_absent. rewrite forallb_app. apply andb_true_intro.
    split; [reflexivity|].
    apply id_char_absent; [|exact Hid].
    intros a Ha. now destruct (id_char_cases a Ha) as (_ & -> & _). }
  assert (H6 : Str.split1 "?" ("/citations?user=" +:+ uid)
               = ("/citations"%string, Some ("user=" +:+ uid)))
    by reflexivity.
  rewrite H1, H2, H3, H4. cbv beta iota.
  change (Urllib.has "[" "scholar.google.com") with false.
  change (Urllib.has "]" "scholar.google.com") with false.
  cbn [xorb andb]. rewrite H5. cbn [fst]. rewrite H6.
  change (Str.forallb Str.is_ascii "scholar.google.com") with true.
  reflexivity.
Qed.

Lemma query_value_user uid :
  uid <> ""%string ->
  Str.forallb id_char uid = true ->
  query_value "user" ("user=" +:+ uid) = Some uid.
Proof.
  intros Hne Hid. unfold query_value, Urllib.parse_qsl.
  rewrite split_absent.
  2:{ apply (contains_char_absent "&"). rewrite forallb_app.
      apply andb_true_intro. split; [reflexivity|].
      apply id_char_absent; [|exact Hid].
      intros a Ha. now destruct (id_char_cases a Ha) as (-> & _). }
  cbn [omap list_omap]. 
  assert (Hf : Urllib.parse_field ("user=" +:+ uid) = Some ("user"%string, uid)).
  { destruct uid as [|c u]; [congruence|].
    change (Urllib.parse_field ("user=" +:+ String c u))
      with (Some (Urllib.unquote (Urllib.plus_to_space "user"),
                  Urllib.unquote (Urllib.plus_to_space (String c u)))).
    rewrite (plus_to_space_absent (String c u)).
    2:{ apply id_char_absent; [|exact Hid].
        intros a Ha. now destruct (id_char_cases a Ha) as (_ & _ & _ & -> & _). }
    unfold Urllib.unquote at 2.
    rewrite (contains_char_absent "%" (String c u)).
    2:{ apply id_char_absent; [|exact Hid].
        intros a Ha. now destruct (id_char_cases a Ha) as (_ & _ & -> & _). }
    reflexivity. }
  rewrite Hf. reflexivity.
Qed.

End LinkFacts.

(** X12: the link written for a non-empty identifier leads back to it.  For
    an identifier without [&], [#], [%], [+], tab, LF and CR, the extractor
    applied to the link that [fetch_author_pubs] builds returns this
    identifier. *)
Theorem link_round_trip (lib : PyLib) (user_id : string) (scholar_url : pyval) :
  user_id <> ""%string ->
  Str.forallb id_char user_id = true ->
  extract_scholar_userid (link_field user_id scholar_url) = Ok (Some user_id).
Proof.
  intros Hne Hid. rewrite (link_field_profile _ _ Hne).
  rewrite extract_of_try, extract_try_str.
  rewrite (urlparse_query_profile_url _ Hid).
  now rewrite (query_value_user _ Hne Hid).
Qed.

Lemma link_round_trip_witness :
  extract_scholar_userid (lib := ascii_lib)
    (link_field "ABC-123_x" (VStr "https://example.org/")) 
  = Ok (Some "ABC-123_x"%string).
Proof.
  apply (link_round_trip ascii_lib "ABC-123_x" (VStr "https://example.org/")).
  - discriminate.
  - reflexivity.
Defined.

Section SplitFacts.

Lemma split_go_drop sep suf cur s :
  Str.split_go sep (String.length suf) cur (suf +:+ s)
  = Str.split_go sep 0 cur s.
Proof.
  induction suf as [|c suf IH]; [reflexivity|].
  rewrite StrFacts.app_cons. cbn [String.length].
  now rewrite StrFacts.split_go_skip.
Qed.

Lemma length_app_string a b :
  String.length (a +:+ b) = (String.length a + String.length b)%nat.
Proof.
  induction a as [|c a IH]; [reflexivity|].
  rewrite StrFacts.app_cons. cbn [String.length]. now rewrite IH.
Qed.

Lemma concat_cons_nonempty sep x l :
  l <> [] -> String.concat sep (x :: l) = x +:+ sep +:+ String.concat sep l.
Proof. destruct l; [congruence | reflexivity]. Qed.

Lemma concat_split_go sep n :
  sep <> ""%string ->
  forall s cur,
    (String.length s <= n)%nat ->
    String.concat sep (Str.split_go sep 0 cur s) = cur +:+ s.
Proof.
  intros Hsep. induction n as [|n IH]; intros s cur Hn.
  - destruct s; [|cbn in Hn; lia]. cbn. now rewrite StrFacts.app_nil_r.
  - destruct s as [|c s]; [cbn; now rewrite StrFacts.app_nil_r|].
    rewrite StrFacts.split_go_scan.
    destruct (String.prefix sep (String c s)) eqn:Hp.
    + destruct (StrFacts.prefix_inv _ _ Hp) as [b Hb].
      destruct sep as [|c' sep']; [congruence|].
      rewrite StrFacts.app_cons in Hb. injection Hb as <- ->.
      replace (String.length (String c sep') - 1)%nat with (String.length sep')
        by (cbn [String.length]; lia).
      rewrite split_go_drop.
      rewrite concat_cons_nonempty by apply StrFacts.split_go_nonempty.
      rewrite IH.
      * rewrite StrFacts.app_nil_l, !StrFacts.app_cons. reflexivity.
      * cbn [String.length] in Hn. rewrite length_app_string in Hn. lia.
    + rewrite IH by (cbn [String.length] in Hn; lia).
      now rewrite StrFacts.app_assoc.
Qed.

(** joining the parts of a split with the separator gives the text back *)
Lemma concat_split sep s :
  sep <> ""%string -> String.concat sep (Str.split sep s) = s.
Proof.
  intros Hsep. unfold Str.split.
  now rewrite (concat_split_go sep (String.length s) Hsep s "").
Qed.

Lemma concat_starts sep x l : exists b, String.concat sep (x :: l) = x +:+ b.
Proof.
  destruct l as [|y l].
  - exists ""%string. cbn. now rewrite StrFacts.app_nil_r.
  - eexists. reflexivity.
Qed.

Lemma split_second sep s tail :
  sep <> ""%string ->
  nth_error (Str.split sep s) 1 = Some tail ->
  exists a b, s = a +:+ sep +:+ tail +:+ b.
Proof.
  intros Hsep Hnth. pose proof (concat_split sep s Hsep) as Hjoin.
  destruct (Str.split sep s) as [|a [|t rest]]; try discriminate.
  injection Hnth as ->.
  destruct (concat_starts sep tail rest) as [b Hb].
  rewrite concat_cons_nonempty, Hb in Hjoin by discriminate.
  exists a, b. now rewrite Hjoin.
Qed.

Lemma split_first sep s v rest :
  sep <> ""%string ->
  Str.split sep s = v :: rest -> exists b, s = v +:+ b.
Proof.
  intros Hsep Hsplit. pose proof (concat_split sep s Hsep) as Hjoin.
  rewrite Hsplit in Hjoin.
  destruct (concat_starts sep v rest) as [b Hb]. exists b. congruence.
Qed.

(** what the loop over the parts returns follows the text [user=] in one
    of the parts *)
Lemma scan_parts_some parts v :
  scan_parts parts = Ok (Some v) ->
  exists part, In part parts /\ Str.occurs ("user=" +:+ v) part.
Proof.
  induction parts as [|part parts IH]; cbn [scan_parts]; [discriminate|].
  destruct (Str.contains "user=" part).
  - destruct (nth_error (Str.split "user=" part) 1) as [tail|] eqn:Hnth;
      [|discriminate].
    destruct (Str.split "&" tail) as [|v' rest] eqn:Hsplit; [discriminate|].
    intros [= ->].
    destruct (split_second "user=" part tail) as (a & b & ->);
      [discriminate | exact Hnth |].
    destruct (split_first "&" tail v rest) as (b' & ->);
      [discriminate | exact Hsplit |].
    exists (a +:+ "user=" +:+ (v +:+ b') +:+ b). split; [now left|].
    exists a, (b' +:+ b). now rewrite !StrFacts.app_assoc.
  - intros H. destruct (IH H) as (p & Hp & Hocc).
    exists p. split; [now right | exact Hocc].
Qed.

End SplitFacts.

(** X13: where an identifier comes from.  When the extractor returns an
    identifier, the cell is a text, and the identifier is either the decoded
    value of the parameter [user] of the query string, or a text that
    follows [user=] in the URL as it is written. *)
Theorem extract_scholar_userid_provenance (lib : PyLib) (url : pyval) (v : string) :
  extract_scholar_userid url = Ok (Some v) ->
  exists text,
    url = VStr text
    /\ ((exists q, Urllib.urlparse_query text = Ok q
                   /\ query_value "user" q = Some v)
        \/ Str.occurs ("user=" +:+ v) text).
Proof.
  rewrite extract_of_try.
  destruct url as [| |z|text]; try discriminate.
  rewrite extract_try_str. intros H. exists text. split; [reflexivity|].
  destruct (Urllib.urlparse_query text) as [q|e]; [|discriminate].
  destruct (query_value "user" q) as [v'|] eqn:Hq.
  - injection H as ->. left. eauto.
  - right. destruct (scan_parts (Str.split "?" text)) as [[v'|]|e] eqn:Hs;
      try discriminate.
    injection H as ->.
    destruct (scan_parts_some _ _ Hs) as (part & Hin & Hocc).
    eapply StrFacts.occurs_trans; [exact Hocc|].
    eapply StrFacts.split_occurs, Hin.
Qed.

Lemma extract_scholar_userid_provenance_witness :
  exists text,
    VStr "https://scholar.google.com/citations?hl=en&superuser=abc" = VStr text
    /\ ((exists q, Urllib.urlparse_query (lib := ascii_lib) text = Ok q
                   /\ query_value (lib := ascii_lib) "user" q = Some "abc"%string)
        \/ Str.occurs ("user=" +:+ "abc") text).
Proof.
  apply (extract_scholar_userid_provenance ascii_lib
           (VStr "https://scholar.google.com/citations?hl=en&superuser=abc")
           "abc").
  reflexivity.
Defined.

(** ** The console *)

Section ConsoleFacts.
Context {lib : PyLib} {S : Type} {scholarly : Scholarly S}.

(** the fetcher prints nothing, or one warning when it returns nothing *)
Lemma fetch_author_pubs_console user_id scholar_url n (w : world S) :
  exists pubs w',
    fetch_author_pubs user_id scholar_url n w = (Ok pubs, w')
    /\ output_file w' = output_file w
    /\ (console w' = console w
        \/ (pubs = []
            /\ exists e, console w' = console w ++ [PrintFetchError user_id e])).
Proof.
  rewrite fetch_author_pubs_eq, fetch_try_eq.
  destruct (search_author_id user_id (net w)) as [[a1|e] s1].
  2:{ eexists _, _. repeat split. right. split; [reflexivity|]. now exists e. }
  destruct (fill a1 s1) as [[a2|e] s2].
  2:{ eexists _, _. repeat split. right. split; [reflexivity|]. now exists e. }
  destruct (structure_author user_id scholar_url n a2) as [pubs|e].
  - eexists _, _. repeat split. now left.
  - eexists _, _. repeat split. right. split; [reflexivity|]. now exists e.
Qed.

Lemma main_loop_console df todo results (w : world S) :
  columns_ok df ->
  exists reports w',
    main_loop df todo results w
    = (Ok (results ++ concat (map fst reports)), w')
    /\ console w' = console w ++ concat (map snd reports)
    /\ output_file w' = output_file w
    /\ Forall2 (fun row rep => row_report df row (fst rep) (snd rep))
               todo reports.
Proof.
  intros Hcols. revert results w.
  induction todo as [|row todo IH]; intros results w.
  - exists [], w. cbn. rewrite !List.app_nil_r. repeat split. constructor.
  - rewrite main_loop_cons.
    destruct (columns_ok_get df row Hcols) as (name & url & Hn & Hu).
    rewrite Hn, Hu. cbv zeta.
    destruct (extract_scholar_userid_returns url) as [uid ->].
    assert (Hskip :
      exists reports w',
        main_loop df todo results
          (logged (PrintSkipping name) (logged (PrintFetching name) w))
        = (Ok (results ++ concat (map fst reports)), w')
        /\ console w' = console w ++ concat (map snd reports)
        /\ output_file w' = output_file w
        /\ Forall2 (fun row rep => row_report df row (fst rep) (snd rep))
                   (row :: todo) reports).
    { destruct (IH results (logged (PrintSkipping name)
                              (logged (PrintFetching name) w)))
        as (reports & w' & Hrun & Hc & Ho & Hall).
      exists (([], [PrintFetching name; PrintSkipping name]) :: reports), w'.
      split; [exact Hrun|]. split; [|split; [exact Ho|]].
      - rewrite Hc. cbn. rewrite <- !List.app_assoc. reflexivity.
      - constructor; [|exact Hall]. exists name. split; [exact Hn|].
        left. split; reflexivity. }
    destruct uid as [[|c u]|]; [exact Hskip| |exact Hskip]. clear Hskip.
    destruct (fetch_author_pubs_console (String c u) url PAPERS_PER_FACULTY
                (logged (PrintFetching name) w))
      as (pubs & w2 & -> & Ho2 & Hc2).
    destruct (IH (results ++ map (out_of name) pubs)
                 (paused 2 (logged (PrintFetched (length pubs) name) w2)))
      as (reports & w' & Hrun & Hc & Ho & Hall).
    destruct Hc2 as [Hc2|(-> & e & Hc2)].
    + exists ((map (out_of name) pubs,
               [PrintFetching name;
                PrintFetched (length (map (out_of name) pubs)) name])
              :: reports), w'.
      split; [|split; [|split]].
      * rewrite Hrun. cbn [map fst concat]. now rewrite List.app_assoc.
      * rewrite Hc. cbn. rewrite Hc2. cbn. rewrite length_map.
        rewrite <- !List.app_assoc. reflexivity.
      * rewrite Ho. cbn. exact Ho2.
      * constructor; [|exact Hall]. exists name. split; [exact Hn|].
        right. left. reflexivity.
    + exists (([], [PrintFetching name; PrintFetchError (String c u) e;
                    PrintFetched 0 name]) :: reports), w'.
      split; [|split; [|split]].
      * rewrite Hrun. cbn [map fst concat List.app]. now rewrite List.app_nil_r.
      * rewrite Hc. cbn. rewrite Hc2. cbn.
        rewrite <- !List.app_assoc. reflexivity.
      * rewrite Ho. cbn. exact Ho2.
      * constructor; [|exact Hall]. exists name. split; [exact Hn|].
        right. right. split; [reflexivity|]. now exists (String c u), e.
Qed.

End ConsoleFacts.


